(* ===== verification/_CoqProject ===== *)
-Q . S2P
Prelude.v
PyFloat.v
PyValue.v
Align.v
Codec.v
CodecProps.v
CodecTypes.v
CodecExact.v
CodecB64.v
PosixPath.v
Storage.v
AlignmentIO.v
StorageB64.v
Device.v
Loaders.v
LoadersB64.v
LoadAudio.v
