(* ===== verification/Prelude.v ===== *)
(** * timething.utils: a verification development

    ** The program

    [src/timething/utils.py] is the persistence layer of a forced
    speech-to-text aligner.  An [Alignment] (produced by the acoustic
    aligner, which is not part of this repository's sources) maps the
    characters and words of a transcript to spans of model frames.  The
    file turns such a value into a JSON record in seconds
    ([alignment_meta], [write_alignment]), reads a record back into an
    [Alignment] in model frames ([read_alignment]), derives the record's
    location from the recording's id ([alignment_filename]), slices audio
    by seconds ([load_slice]), looks a model configuration up in a registry
    ([load_config]) and chooses the compute device ([best_device]).
    [write_alignment] calls [alignment_meta] and [alignment_filename];
    [read_alignment] calls [alignment_filename] and the two rescaling
    methods of the alignment; the other functions stand alone.

    ** Files, in dependency order

    - [Prelude] (this file): the result type [res] in which every Python
      exception is a value, its notation scope [res_scope], the traversal
      [traverse] that models a list comprehension whose body may raise,
      the state-and-exception computations [sres] with [x <~ m ;; k], the
      lemmas on them, the tactics [res_inv], [res_cases], [res_err] and
      [res_simpl], the hint database [res], and [forallb_range] for
      properties checked by enumeration.
    - [PyFloat]: the interface [FloatOps] that states what the code needs
      of Python's [float], and its two implementations: [binary64] (IEEE
      754 double precision through the kernel's [SpecFloat] definitions,
      with [prec = 53] and [emax = 1024]) and [exact] (the rationals [Qc],
      the ideal arithmetic the binary64 results approximate); [ExactOps],
      the laws of an exact arithmetic.
    - [PyValue]: Python values as far as JSON produces them ([pyval]), the
      exceptions the modelled code can raise ([exn]) and the operators the
      code applies: [py_mul] for [*], [py_truediv] for [/], [py_getitem]
      for [d[k]], [py_iter] for [for x in v], [py_int] for [int(v)] and
      [py_truthy] for the test of a conditional.
    - [Align]: [Segment], [Alignment] and the two rescaling methods
      [model_frames_to_seconds] and [seconds_to_model_frames].  Their code
      is in [timething/align.py], which is not under src/: they are
      modelled from section 4.1 of the specification, the check that
      rejects a degenerate alignment with [DegenerateAlignment]
      ([check_degenerate]) followed by the formula.
    - [Codec]: [alignment_meta] with its inner functions [rescale] and
      [alignments] (utils.py lines 68-97) and the part of [read_alignment]
      that follows [json.load] (lines 125-164): [read_alignment_dict] with
      its inner [dict_to_segment].
    - [CodecProps]: what the codec guarantees, for every [FloatOps]: the
      shape of a successful encoding and of a successful decoding, order
      and label preservation, the exception raised for each missing key
      in the order the code reads them, what happens to a degenerate
      alignment, and the round trip's structure ([reload]).
    - [CodecTypes]: the shape of a record as a boolean test ([is_record]),
      that the encoder returns records of that shape, the exceptions each
      direction can raise, and that the decoder is total on records of
      that shape with usable counts.
    - [CodecExact]: for reference, the round trip under an exact
      arithmetic, where decoding an encoding gives back the alignment;
      CPython's floats are not exact, and no property of the program
      rests on this file.
    - [CodecB64]: the codec under binary64 on concrete recordings, with
      the error of a round trip bounded by enumeration of all frames.
    - [PosixPath]: [pathlib]'s pure POSIX paths ([parse], [joinpath],
      [name], [parent], [to_str]) and [alignment_filename] (lines 167-173).
    - [Storage]: a file store as a finite map from paths to directories and
      files, the system calls on it ([os_mkdir], [os_open_w],
      [file_write], [os_read_json]), [Path.mkdir] with its flags and its
      recursion on the parent, and the invariant [wf_store].
    - [AlignmentIO]: [write_alignment] (lines 100-114), with
      [write_alignment_on] for a system that can refuse, and
      [read_alignment] (lines 117-164) as computations on the store, the
      relation [call] of one call of either, the invariant
      [alignment_store] of the stores they build, and their theorems.
    - [StorageB64]: the two on concrete stores.
    - [Device]: [best_device], [gpu_mps_available], [cuda_is_built] and
      [gpu_cuda_available] (lines 179-197) as computations that log the
      questions they ask torch.
    - [Loaders]: [load_config] (lines 20-37) over a registry given as a
      value, and [load_slice] (lines 40-52) over the interface
      [TorchAudio]; [LoadersB64] evaluates them on concrete inputs.
    - [LoadAudio]: [load_audio] (lines 55-65) as a computation on the
      temporary directory.

    ** How the model corresponds to the code

    Python is dynamically typed, and [read_alignment] copies whatever the
    JSON file holds into the [Alignment].  The model keeps that: a field of
    an [Alignment] or a [Segment] is a [pyval], operators inspect the
    constructor the way the interpreter dispatches on the type, and a wrong
    type is the exception Python raises ([TypeError], [KeyError k],
    [ZeroDivisionError], [OverflowError]); [DegenerateAlignment] is the
    one exception that is not Python's, the error the specification
    gives the rescaling.  A function that may raise
    returns [res exn A]; sequencing with [x <- e ;; k] evaluates [e] first
    and stops at its exception, which is Python's left-to-right order.  A
    list comprehension is [traverse].  Dictionaries are association lists
    in insertion order, as Python keeps them; [json.dumps] followed by
    [json.load] is the identity on [pyval] (both are library code the
    sources only call).

    The functions that touch the file system are computations on a state,
    [sres S exn A]: they return the state they leave together with a value
    or an exception, so that what a failed call has already changed can be
    stated.  The state of [write_alignment] and [read_alignment] is the
    store; the state of [load_audio] is the temporary directory; the state
    of the device functions is the log of probes made.
    Libraries the code calls are parameters: torch is a record of answers
    ([Torch]), torchaudio a class of operations ([TorchAudio]), the parsed
    registry and the default cache directory are section variables.

    ** What the theorems show

    - [Prelude]: monad laws of [res]; [traverse] succeeds exactly on lists
      whose elements all succeed, keeps length and order, and fails with
      the exception of the first failing element.
    - [PyFloat]: the binary64 operations agree with known IEEE results on
      concrete inputs; [exact] satisfies [ExactOps]; the truncation of an
      exact quotient of integers is their quotient towards zero.
    - Codec ([CodecProps], [CodecTypes], [CodecB64]): when and with what
      the encoder succeeds, which exception it raises and for which
      segment; when and with what the decoder succeeds, entry by entry,
      its key order and errors; that neither direction checks the counts
      itself, so that a degenerate alignment is rejected only where a
      segment is rescaled; decoding an encoding is [reload], which under
      binary64 is within one unit in the last place but not always the
      same frame.  The theorems that depend on what a rescaling returns
      or raises rest on the model of [align.py] taken from the
      specification, and say so.
    - [PosixPath]: [alignment_filename] appends [.json] to the last
      component; two relative identifiers have the same location exactly
      when [pathlib] parses them to the same components, so distinct
      strings can collide, and an absolute identifier leaves the root.
    - [Storage], [AlignmentIO]: [mkdir] keeps [wf_store], only adds
      directories on the way to its path, and leaves the store unchanged
      when it fails; a write then a read of the same identifier is
      [reload]; a failed write changes nothing; a write touches no other
      file, is idempotent, and succeeds unless a file or a directory is in
      its way; every store reached from the empty one by calls of the two
      functions holds nothing but well-shaped records under [.json]
      names, and a read in such a store raises only what [open] or a
      rescaling raises; the two functions refine the write and read of a
      key-value store keyed by location.  Atomicity and success are
      theorems about [write_alignment], the function where [open] cannot
      fail once the directories exist and every value serialises.
      [write_alignment_on] is the function in an environment where
      [open] can be refused and the serialiser can raise: there a failed
      write leaves at most new directories above the location and an
      empty file at it, a refused [open] leaves the directories [mkdir]
      made, and without refusal or failure it is [write_alignment].
    - [Device]: the device is CUDA exactly when CUDA is available and not
      known to be absent from the build; every question [best_device]
      asks is about CUDA, never about the MPS backend.
    - [Loaders]: when [load_config] succeeds and with what; which
      [KeyError] it raises; [load_slice] raises [ZeroDivisionError] on an
      empty recording, and under binary64 starts at the frame of the
      exact offset or one before: one before for 49 of the 300 tenths of
      a second of a recording at 16 kHz, and for every whole second of a
      recording of 1649845 frames at 48 kHz.  The reference formula
      [frame_at] is what the function computes in exact arithmetic.
    - [LoadAudio]: [load_audio] leaves the temporary directory as it was
      when the bytes decode, and leaves its temporary file behind when
      they do not.

    ** Bounds and fuel

    The only recursion that is not structural is [Path.mkdir], which
    calls itself on the parent directory: [mkdir_fuel] takes fuel, [mkdir]
    gives it one more than the number of components of the path, and
    [mkdir_fuel_Err] and [mkdir_fuel_more] show that the model never runs
    out of it and that more fuel changes nothing.  This is an
    idealisation: CPython's stack is bounded, and [Path.mkdir] on a path
    with about a thousand missing directories raises [RecursionError]
    there; the model has no recursion limit.  Everything else recurses
    on a list.  Integers are Python's unbounded [int], hence [Z].  Floats are
    binary64 and keep their overflow behaviour: conversion of an [int]
    beyond the binary64 range and an integer quotient beyond it are
    [OverflowError], as in CPython; float products and quotients saturate
    to infinity.  The theorems proved by enumeration cover the 1500 frames
    of a recording of thirty seconds, the 300 tenths of a second of such
    a recording and the pairs of whole seconds of the first minute of a
    recording at 48 kHz; they say nothing beyond those ranges.

    ** Not modelled

    What torchaudio and torch compute, and the names the generator of
    [mkstemp] yields; the YAML parser and the package resource behind
    [load_config]; the code of [timething/align.py], of which the
    specification's account is modelled; the text of JSON files
    ([json.dumps] / [json.load]), in particular the difference between
    the UTF-8 encoding the writer asks for and the default encoding of
    the reader, and values that do not serialise; [int] of a string;
    file permissions, limits on the length of a name or on the depth of
    the stack, a full disk, symbolic links, the resolution of [..] and
    concurrent writers.  Strings are sequences of one-byte characters. *)

From Stdlib Require Import ZArith List Lia.
From stdpp Require Import base tactics option list.

(** ** Results: a value or an exception *)

Inductive res (E A : Type) : Type :=
| Ok (a : A)
| Err (e : E).

Arguments Ok {E A} a.
Arguments Err {E A} e.

Definition bind {E A B : Type} (m : res E A) (k : A -> res E B) : res E B :=
  match m with
  | Ok a => k a
  | Err e => Err e
  end.

Definition rmap {E A B : Type} (f : A -> B) (m : res E A) : res E B :=
  match m with
  | Ok a => Ok (f a)
  | Err e => Err e
  end.

Definition of_option {E A : Type} (e : E) (o : option A) : res E A :=
  match o with
  | Some a => Ok a
  | None => Err e
  end.

Definition to_option {E A : Type} (m : res E A) : option A :=
  match m with
  | Ok a => Some a
  | Err _ => None
  end.

Definition is_ok {E A : Type} (m : res E A) : bool :=
  match m with
  | Ok _ => true
  | Err _ => false
  end.

Arguments bind {E A B} !m k /.
Arguments rmap {E A B} f !m /.
Arguments of_option {E A} e !o /.
Arguments to_option {E A} !m /.
Arguments is_ok {E A} !m /.

Declare Scope res_scope.
Delimit Scope res_scope with res.

Notation "x <- m ;; k" := (bind m (fun x => k))
  (at level 60, m at next level, right associativity) : res_scope.

Local Open Scope res_scope.

(** A list comprehension [[f x for x in l]] whose body may raise: elements
    are evaluated from the left and the first exception ends it. *)
Fixpoint traverse {E A B : Type} (f : A -> res E B) (l : list A)
  : res E (list B) :=
  match l with
  | [] => Ok []
  | x :: l' =>
      y <- f x ;;
      ys <- traverse f l' ;;
      Ok (y :: ys)
  end.

(** ** Laws of [bind] *)

Section res_laws.
Context {E A B C : Type}.
Implicit Types (m : res E A) (k : A -> res E B) (h : B -> res E C).

Lemma bind_Ok_l a k : bind (Ok a) k = k a.
Proof. reflexivity. Qed.

Lemma bind_Err_l (e : E) k : bind (Err e) k = Err e.
Proof. reflexivity. Qed.

Lemma bind_Ok_r m : bind m Ok = m.
Proof. by destruct m. Qed.

Lemma bind_assoc m k h :
  bind (bind m k) h = bind m (fun a => bind (k a) h).
Proof. by destruct m. Qed.

Lemma bind_Ok_inv m k b :
  bind m k = Ok b <-> exists a, m = Ok a /\ k a = Ok b.
Proof.
  destruct m as [a|e]; simpl; split.
  - eauto.
  - by intros (a' & [= <-] & ?).
  - done.
  - by intros (a' & ? & ?).
Qed.

Lemma bind_Err_inv m k e :
  bind m k = Err e <-> m = Err e \/ exists a, m = Ok a /\ k a = Err e.
Proof.
  destruct m as [a|e']; simpl; split.
  - eauto.
  - intros [?|(a' & [= <-] & ?)]; done.
  - intros [= ->]. by left.
  - intros [[= ->]|(a' & ? & ?)]; done.
Qed.

Lemma bind_ext m k k' : (forall a, k a = k' a) -> bind m k = bind m k'.
Proof. intros Hk. destruct m; simpl; auto. Qed.

Lemma rmap_Ok_inv (f : A -> B) m b :
  rmap f m = Ok b <-> exists a, m = Ok a /\ b = f a.
Proof.
  destruct m as [a|e]; simpl; split.
  - intros [= <-]. eauto.
  - by intros (a' & [= <-] & ->).
  - done.
  - by intros (a' & ? & ?).
Qed.

Lemma of_option_Ok_inv (e : E) (o : option A) a :
  of_option e o = Ok a <-> o = Some a.
Proof. destruct o; simpl; split; congruence. Qed.

Lemma of_option_Err_inv (e e' : E) (o : option A) :
  of_option e o = Err e' <-> o = None /\ e' = e.
Proof.
  destruct o; simpl; split; try done.
  - by intros [? _].
  - by intros [= ->].
  - by intros [_ ->].
Qed.

Lemma is_ok_true m : is_ok m = true <-> exists a, m = Ok a.
Proof. destruct m; simpl; split; eauto; try done. by intros [? ?]. Qed.

End res_laws.

(** ** Tactics

    [res_inv] takes apart every hypothesis that says a sequence of binds
    succeeded, naming nothing: it leaves the equations of the steps.
    [res_simpl] rewrites with the steps already known to succeed. *)

Ltac res_inv_step :=
  match goal with
  | H : bind _ _ = Ok _ |- _ =>
      apply bind_Ok_inv in H; destruct H as (? & ? & H)
  | H : rmap _ _ = Ok _ |- _ =>
      apply rmap_Ok_inv in H; destruct H as (? & ? & H)
  | H : of_option _ _ = Ok _ |- _ => apply of_option_Ok_inv in H
  | H : Ok _ = Ok _ |- _ => injection H as H
  | H : Err _ = Err _ |- _ => injection H as H
  | H : Ok _ = Err _ |- _ => discriminate H
  | H : Err _ = Ok _ |- _ => discriminate H
  end.

Ltac res_inv := repeat (res_inv_step; simpl in *); subst.

(** [res_cases] also splits on the tests and matches the steps go through. *)
Ltac res_cases :=
  repeat first [res_inv_step | case_match]; simpl in *; subst.

(** [res_err] does the same for a sequence that raised: one case for each
    step that may have been the one to raise. *)
Ltac res_err_step :=
  match goal with
  | H : bind _ _ = Err _ |- _ =>
      apply bind_Err_inv in H; destruct H as [H|(? & ? & H)]
  | H : of_option _ _ = Err _ |- _ =>
      apply of_option_Err_inv in H; destruct H as [? ?]
  end.

Ltac res_err :=
  repeat first [res_inv_step | res_err_step | case_match]; simpl in *; subst.

Ltac res_simpl :=
  repeat match goal with
  | H : ?m = Ok _ |- context [bind ?m _] => rewrite H; simpl
  | H : ?m = Err _ |- context [bind ?m _] => rewrite H; simpl
  | |- context [bind (Ok _) _] => rewrite bind_Ok_l
  | |- context [bind (Err _) _] => rewrite bind_Err_l
  end.

Create HintDb res discriminated.
Create Rewrite HintDb res.
#[export] Hint Rewrite @bind_Ok_l @bind_Err_l @bind_Ok_r @bind_assoc : res.

(** ** Laws of [traverse] *)

Section traverse_laws.
Context {E A B : Type}.
Implicit Types (f g : A -> res E B) (l : list A) (r : list B).

Lemma traverse_nil f : traverse f [] = Ok [].
Proof. reflexivity. Qed.

Lemma traverse_cons f x l :
  traverse f (x :: l) = (y <- f x ;; ys <- traverse f l ;; Ok (y :: ys)).
Proof. reflexivity. Qed.

Lemma traverse_Ok_Forall2 f l r :
  traverse f l = Ok r <-> Forall2 (fun x y => f x = Ok y) l r.
Proof.
  revert r. induction l as [|x l IH]; intros r; simpl.
  - split; [intros [= <-]; constructor | by inversion 1].
  - split.
    + intros H. res_inv. constructor; [done | by apply IH].
    + inversion 1 as [|? y ? ys Hx Hl]; subst.
      rewrite Hx. simpl. apply IH in Hl. by rewrite Hl.
Qed.

Lemma traverse_length f l r : traverse f l = Ok r -> length r = length l.
Proof.
  intros H%traverse_Ok_Forall2. symmetry. by eapply Forall2_length.
Qed.

Lemma traverse_lookup f l r i x :
  traverse f l = Ok r -> l !! i = Some x ->
  exists y, r !! i = Some y /\ f x = Ok y.
Proof.
  intros H%traverse_Ok_Forall2 Hi.
  destruct (Forall2_lookup_l _ _ _ _ _ H Hi) as (y & ? & ?). eauto.
Qed.

Lemma traverse_app f l1 l2 :
  traverse f (l1 ++ l2) =
  (r1 <- traverse f l1 ;; r2 <- traverse f l2 ;; Ok (r1 ++ r2)).
Proof.
  induction l1 as [|x l1 IH]; simpl.
  - by rewrite bind_Ok_r.
  - destruct (f x) as [y|e]; simpl; [|done].
    rewrite IH. destruct (traverse f l1); simpl; [|done].
    by destruct (traverse f l2).
Qed.

Lemma traverse_ext f g l :
  (forall x, x ∈ l -> f x = g x) -> traverse f l = traverse g l.
Proof.
  induction l as [|x l IH]; intros Hfg; simpl; [done|].
  rewrite (Hfg x) by left. rewrite IH; [done|].
  intros y Hy. apply Hfg. by right.
Qed.

Lemma traverse_Ok_map f (g : A -> B) l :
  (forall x, x ∈ l -> f x = Ok (g x)) -> traverse f l = Ok (map g l).
Proof.
  induction l as [|x l IH]; intros Hfg; simpl; [done|].
  rewrite (Hfg x) by left. simpl. rewrite IH; [done|].
  intros y Hy. apply Hfg. by right.
Qed.

(** The exception of a failed comprehension is that of its first failing
    element: everything before it succeeded. *)
Lemma traverse_Err_first f l e :
  traverse f l = Err e <->
  exists l1 x l2, l = l1 ++ x :: l2 /\
    Forall (fun y => is_ok (f y) = true) l1 /\ f x = Err e.
Proof.
  induction l as [|x l IH]; simpl.
  - split; [done|]. intros (l1 & y & l2 & Hl & _). by destruct l1.
  - rewrite bind_Err_inv. split.
    + intros [Hx|(y & Hx & Hr)].
      * exists [], x, l. auto.
      * apply bind_Err_inv in Hr as [Hr|(ys & _ & ?)]; [|done].
        apply IH in Hr as (l1 & z & l2 & -> & Hl1 & Hz).
        exists (x :: l1), z, l2. split_and!; [done| |done].
        constructor; [by rewrite Hx | done].
    + intros (l1 & z & l2 & Hl & Hl1 & Hz).
      destruct l1 as [|x' l1]; simplify_eq/=; [by left|].
      inversion Hl1 as [|? ? Hx Hl1']; subst.
      apply is_ok_true in Hx as [y Hx]. right. exists y. split; [done|].
      apply bind_Err_inv. left. apply IH. eauto 6.
Qed.

End traverse_laws.

(** Composition: traversing the result of a traversal is one traversal
    with the composed body. *)
Lemma traverse_traverse {E A B C : Type}
    (f : A -> res E B) (g : B -> res E C) (l : list A) (r : list B) :
  traverse f l = Ok r ->
  traverse g r = traverse (fun x => bind (f x) g) l.
Proof.
  revert r. induction l as [|x l IH]; intros r H; simpl in *.
  - by injection H as <-.
  - res_inv. simpl.
    match goal with Hx : f x = Ok _ |- _ => rewrite Hx end. simpl.
    by erewrite IH.
Qed.

Lemma traverse_map {E A B C : Type}
    (f : B -> res E C) (g : A -> B) (l : list A) :
  traverse f (map g l) = traverse (fun x => f (g x)) l.
Proof. induction l as [|x l IH]; simpl; [done|]. by rewrite IH. Qed.

(** ** Checking a range by enumeration *)

Lemma forallb_range (p : Z -> bool) (n : nat) :
  forallb (fun i => p (Z.of_nat i)) (seq 0 n) = true ->
  forall z : Z, (0 <= z < Z.of_nat n)%Z -> p z = true.
Proof.
  intros Hall z Hz. rewrite forallb_forall in Hall.
  rewrite <-(Z2Nat.id z) by lia. apply Hall, in_seq. lia.
Qed.

(** ** State and exceptions

    A computation that reads and changes a state of type [S] and may
    raise: it returns the state it leaves and a result.  The state left by
    a failed computation is kept, so that what a failure has already
    changed can be stated. *)

Definition sres (S E A : Type) : Type := S -> S * res E A.

Definition sret {S E A : Type} (a : A) : sres S E A := fun s => (s, Ok a).

Definition slift {S E A : Type} (r : res E A) : sres S E A := fun s => (s, r).

Definition sbind {S E A B : Type} (m : sres S E A) (k : A -> sres S E B)
  : sres S E B :=
  fun s =>
    match m s with
    | (s', Ok a) => k a s'
    | (s', Err e) => (s', Err e)
    end.

Notation "x <~ m ;; k" := (sbind m (fun x => k))
  (at level 60, m at next level, right associativity) : res_scope.

Section sres_laws.
Context {S E A B : Type}.
Implicit Types (m : sres S E A) (k : A -> sres S E B) (s : S).

Lemma sbind_Ok m k s s' a : m s = (s', Ok a) -> sbind m k s = k a s'.
Proof. unfold sbind. by intros ->. Qed.

Lemma sbind_Err m k s s' e : m s = (s', Err e) -> sbind m k s = (s', Err e).
Proof. unfold sbind. by intros ->. Qed.

Lemma sbind_Ok_inv m k s s2 b :
  sbind m k s = (s2, Ok b) <->
  exists s1 a, m s = (s1, Ok a) /\ k a s1 = (s2, Ok b).
Proof.
  unfold sbind. destruct (m s) as [s1 [a|e]]; split.
  - eauto.
  - by intros (? & ? & [= <- <-] & ?).
  - done.
  - intros (? & ? & ? & ?). simplify_eq.
Qed.

Lemma sbind_Err_inv m k s s2 e :
  sbind m k s = (s2, Err e) <->
  m s = (s2, Err e) \/ exists s1 a, m s = (s1, Ok a) /\ k a s1 = (s2, Err e).
Proof.
  unfold sbind. destruct (m s) as [s1 [a|e']]; split.
  - eauto.
  - intros [?|(? & ? & ? & ?)]; by simplify_eq.
  - intros [= <- <-]. by left.
  - intros [?|(? & ? & ? & ?)]; by simplify_eq.
Qed.

Lemma slift_bind (r : res E A) k s :
  sbind (slift r) k s =
  match r with Ok a => k a s | Err e => (s, Err e) end.
Proof. reflexivity. Qed.

End sres_laws.
