(* ===== verification/PyFloat.v ===== *)
(** * PyFloat: what the codec needs of Python's [float]

    The codec multiplies and divides numbers that are Python [int]s or
    [float]s.  [FloatOps] is the interface between the operators of
    [PyValue] and an arithmetic: conversion of an [int] (which raises
    [OverflowError] beyond the float range), true division of two [int]s
    (correctly rounded, as CPython's [long_true_divide]), product and
    quotient of two floats, and the test [x == 0.0] that guards a division.

    Two implementations: [B64], IEEE 754 binary64 by the [SpecFloat]
    definitions of the kernel's float specification, which is what CPython
    runs; and [Exact], the rationals, which is the arithmetic the
    specification's formulas are written in.  [ExactOps] states the laws
    that make an arithmetic exact; the round trip of the codec is proved
    against that interface. *)

From Stdlib Require Import ZArith SpecFloat QArith Qcanon Lia.
From stdpp Require Import base tactics option.
From S2P Require Import Prelude.

Local Open Scope Z_scope.

Class FloatOps (F : Type) : Type := {
  f_of_int : Z -> option F;
  f_int_div : Z -> Z -> option F;
  f_mul : F -> F -> F;
  f_div : F -> F -> F;
  f_is_zero : F -> bool;
  f_trunc : F -> option Z;
  f_is_nan : F -> bool;
}.

(** An arithmetic is exact when conversion is total and a ring morphism,
    integer division is the quotient of the conversions, and multiplying
    and dividing by a non-zero number cancel. *)
Class ExactOps (F : Type) `{FloatOps F} : Type := {
  fz : Z -> F;
  f_of_int_exact n : f_of_int n = Some (fz n);
  f_int_div_exact a b : b <> 0 -> f_int_div a b = Some (f_div (fz a) (fz b));
  f_is_zero_fz n : f_is_zero (fz n) = (n =? 0);
  fz_mul a b : fz (a * b) = f_mul (fz a) (fz b);
  f_div_mul_cancel x y : f_is_zero y = false -> f_mul (f_div x y) y = x;
  f_mul_div_cancel x y : f_is_zero y = false -> f_div (f_mul x y) y = x;
}.

(** ** IEEE 754 binary64 *)

Module B64.

Definition prec : Z := 53.
Definition emax : Z := 1024.

Definition float : Type := spec_float.

(** A result that rounds to an infinity is the [OverflowError] of an
    [int]-to-[float] conversion or of an integer true division. *)
Definition finite_or_overflow (x : float) : option float :=
  match x with
  | S754_infinity _ => None
  | _ => Some x
  end.

Definition of_int (n : Z) : option float :=
  finite_or_overflow (binary_normalize prec emax n 0 false).

(** [a / b] for two [int]s with [b <> 0]: the quotient rounded once, with
    the sign of a zero quotient taken from the operands. *)
Definition int_div (a b : Z) : option float :=
  let s := xorb (a <? 0) (b <? 0) in
  match a with
  | Z0 => Some (S754_zero s)
  | _ =>
      let '(q, e, l) := SFdiv_core_binary prec emax (Z.abs a) 0 (Z.abs b) 0 in
      finite_or_overflow (binary_round_aux prec emax s q e l)
  end.

Definition mul (x y : float) : float := SFmul prec emax x y.
Definition div (x y : float) : float := SFdiv prec emax x y.

Definition is_zero (x : float) : bool :=
  match x with
  | S754_zero _ => true
  | _ => false
  end.

(** The integer part, towards zero, of a finite float. *)
Definition trunc (x : float) : option Z :=
  match x with
  | S754_zero _ => Some 0
  | S754_finite s m e =>
      let a := if 0 <=? e then Zpos m * 2 ^ e else Zpos m / 2 ^ (- e) in
      Some (if s then - a else a)
  | _ => None
  end.

Definition is_nan (x : float) : bool :=
  match x with
  | S754_nan => true
  | _ => false
  end.

Definition is_finite (x : float) : bool :=
  match x with
  | S754_zero _ | S754_finite _ _ _ => true
  | _ => false
  end.

(** The float of an [int] known to convert: used to write literals. *)
Definition lit (n : Z) : float := binary_normalize prec emax n 0 false.

(** The rational a finite float stands for. *)
Definition to_Q (x : float) : option Q :=
  match x with
  | S754_zero _ => Some 0%Q
  | S754_finite s m e =>
      Some ((if s then -1 else 1) * inject_Z (Zpos m) * Qpower 2 e)%Q
  | _ => None
  end.

End B64.

#[export] Instance spec_float_eq_dec : EqDecision spec_float.
Proof. solve_decision. Defined.

#[export] Instance binary64 : FloatOps B64.float := {
  f_of_int := B64.of_int;
  f_int_div := B64.int_div;
  f_mul := B64.mul;
  f_div := B64.div;
  f_is_zero := B64.is_zero;
  f_trunc := B64.trunc;
  f_is_nan := B64.is_nan;
}.

(** ** Exact arithmetic *)

Module Exact.

Definition float : Type := Qc.

Definition of_int (n : Z) : float := Q2Qc (inject_Z n).

Definition is_zero (x : float) : bool :=
  if Qc_eq_dec x 0%Qc then true else false.

(** The integer part towards zero: the quotient of the numerator by the
    denominator. *)
Definition trunc (x : float) : Z := Z.quot (Qnum x) (Zpos (Qden x)).

End Exact.

#[export] Instance exact : FloatOps Exact.float := {
  f_of_int n := Some (Exact.of_int n);
  f_int_div a b := Some (Exact.of_int a / Exact.of_int b)%Qc;
  f_mul := Qcmult;
  f_div := Qcdiv;
  f_is_zero := Exact.is_zero;
  f_trunc x := Some (Exact.trunc x);
  f_is_nan _ := false;
}.

(** ** Facts on binary64 *)

Section b64_facts.
Import B64.

Lemma finite_or_overflow_Some x y :
  finite_or_overflow x = Some y -> y = x /\ forall s, x <> S754_infinity s.
Proof. destruct x; simpl; intros [= <-]; done. Qed.

Lemma of_int_0 : of_int 0 = Some (S754_zero false).
Proof. reflexivity. Qed.

Lemma int_div_0_l b : int_div 0 b = Some (S754_zero (b <? 0)).
Proof. reflexivity. Qed.

Lemma is_zero_spec x : is_zero x = true <-> exists s, x = S754_zero s.
Proof. destruct x; simpl; split; eauto; try done; by intros [? ?]. Qed.

(** A product with a zero is a zero unless the other factor is infinite
    or not a number. *)
Lemma mul_zero_l s y :
  is_finite y = true -> is_zero (mul (S754_zero s) y) = true.
Proof. by destruct y. Qed.

(** A zero divided by a finite non-zero float is a zero. *)
Lemma div_zero_l s y :
  is_finite y = true -> is_zero y = false ->
  is_zero (div (S754_zero s) y) = true.
Proof. by destruct y. Qed.

(** Known quotients: one third, and a quotient that is an integer. *)
Example int_div_third :
  int_div 1 3 = Some (S754_finite false 6004799503160661 (-54)).
Proof. vm_compute. reflexivity. Qed.

Example int_div_exact_quotient : int_div 320000 16000 = of_int 20.
Proof. vm_compute. reflexivity. Qed.

(** The largest [int] that converts, and the first that does not. *)
Example of_int_max :
  is_Some (of_int (2 ^ 1024 - 2 ^ 970 - 1)) /\ of_int (2 ^ 1024 - 2 ^ 970) = None.
Proof. split; [by eexists; vm_compute | by vm_compute]. Qed.

End b64_facts.

(** ** The rationals are exact *)

Section exact_facts.
Import Exact.
Local Open Scope Qc_scope.

Lemma is_zero_true x : is_zero x = true <-> x = 0.
Proof. unfold is_zero. by destruct (Qc_eq_dec x 0). Qed.

Lemma is_zero_false x : is_zero x = false <-> x <> 0.
Proof. unfold is_zero. by destruct (Qc_eq_dec x 0). Qed.

Lemma of_int_mul a b : of_int (a * b)%Z = of_int a * of_int b.
Proof.
  apply Qc_is_canon. unfold of_int. simpl.
  rewrite !Qred_correct. by rewrite inject_Z_mult.
Qed.

Lemma of_int_eq_0 n : of_int n = 0 <-> n = 0%Z.
Proof.
  split; [|by intros ->].
  intros H. apply (f_equal this) in H. unfold of_int in H. simpl in H.
  assert (Hq : Qred (inject_Z n) == 0%Q) by (rewrite H; reflexivity).
  rewrite Qred_correct in Hq. unfold Qeq, inject_Z in Hq. simpl in Hq. lia.
Qed.

Lemma is_zero_of_int n : is_zero (of_int n) = (n =? 0)%Z.
Proof.
  destruct (Z.eqb_spec n 0) as [->|Hn]; [done|].
  apply is_zero_false. by rewrite of_int_eq_0.
Qed.

Lemma div_mul_cancel (x y : float) : is_zero y = false -> x / y * y = x.
Proof. intros Hy%is_zero_false. unfold float in *. by field. Qed.

Lemma mul_div_cancel (x y : float) : is_zero y = false -> x * y / y = x.
Proof. intros Hy%is_zero_false. unfold float in *. by field. Qed.

(** The truncation of a quotient of integers is their quotient towards
    zero. *)
Lemma trunc_div a b : b <> 0%Z -> trunc (of_int a / of_int b) = Z.quot a b.
Proof.
  intros Hb. remember (of_int a / of_int b) as c eqn:Ec.
  assert (Hc : c * of_int b = of_int a).
  { rewrite Ec. apply div_mul_cancel, is_zero_false. by rewrite of_int_eq_0. }
  clear Ec. apply (f_equal this) in Hc. unfold of_int in Hc. simpl in Hc.
  apply Qred_eq_iff in Hc. rewrite Qred_correct in Hc.
  unfold trunc. destruct (this c) as [n d]. unfold Qeq in Hc. simpl in Hc.
  simpl.
  rewrite <-(Z.quot_mul_cancel_r n (Zpos d) b),
    <-(Z.quot_mul_cancel_r a b (Zpos d)) by lia.
  f_equal; lia.
Qed.

End exact_facts.

#[export] Instance exact_ops : ExactOps Exact.float := {
  fz := Exact.of_int;
  f_of_int_exact n := eq_refl;
  f_int_div_exact a b _ := eq_refl;
  f_is_zero_fz := is_zero_of_int;
  fz_mul := of_int_mul;
  f_div_mul_cancel := div_mul_cancel;
  f_mul_div_cancel := mul_div_cancel;
}.
