(* ===== verification/PyValue.v ===== *)
(** * PyValue: the Python values and operators the codec uses

    A JSON file read by [json.load] gives [None], [bool], [int], [float],
    [str], [list] and [dict] with string keys: that is [pyval].  A
    dictionary is the list of its items in insertion order, with distinct
    keys; [dict_get] reads the first item of a key.

    The operators follow CPython's dispatch on the operand types:
    - [py_mul] is [a * b]: exact on two [int]s ([bool] counts as [int]),
      in floats as soon as one operand is a [float], repetition for a
      sequence and an [int], [TypeError] otherwise;
    - [py_truediv] is [a / b]: [ZeroDivisionError] for a zero divisor,
      [OverflowError] when an [int] does not fit a float, [TypeError] on
      anything that is not a number;
    - [py_getitem] is [v[k]] for a string [k]: [KeyError k] when a [dict]
      lacks the key, [TypeError] when [v] is not a [dict];
    - [py_iter] is the sequence [for x in v] runs over.

    [exn] holds the exceptions of these operators, those of the file
    system ([OSError] stands for the ones that do not depend on what the
    store holds, such as a name too long) and [DegenerateAlignment], the
    error the specification gives the rescaling of [timething/align.py]. *)

From Stdlib Require Import ZArith String Ascii List Lia.
From stdpp Require Import base tactics option list strings.
From S2P Require Import Prelude PyFloat.

Local Open Scope Z_scope.
Local Open Scope res_scope.

Inductive exn : Type :=
| KeyError (key : string)
| TypeError
| ZeroDivisionError
| OverflowError
| FileNotFoundError
| FileExistsError
| NotADirectoryError
| IsADirectoryError
| JSONDecodeError
| RecursionError
| ValueError
| OSError
| DegenerateAlignment.

#[export] Instance exn_eq_dec : EqDecision exn.
Proof. solve_decision. Defined.

(** The exceptions the arithmetic operators raise. *)
Definition arith_error (e : exn) : bool :=
  match e with
  | TypeError | ZeroDivisionError | OverflowError => true
  | _ => false
  end.

#[warning="-register-all"]
Inductive pyval {F : Type} : Type :=
| PNone
| PBool (b : bool)
| PInt (n : Z)
| PFloat (x : F)
| PStr (s : string)
| PList (l : list pyval)
| PDict (d : list (string * pyval)).

Arguments pyval F : clear implicits.

(** A number as the arithmetic operators see it. *)
Inductive num {F : Type} : Type :=
| NInt (n : Z)
| NFloat (x : F).

Arguments num F : clear implicits.

Fixpoint dict_get {V : Type} (k : string) (d : list (string * V)) : option V :=
  match d with
  | [] => None
  | (k', v) :: d' => if String.eqb k k' then Some v else dict_get k d'
  end.

Definition dict_keys {V : Type} (d : list (string * V)) : list string :=
  map fst d.

Fixpoint str_chars (s : string) : list string :=
  match s with
  | EmptyString => []
  | String c s' => String c EmptyString :: str_chars s'
  end.

Definition repeat_list {A : Type} (n : Z) (l : list A) : list A :=
  concat (replicate (Z.to_nat n) l).

Definition repeat_string (n : Z) (s : string) : string :=
  fold_right String.append EmptyString (replicate (Z.to_nat n) s).

Section operators.
Context {F : Type} `{FloatOps F}.
Implicit Types (v a b : pyval F) (k : string).

Definition as_num v : option (num F) :=
  match v with
  | PBool b => Some (NInt (Z.b2z b))
  | PInt n => Some (NInt n)
  | PFloat x => Some (NFloat x)
  | _ => None
  end.

(** [float(n)] as the float operators apply it to an [int] operand. *)
Definition to_float (n : num F) : res exn F :=
  match n with
  | NInt z => of_option OverflowError (f_of_int z)
  | NFloat x => Ok x
  end.

(** [seq * n]: a string or a list repeated, empty for [n <= 0]. *)
Definition seq_repeat (n : Z) v : res exn (pyval F) :=
  match v with
  | PStr s => Ok (PStr (repeat_string n s))
  | PList l => Ok (PList (repeat_list n l))
  | _ => Err TypeError
  end.

Definition py_mul a b : res exn (pyval F) :=
  match as_num a, as_num b with
  | Some (NInt x), Some (NInt y) => Ok (PInt (x * y))
  | Some x, Some y =>
      fx <- to_float x ;;
      fy <- to_float y ;;
      Ok (PFloat (f_mul fx fy))
  | Some (NInt n), None => seq_repeat n b
  | None, Some (NInt n) => seq_repeat n a
  | _, _ => Err TypeError
  end.

Definition py_truediv a b : res exn (pyval F) :=
  match as_num a, as_num b with
  | Some (NInt x), Some (NInt y) =>
      if y =? 0 then Err ZeroDivisionError
      else q <- of_option OverflowError (f_int_div x y) ;; Ok (PFloat q)
  | Some x, Some y =>
      fx <- to_float x ;;
      fy <- to_float y ;;
      if f_is_zero fy then Err ZeroDivisionError
      else Ok (PFloat (f_div fx fy))
  | _, _ => Err TypeError
  end.

Definition py_getitem v k : res exn (pyval F) :=
  match v with
  | PDict d => of_option (KeyError k) (dict_get k d)
  | _ => Err TypeError
  end.

Definition py_iter v : res exn (list (pyval F)) :=
  match v with
  | PList l => Ok l
  | PDict d => Ok (map PStr (dict_keys d))
  | PStr s => Ok (map PStr (str_chars s))
  | _ => Err TypeError
  end.

(** [bool(v)], the test of [if v] and of [v if v else w]. *)
Definition py_truthy v : bool :=
  match v with
  | PNone => false
  | PBool b => b
  | PInt n => negb (n =? 0)
  | PFloat x => negb (f_is_zero x)
  | PStr s => negb (String.eqb s EmptyString)
  | PList l => match l with [] => false | _ => true end
  | PDict d => match d with [] => false | _ => true end
  end.

(** [v == 0]: true of the [int] zero, of [False] and of a float zero, false
    of every other value. *)
Definition py_is_zero v : bool :=
  match as_num v with
  | Some (NInt n) => n =? 0
  | Some (NFloat x) => f_is_zero x
  | None => false
  end.

(** [int(v)] on a number: the integer itself, or the float truncated
    towards zero, [OverflowError] on an infinity and [ValueError] on a NaN.
    On a string [int] parses a numeral; no caller here passes one, and the
    parser is not modelled: [ValueError] stands for it. *)
Definition py_int v : res exn Z :=
  match v with
  | PBool b => Ok (Z.b2z b)
  | PInt n => Ok n
  | PFloat x =>
      match f_trunc x with
      | Some z => Ok z
      | None => Err (if f_is_nan x then ValueError else OverflowError)
      end
  | PStr _ => Err ValueError
  | _ => Err TypeError
  end.

(** ** Type tests, as [isinstance] would answer *)

Definition is_int v : bool :=
  match v with PInt _ => true | _ => false end.

Definition is_float v : bool :=
  match v with PFloat _ => true | _ => false end.

Definition is_str v : bool :=
  match v with PStr _ => true | _ => false end.

Definition is_number v : bool :=
  match v with PInt _ | PFloat _ => true | _ => false end.

End operators.

(** ** Dictionaries *)

Section dict_facts.
Context {V : Type}.
Implicit Types (d : list (string * V)) (k : string) (v : V).

Lemma dict_get_cons_eq k v d : dict_get k ((k, v) :: d) = Some v.
Proof. simpl. by rewrite String.eqb_refl. Qed.

Lemma dict_get_cons_ne k k' v d :
  k <> k' -> dict_get k ((k', v) :: d) = dict_get k d.
Proof. intros Hk. simpl. by destruct (String.eqb_spec k k'). Qed.

Lemma dict_get_None k d : dict_get k d = None <-> k ∉ dict_keys d.
Proof.
  induction d as [|[k' v] d IH]; simpl.
  - split; [intros _; apply not_elem_of_nil | done].
  - unfold dict_keys in *. rewrite not_elem_of_cons.
    destruct (String.eqb_spec k k'); [by intuition|]. rewrite IH. by intuition.
Qed.

Lemma dict_get_Some_elem k v d : dict_get k d = Some v -> (k, v) ∈ d.
Proof.
  induction d as [|[k' v'] d IH]; simpl; [done|].
  destruct (String.eqb_spec k k') as [->|]; [intros [= ->]; left|right; auto].
Qed.

Lemma dict_get_is_Some k d : is_Some (dict_get k d) <-> k ∈ dict_keys d.
Proof.
  rewrite <-not_eq_None_Some, dict_get_None.
  split; [|tauto]. intros Hn. by destruct (decide (k ∈ dict_keys d)).
Qed.

Lemma dict_get_app k d1 d2 :
  dict_get k (d1 ++ d2) =
  match dict_get k d1 with Some v => Some v | None => dict_get k d2 end.
Proof.
  induction d1 as [|[k' v] d1 IH]; simpl; [done|].
  by destruct (String.eqb k k').
Qed.

End dict_facts.

(** ** The operators on each shape of operands *)

Section operator_facts.
Context {F : Type} `{FloatOps F}.
Implicit Types (v a b : pyval F) (k : string) (x y : F) (m n : Z).

Lemma py_mul_int_int m n : py_mul (PInt m) (PInt n) = Ok (PInt (m * n) : pyval F).
Proof. reflexivity. Qed.

Lemma py_mul_float_int x n :
  py_mul (PFloat x) (PInt n) =
  (fy <- of_option OverflowError (f_of_int n) ;; Ok (PFloat (f_mul x fy))).
Proof. reflexivity. Qed.

Lemma py_truediv_int_int m n :
  py_truediv (PInt m) (PInt n : pyval F) =
  if n =? 0 then Err ZeroDivisionError
  else q <- of_option OverflowError (f_int_div m n) ;; Ok (PFloat q).
Proof. reflexivity. Qed.

Lemma py_truediv_float_int x n :
  py_truediv (PFloat x) (PInt n) =
  (fy <- of_option OverflowError (f_of_int n) ;;
   if f_is_zero fy then Err ZeroDivisionError else Ok (PFloat (f_div x fy))).
Proof. reflexivity. Qed.

(** Division never returns anything but a float. *)
Lemma py_truediv_Ok_float a b v :
  py_truediv a b = Ok v -> exists x, v = PFloat x.
Proof.
  unfold py_truediv. intros Hv.
  destruct (as_num a) as [[m|x]|], (as_num b) as [[n|y]|]; simpl in Hv;
    try done; res_cases; eauto.
Qed.

(** Both operands of a successful division are numbers. *)
Lemma py_truediv_Ok_num a b v :
  py_truediv a b = Ok v -> is_Some (as_num a) /\ is_Some (as_num b).
Proof.
  unfold py_truediv.
  destruct (as_num a) as [[m|x]|], (as_num b) as [[n|y]|]; by eauto.
Qed.

Lemma py_truediv_int_zero a :
  is_int a = true -> py_truediv a (PInt 0) = Err ZeroDivisionError.
Proof. by destruct a. Qed.

Lemma to_float_Err (n : num F) e : to_float n = Err e -> e = OverflowError.
Proof. destruct n; simpl; intros He; by res_err. Qed.

Lemma seq_repeat_Err n v e : seq_repeat n v = Err e -> e = TypeError.
Proof. destruct v; simpl; congruence. Qed.

(** A product or a quotient raises nothing but [TypeError],
    [ZeroDivisionError] and [OverflowError]. *)
Lemma py_mul_Err a b e : py_mul a b = Err e -> arith_error e = true.
Proof.
  unfold py_mul. intros He.
  destruct (as_num a) as [[m|x]|], (as_num b) as [[n|y]|]; simpl in He;
    try (apply seq_repeat_Err in He as ->); by res_err.
Qed.

Lemma py_truediv_Err a b e : py_truediv a b = Err e -> arith_error e = true.
Proof.
  unfold py_truediv. intros He.
  destruct (as_num a) as [[m|x]|], (as_num b) as [[n|y]|]; simpl in He;
    by res_err.
Qed.

Lemma py_getitem_dict d k :
  py_getitem (PDict d : pyval F) k = of_option (KeyError k) (dict_get k d).
Proof. reflexivity. Qed.

Lemma py_getitem_Ok v k w :
  py_getitem v k = Ok w <-> exists d, v = PDict d /\ dict_get k d = Some w.
Proof.
  destruct v; simpl; split; try done; try by intros (? & ? & ?).
  - intros ?%of_option_Ok_inv. eauto.
  - intros (d' & [= <-] & ->). done.
Qed.

Lemma py_getitem_KeyError v k k' :
  py_getitem v k = Err (KeyError k') <->
  k' = k /\ exists d, v = PDict d /\ dict_get k d = None.
Proof.
  destruct v; simpl; split; try done; try by intros (? & ? & ? & ?).
  - intros [? [= ->]]%of_option_Err_inv. eauto.
  - intros (-> & d' & [= <-] & ->). done.
Qed.

Lemma py_iter_list l : py_iter (PList l : pyval F) = Ok l.
Proof. reflexivity. Qed.

End operator_facts.

#[export] Hint Rewrite @py_mul_int_int @py_truediv_int_int
  @py_mul_float_int @py_truediv_float_int @py_getitem_dict @py_iter_list : res.
