(* ===== verification/Align.v ===== *)
(** * Align: segments, alignments and the rescaling between frames and seconds

    [Segment] and [Alignment] are the two data classes of
    [timething/align.py]; the codec only reads and builds them.  The file is
    not among the sources, so the records follow the specification's data
    model and the order of the constructor call in [read_alignment], and
    the two rescaling methods follow the specification's section 4.1:
    a degenerate alignment (a frame count, a sampling rate or a sample
    count that is zero) is rejected with [DegenerateAlignment] before any
    arithmetic, and otherwise the formulas are evaluated with Python's
    left-to-right [*] and [/]:

    - [model_frames_to_seconds n = n * n_audio_samples / sampling_rate / n_model_frames]
    - [seconds_to_model_frames s = s * n_model_frames * sampling_rate / n_audio_samples]

    Both end in a true division, so both return a [float]: the frames
    [read_alignment] stores are floats, whatever the annotation [-> int] of
    its wrapper says.  Both are taken to read the three counts of the
    alignment and nothing else.  The constructor is taken to store its
    thirteen arguments unchecked, in the order of the call in
    [read_alignment] (positions 6 to 9, the four segment lists, follow the
    comments of that call; all four are empty there and are assigned by
    name afterwards, so nothing depends on their order).

    Fields are [pyval]s because [read_alignment] stores what the JSON file
    holds without checking it.  The three numeric arrays are opaque to the
    codec: a list of floats stands for each.  [id] and [end] are written
    [id_] and [end_] ([end] is a keyword, and [id] is the identity function
    of the libraries). *)

From Stdlib Require Import ZArith String List.
From stdpp Require Import base tactics option list.
From S2P Require Import Prelude PyFloat PyValue.

Local Open Scope res_scope.

Record Segment (F : Type) : Type := mkSegment {
  label : pyval F;
  start : pyval F;
  end_ : pyval F;
  score : pyval F;
}.

Arguments mkSegment {F} _ _ _ _.
Arguments label {F} _.
Arguments start {F} _.
Arguments end_ {F} _.
Arguments score {F} _.

Definition ndarray (F : Type) : Type := list F.

Record Alignment (F : Type) : Type := mkAlignment {
  id_ : pyval F;
  log_probs : ndarray F;
  recognised : pyval F;
  trellis : ndarray F;
  path : ndarray F;
  chars_cleaned : list (Segment F);
  chars : list (Segment F);
  words_cleaned : list (Segment F);
  words : list (Segment F);
  n_model_frames : pyval F;
  n_audio_samples : pyval F;
  sampling_rate : pyval F;
  partition_score : pyval F;
}.

Arguments mkAlignment {F} _ _ _ _ _ _ _ _ _ _ _ _ _.
Arguments id_ {F} _.
Arguments log_probs {F} _.
Arguments recognised {F} _.
Arguments trellis {F} _.
Arguments path {F} _.
Arguments chars_cleaned {F} _.
Arguments chars {F} _.
Arguments words_cleaned {F} _.
Arguments words {F} _.
Arguments n_model_frames {F} _.
Arguments n_audio_samples {F} _.
Arguments sampling_rate {F} _.
Arguments partition_score {F} _.

(** What a rescaling raises: [DegenerateAlignment] and the exceptions of
    its arithmetic. *)
Definition rescale_error (e : exn) : bool :=
  arith_error e || bool_decide (e = DegenerateAlignment).

Section rescaling.
Context {F : Type} `{FloatOps F}.
Implicit Types (alignment : Alignment F) (n_frames n_seconds : pyval F).

(** [x == 0] for one of the three counts. *)
Definition degenerate alignment : bool :=
  py_is_zero (n_model_frames alignment) ||
  py_is_zero (sampling_rate alignment) ||
  py_is_zero (n_audio_samples alignment).

Definition check_degenerate alignment : res exn unit :=
  if degenerate alignment then Err DegenerateAlignment else Ok tt.

Definition model_frames_to_seconds alignment n_frames : res exn (pyval F) :=
  u <- check_degenerate alignment ;;
  x <- py_mul n_frames (n_audio_samples alignment) ;;
  y <- py_truediv x (sampling_rate alignment) ;;
  py_truediv y (n_model_frames alignment).

Definition seconds_to_model_frames alignment n_seconds : res exn (pyval F) :=
  u <- check_degenerate alignment ;;
  x <- py_mul n_seconds (n_model_frames alignment) ;;
  y <- py_mul x (sampling_rate alignment) ;;
  py_truediv y (n_audio_samples alignment).

End rescaling.

(** ** The check, case by case *)

Section rescaling_facts.
Context {F : Type} `{FloatOps F}.
Implicit Types (a : Alignment F) (t : pyval F).

Lemma check_degenerate_Ok a u :
  check_degenerate a = Ok u <-> degenerate a = false.
Proof. unfold check_degenerate. destruct (degenerate a), u; by split. Qed.

Lemma check_degenerate_Err a e :
  check_degenerate a = Err e <-> degenerate a = true /\ e = DegenerateAlignment.
Proof.
  unfold check_degenerate. destruct (degenerate a).
  - split; [by intros [= <-]|by intros [_ ->]].
  - split; [done|by intros []].
Qed.

Lemma model_frames_to_seconds_degenerate a t :
  degenerate a = true -> model_frames_to_seconds a t = Err DegenerateAlignment.
Proof. unfold model_frames_to_seconds, check_degenerate. by intros ->. Qed.

Lemma seconds_to_model_frames_degenerate a t :
  degenerate a = true -> seconds_to_model_frames a t = Err DegenerateAlignment.
Proof. unfold seconds_to_model_frames, check_degenerate. by intros ->. Qed.

Lemma model_frames_to_seconds_regular a t :
  degenerate a = false ->
  model_frames_to_seconds a t =
  (x <- py_mul t (n_audio_samples a) ;;
   y <- py_truediv x (sampling_rate a) ;;
   py_truediv y (n_model_frames a)).
Proof. unfold model_frames_to_seconds, check_degenerate. by intros ->. Qed.

Lemma seconds_to_model_frames_regular a t :
  degenerate a = false ->
  seconds_to_model_frames a t =
  (x <- py_mul t (n_model_frames a) ;;
   y <- py_mul x (sampling_rate a) ;;
   py_truediv y (n_audio_samples a)).
Proof. unfold seconds_to_model_frames, check_degenerate. by intros ->. Qed.

Lemma arith_rescale_error e : arith_error e = true -> rescale_error e = true.
Proof. unfold rescale_error. by intros ->. Qed.

Lemma model_frames_to_seconds_Err a t e :
  model_frames_to_seconds a t = Err e -> rescale_error e = true.
Proof.
  unfold model_frames_to_seconds. intros He. res_err;
    eauto using arith_rescale_error, py_mul_Err, py_truediv_Err.
  by apply check_degenerate_Err in He as [_ ->].
Qed.

Lemma seconds_to_model_frames_Err a t e :
  seconds_to_model_frames a t = Err e -> rescale_error e = true.
Proof.
  unfold seconds_to_model_frames. intros He. res_err;
    eauto using arith_rescale_error, py_mul_Err, py_truediv_Err.
  by apply check_degenerate_Err in He as [_ ->].
Qed.

(** A rescaling that returns returns a float: the last operation is a
    true division. *)
Lemma model_frames_to_seconds_float a t s :
  model_frames_to_seconds a t = Ok s -> is_float s = true.
Proof.
  unfold model_frames_to_seconds. intros Hs. res_inv.
  by apply py_truediv_Ok_float in Hs as [? ->].
Qed.

Lemma seconds_to_model_frames_float a t s :
  seconds_to_model_frames a t = Ok s -> is_float s = true.
Proof.
  unfold seconds_to_model_frames. intros Hs. res_inv.
  by apply py_truediv_Ok_float in Hs as [? ->].
Qed.

End rescaling_facts.
