(* ===== verification/Codec.v ===== *)
(** * Codec: an alignment to its JSON record and back

    [alignment_meta] (utils.py, lines 68-97) builds the dictionary that
    [write_alignment] serialises: the six scalars copied, and for each of
    the four segment lists the list of [{label, start, end, score}] with
    [start] and [end] rescaled from model frames to seconds.  Its inner
    functions are [meta_rescale] (the [rescale] of lines 71-72),
    [segment_dict] (the dictionary display of lines 76-81) and [alignments]
    (lines 74-83).

    [read_alignment_dict] is [read_alignment] from the dictionary that
    [json.load] returned (lines 125-164): it reads the six scalars in the
    order of the constructor call, builds the alignment with empty arrays
    and empty segment lists, then fills [chars_cleaned], [chars],
    [words_cleaned] and [words] in that order.  Its inner functions are
    [read_rescale] (the [rescale] of lines 141-142) and [dict_to_segment]
    (lines 144-150), whose keyword arguments are evaluated in the order
    written: [start], [end], [label], [score].  [read_segments] is one of
    the four comprehensions of lines 152-162.

    Every step that can raise is a step of the [res] monad, in the order
    Python evaluates it. *)

From Stdlib Require Import ZArith String List.
From stdpp Require Import base tactics option list.
From S2P Require Import Prelude PyFloat PyValue Align.

Local Open Scope string_scope.
Local Open Scope res_scope.

Section codec.
Context {F : Type} `{FloatOps F}.
Implicit Types (alignment : Alignment F) (segment : Segment F).
Implicit Types (alignment_dict d : pyval F).

(** ** Encoding *)

Definition meta_rescale alignment (n_model_frames : pyval F)
  : res exn (pyval F) :=
  model_frames_to_seconds alignment n_model_frames.

Definition segment_dict alignment segment : res exn (pyval F) :=
  s <- meta_rescale alignment (start segment) ;;
  e <- meta_rescale alignment (end_ segment) ;;
  Ok (PDict [("label", label segment);
             ("start", s);
             ("end", e);
             ("score", score segment)]).

Definition alignments alignment (segments : list (Segment F))
  : res exn (pyval F) :=
  rmap PList (traverse (segment_dict alignment) segments).

Definition alignment_meta alignment : res exn (pyval F) :=
  c <- alignments alignment (chars alignment) ;;
  cc <- alignments alignment (chars_cleaned alignment) ;;
  w <- alignments alignment (words alignment) ;;
  wc <- alignments alignment (words_cleaned alignment) ;;
  Ok (PDict [("id", id_ alignment);
             ("n_model_frames", n_model_frames alignment);
             ("n_audio_samples", n_audio_samples alignment);
             ("sampling_rate", sampling_rate alignment);
             ("partition_score", partition_score alignment);
             ("recognised", recognised alignment);
             ("chars", c);
             ("chars_cleaned", cc);
             ("words", w);
             ("words_cleaned", wc)]).

(** ** Decoding *)

Definition read_rescale alignment (n_seconds : pyval F) : res exn (pyval F) :=
  seconds_to_model_frames alignment n_seconds.

Definition dict_to_segment alignment d : res exn (Segment F) :=
  s0 <- py_getitem d "start" ;;
  s <- read_rescale alignment s0 ;;
  e0 <- py_getitem d "end" ;;
  e <- read_rescale alignment e0 ;;
  l <- py_getitem d "label" ;;
  sc <- py_getitem d "score" ;;
  Ok (mkSegment l s e sc).

Definition read_segments alignment alignment_dict (key : string)
  : res exn (list (Segment F)) :=
  v <- py_getitem alignment_dict key ;;
  ds <- py_iter v ;;
  traverse (dict_to_segment alignment) ds.

Definition read_alignment_dict alignment_dict : res exn (Alignment F) :=
  i <- py_getitem alignment_dict "id" ;;
  r <- py_getitem alignment_dict "recognised" ;;
  nmf <- py_getitem alignment_dict "n_model_frames" ;;
  nas <- py_getitem alignment_dict "n_audio_samples" ;;
  sr <- py_getitem alignment_dict "sampling_rate" ;;
  ps <- py_getitem alignment_dict "partition_score" ;;
  let alignment := mkAlignment i [] r [] [] [] [] [] [] nmf nas sr ps in
  cc <- read_segments alignment alignment_dict "chars_cleaned" ;;
  c <- read_segments alignment alignment_dict "chars" ;;
  wc <- read_segments alignment alignment_dict "words_cleaned" ;;
  w <- read_segments alignment alignment_dict "words" ;;
  Ok (mkAlignment i [] r [] [] cc c wc w nmf nas sr ps).

End codec.
