(* ===== verification/CodecProps.v ===== *)
(** * CodecProps: what the codec guarantees under every arithmetic

    The theorems of this file hold for any [FloatOps]: they are about the
    structure of the record, the order of evaluation and the exceptions,
    not about rounding.

    - Encoding: a successful [alignment_meta] returns the ten-key record
      with the scalars copied and each list encoded element by element in
      order; a failed one raises the exception of the first segment that
      fails, in the order [chars], [chars_cleaned], [words],
      [words_cleaned].
    - Decoding: [read_alignment_dict] raises [KeyError k] for the first
      scalar key the record lacks, in the order the constructor call reads
      them; it succeeds exactly when the arrays are empty, the scalars
      are those of the record and each list holds the segments its
      entries decode to ([decodes]), in order.
    - Degenerate metadata: neither direction checks the three counts; a
      zero is rejected by the rescaling of the first segment or entry,
      and goes through when there is none.
    - Round trip: decoding an encoding is [reload], the alignment whose
      times went through [model_frames_to_seconds] and back through
      [seconds_to_model_frames], everything else unchanged. *)

From Stdlib Require Import ZArith String List Lia.
From stdpp Require Import base tactics option list.
From S2P Require Import Prelude PyFloat PyValue Align Codec.

Local Open Scope string_scope.
Local Open Scope list_scope.
Local Open Scope res_scope.

(** ** Specifications *)

Section specs.
Context {F : Type} `{FloatOps F}.
Implicit Types (a : Alignment F) (seg : Segment F) (d m : pyval F).

(** [d] is the record entry of [seg]: label and score copied, times in
    seconds. *)
Definition encodes a seg d : Prop :=
  exists s e,
    model_frames_to_seconds a (start seg) = Ok s /\
    model_frames_to_seconds a (end_ seg) = Ok e /\
    d = PDict [("label", label seg); ("start", s); ("end", e);
               ("score", score seg)].

(** [seg] is what the entry [d] of a record decodes to under the metadata
    of [a]: label and score are the entry's, start and end its times taken
    back to frames. *)
Definition decodes a d seg : Prop :=
  exists s e,
    py_getitem d "start" = Ok s /\
    py_getitem d "end" = Ok e /\
    seconds_to_model_frames a s = Ok (start seg) /\
    seconds_to_model_frames a e = Ok (end_ seg) /\
    py_getitem d "label" = Ok (label seg) /\
    py_getitem d "score" = Ok (score seg).

(** [segs] are the entries of [m[key]], decoded one by one in order. *)
Definition decodes_list a m (key : string) (segs : list (Segment F)) : Prop :=
  exists v ds,
    py_getitem m key = Ok v /\ py_iter v = Ok ds /\
    Forall2 (decodes a) ds segs.

(** The segments in the order [alignment_meta] encodes them. *)
Definition all_segments a : list (Segment F) :=
  chars a ++ chars_cleaned a ++ words a ++ words_cleaned a.

(** The keys [read_alignment_dict] reads first, in its order. *)
Definition scalar_keys : list string :=
  ["id"; "recognised"; "n_model_frames"; "n_audio_samples"; "sampling_rate";
   "partition_score"].

(** A time taken to seconds by the encoder's [rescale] and back to frames
    by the decoder's. *)
Definition reload_time a (t : pyval F) : res exn (pyval F) :=
  s <- meta_rescale a t ;;
  read_rescale a s.

Definition reload_segment a seg : res exn (Segment F) :=
  s <- reload_time a (start seg) ;;
  e <- reload_time a (end_ seg) ;;
  Ok (mkSegment (label seg) s e (score seg)).

(** What decoding the encoding of [a] is specified to return. *)
Definition reload a : res exn (Alignment F) :=
  cc <- traverse (reload_segment a) (chars_cleaned a) ;;
  c <- traverse (reload_segment a) (chars a) ;;
  wc <- traverse (reload_segment a) (words_cleaned a) ;;
  w <- traverse (reload_segment a) (words a) ;;
  Ok (mkAlignment (id_ a) [] (recognised a) [] [] cc c wc w
        (n_model_frames a) (n_audio_samples a) (sampling_rate a)
        (partition_score a)).

End specs.

(** ** Encoding, step by step *)

Section encode.
Context {F : Type} `{FloatOps F}.
Implicit Types (a : Alignment F) (seg : Segment F) (d m : pyval F).

Lemma segment_dict_Ok a seg d : segment_dict a seg = Ok d <-> encodes a seg d.
Proof.
  unfold segment_dict, meta_rescale, encodes. split.
  - intros Hd. res_inv. eauto.
  - intros (s & e & -> & -> & ->). done.
Qed.

Lemma alignments_Ok a segs v :
  alignments a segs = Ok v <->
  exists ds, Forall2 (encodes a) segs ds /\ v = PList ds.
Proof.
  unfold alignments. rewrite rmap_Ok_inv.
  split; intros (ds & Hds & ->); exists ds; split; try done.
  - apply traverse_Ok_Forall2 in Hds.
    eapply Forall2_impl; [done|]. intros ??. by apply segment_dict_Ok.
  - apply traverse_Ok_Forall2.
    eapply Forall2_impl; [done|]. intros ??. by apply segment_dict_Ok.
Qed.

Lemma alignments_Err a segs e :
  alignments a segs = Err e <-> traverse (segment_dict a) segs = Err e.
Proof. unfold alignments. destruct (traverse _ _); simpl; split; congruence. Qed.

Lemma alignments_nil a : alignments a [] = Ok (PList []).
Proof. reflexivity. Qed.

(** The four comprehensions fail like one comprehension over the
    concatenation of the four lists. *)
Lemma alignment_meta_Err_traverse a e :
  alignment_meta a = Err e <->
  traverse (segment_dict a) (all_segments a) = Err e.
Proof.
  unfold alignment_meta, all_segments, alignments. rewrite !traverse_app.
  destruct (traverse _ (chars a)); simpl; [|split; congruence].
  destruct (traverse _ (chars_cleaned a)); simpl; [|split; congruence].
  destruct (traverse _ (words a)); simpl; [|split; congruence].
  destruct (traverse _ (words_cleaned a)); simpl; split; congruence.
Qed.

End encode.

(** ** Decoding, step by step *)

Section decode.
Context {F : Type} `{FloatOps F}.
Implicit Types (a al : Alignment F) (seg : Segment F) (d m : pyval F).

(** The record [alignment_meta] builds, by its ten values. *)
Definition record (i nmf nas sr ps r c cc w wc : pyval F) : pyval F :=
  PDict [("id", i); ("n_model_frames", nmf); ("n_audio_samples", nas);
         ("sampling_rate", sr); ("partition_score", ps); ("recognised", r);
         ("chars", c); ("chars_cleaned", cc); ("words", w);
         ("words_cleaned", wc)].

(** The alignment [read_alignment_dict] builds before it fills the lists. *)
Definition skeleton (i r nmf nas sr ps : pyval F) : Alignment F :=
  mkAlignment i [] r [] [] [] [] [] [] nmf nas sr ps.

Definition read_list al (v : pyval F) : res exn (list (Segment F)) :=
  ds <- py_iter v ;; traverse (dict_to_segment al) ds.

Lemma read_alignment_dict_record i nmf nas sr ps r c cc w wc :
  read_alignment_dict (record i nmf nas sr ps r c cc w wc) =
  (let al := skeleton i r nmf nas sr ps in
   ccs <- read_list al cc ;;
   cs <- read_list al c ;;
   wcs <- read_list al wc ;;
   ws <- read_list al w ;;
   Ok (mkAlignment i [] r [] [] ccs cs wcs ws nmf nas sr ps)).
Proof. reflexivity. Qed.

Lemma dict_to_segment_entry al (l s e sc : pyval F) :
  dict_to_segment al
    (PDict [("label", l); ("start", s); ("end", e); ("score", sc)]) =
  (s' <- seconds_to_model_frames al s ;;
   e' <- seconds_to_model_frames al e ;;
   Ok (mkSegment l s' e' sc)).
Proof. reflexivity. Qed.

(** Rescaling reads three fields of the alignment and nothing else. *)
Lemma seconds_to_model_frames_ext al a t :
  n_model_frames al = n_model_frames a ->
  sampling_rate al = sampling_rate a ->
  n_audio_samples al = n_audio_samples a ->
  seconds_to_model_frames al t = seconds_to_model_frames a t.
Proof.
  unfold seconds_to_model_frames, check_degenerate, degenerate.
  by intros -> -> ->.
Qed.

Lemma dict_to_segment_encodes al a seg d :
  n_model_frames al = n_model_frames a ->
  sampling_rate al = sampling_rate a ->
  n_audio_samples al = n_audio_samples a ->
  encodes a seg d -> dict_to_segment al d = reload_segment a seg.
Proof.
  intros ??? (s & e & Hs & He & ->).
  rewrite dict_to_segment_entry, !(seconds_to_model_frames_ext al a) by done.
  unfold reload_segment, reload_time, meta_rescale, read_rescale.
  rewrite Hs, He. simpl.
  by destruct (seconds_to_model_frames a s).
Qed.

Lemma read_list_encoded al a segs ds :
  n_model_frames al = n_model_frames a ->
  sampling_rate al = sampling_rate a ->
  n_audio_samples al = n_audio_samples a ->
  Forall2 (encodes a) segs ds ->
  read_list al (PList ds) = traverse (reload_segment a) segs.
Proof.
  intros ??? Hds. unfold read_list. simpl. induction Hds as [|seg d segs ds Hd _ IH].
  - done.
  - simpl. rewrite IH. by erewrite dict_to_segment_encodes.
Qed.

End decode.

(** ** The encoder *)

Section encoder_properties.
Context {F : Type} `{FloatOps F}.
Implicit Types (a : Alignment F) (seg : Segment F) (d m : pyval F).

Lemma alignment_meta_inv a m :
  alignment_meta a = Ok m ->
  exists c cc w wc,
    Forall2 (encodes a) (chars a) c /\
    Forall2 (encodes a) (chars_cleaned a) cc /\
    Forall2 (encodes a) (words a) w /\
    Forall2 (encodes a) (words_cleaned a) wc /\
    m = record (id_ a) (n_model_frames a) (n_audio_samples a)
          (sampling_rate a) (partition_score a) (recognised a)
          (PList c) (PList cc) (PList w) (PList wc).
Proof.
  unfold alignment_meta. intros Hm. res_inv.
  repeat match goal with
  | H : alignments _ _ = Ok _ |- _ =>
      apply alignments_Ok in H as (? & ? & ->)
  end.
  eauto 10.
Qed.

Lemma alignment_meta_intro a c cc w wc :
  Forall2 (encodes a) (chars a) c ->
  Forall2 (encodes a) (chars_cleaned a) cc ->
  Forall2 (encodes a) (words a) w ->
  Forall2 (encodes a) (words_cleaned a) wc ->
  alignment_meta a =
  Ok (record (id_ a) (n_model_frames a) (n_audio_samples a)
        (sampling_rate a) (partition_score a) (recognised a)
        (PList c) (PList cc) (PList w) (PList wc)).
Proof.
  intros Hc Hcc Hw Hwc. unfold alignment_meta.
  rewrite (proj2 (alignments_Ok a _ (PList c))) by eauto.
  rewrite (proj2 (alignments_Ok a _ (PList cc))) by eauto.
  rewrite (proj2 (alignments_Ok a _ (PList w))) by eauto.
  by rewrite (proj2 (alignments_Ok a _ (PList wc))) by eauto.
Qed.

(** C5: [alignment_meta] succeeds exactly when every segment of the four
    lists encodes, and then returns the record whose six scalars are the
    alignment's, unchanged, and whose four lists hold the entries of the
    segments in the order of the lists. *)
Theorem alignment_meta_Ok a m :
  alignment_meta a = Ok m <->
  exists c cc w wc,
    Forall2 (encodes a) (chars a) c /\
    Forall2 (encodes a) (chars_cleaned a) cc /\
    Forall2 (encodes a) (words a) w /\
    Forall2 (encodes a) (words_cleaned a) wc /\
    m = PDict [("id", id_ a);
               ("n_model_frames", n_model_frames a);
               ("n_audio_samples", n_audio_samples a);
               ("sampling_rate", sampling_rate a);
               ("partition_score", partition_score a);
               ("recognised", recognised a);
               ("chars", PList c);
               ("chars_cleaned", PList cc);
               ("words", PList w);
               ("words_cleaned", PList wc)].
Proof.
  split; [apply alignment_meta_inv|].
  intros (c & cc & w & wc & ? & ? & ? & ? & ->). by apply alignment_meta_intro.
Qed.

(** C6: a failed [alignment_meta] raises the exception of the first
    segment that fails to encode, the segments taken in the order [chars],
    [chars_cleaned], [words], [words_cleaned]; every segment before it
    encoded. *)
Theorem alignment_meta_Err a e :
  alignment_meta a = Err e <->
  exists l1 seg l2,
    all_segments a = l1 ++ seg :: l2 /\
    Forall (fun s => is_ok (segment_dict a s) = true) l1 /\
    segment_dict a seg = Err e.
Proof. by rewrite alignment_meta_Err_traverse, traverse_Err_first. Qed.

(** C25: a degenerate alignment, one whose frame count, sampling rate or
    sample count is zero, is rejected by [alignment_meta] exactly when it
    has a segment to rescale: the [DegenerateAlignment] of the first
    rescaling comes out unchanged, and without a segment nothing checks
    the metadata. *)
Theorem alignment_meta_degenerate a :
  degenerate a = true ->
  alignment_meta a = Err DegenerateAlignment <-> all_segments a <> [].
Proof.
  intros Hd. rewrite alignment_meta_Err_traverse.
  destruct (all_segments a) as [|seg l]; [done|]. simpl.
  unfold segment_dict at 1, meta_rescale.
  by rewrite model_frames_to_seconds_degenerate.
Qed.

(** C23: an alignment without segments encodes whatever its metadata is:
    zero frames, zero samples or a zero sampling rate are not detected. *)
Theorem alignment_meta_no_segments a :
  all_segments a = [] ->
  alignment_meta a =
  Ok (PDict [("id", id_ a);
             ("n_model_frames", n_model_frames a);
             ("n_audio_samples", n_audio_samples a);
             ("sampling_rate", sampling_rate a);
             ("partition_score", partition_score a);
             ("recognised", recognised a);
             ("chars", PList []);
             ("chars_cleaned", PList []);
             ("words", PList []);
             ("words_cleaned", PList [])]).
Proof.
  unfold all_segments. intros Hl.
  apply app_eq_nil in Hl as [Hc Hl]. apply app_eq_nil in Hl as [Hcc Hl].
  apply app_eq_nil in Hl as [Hw Hwc].
  unfold alignment_meta. by rewrite Hc, Hcc, Hw, Hwc.
Qed.

End encoder_properties.

(** ** The decoder *)

Section decoder_properties.
Context {F : Type} `{FloatOps F}.
Implicit Types (a al : Alignment F) (seg : Segment F) (m v : pyval F).
Implicit Types (d : list (string * pyval F)) (k : string).

Lemma py_getitem_present d k :
  k ∈ dict_keys d -> exists v, py_getitem (PDict d) k = Ok v.
Proof. intros [v Hv]%dict_get_is_Some. exists v. simpl. by rewrite Hv. Qed.

Lemma py_getitem_absent d k :
  k ∉ dict_keys d -> py_getitem (PDict d) k = Err (KeyError k).
Proof. intros Hk%dict_get_None. simpl. by rewrite Hk. Qed.

(** C7: a record that lacks one of the six scalar keys makes
    [read_alignment_dict] raise [KeyError] for the first missing one, in
    the order the code reads them: [id], [recognised], [n_model_frames],
    [n_audio_samples], [sampling_rate], [partition_score]. *)
Theorem read_alignment_dict_missing_key d pre k post :
  scalar_keys = pre ++ k :: post ->
  Forall (fun k' => k' ∈ dict_keys d) pre ->
  k ∉ dict_keys d ->
  read_alignment_dict (PDict d) = Err (KeyError k).
Proof.
  intros Hk Hpre Hd%py_getitem_absent.
  unfold read_alignment_dict, scalar_keys in *.
  repeat (destruct pre as [|? pre];
          [injection Hk as <- _; by rewrite Hd|];
          injection Hk as <- Hk;
          apply Forall_cons in Hpre as [[? ->]%py_getitem_present Hpre];
          cbn [bind]).
  by destruct pre.
Qed.

(** A value that is not a dictionary has no keys to read. *)
Lemma read_alignment_dict_not_dict m :
  (forall d, m <> PDict d) -> read_alignment_dict m = Err TypeError.
Proof. intros Hm. destruct m; try done. by destruct (Hm d). Qed.

Lemma read_segments_Ok al m key segs :
  read_segments al m key = Ok segs <->
  exists v ds, py_getitem m key = Ok v /\ py_iter v = Ok ds /\
    Forall2 (fun x seg => dict_to_segment al x = Ok seg) ds segs.
Proof.
  unfold read_segments. split.
  - intros Hs. res_inv.
    match goal with Ht : traverse _ _ = Ok _ |- _ =>
      apply traverse_Ok_Forall2 in Ht end.
    eauto.
  - intros (v & ds & -> & Hds & Hs). simpl. rewrite Hds. simpl.
    by apply traverse_Ok_Forall2.
Qed.

Lemma dict_to_segment_Ok al v seg :
  dict_to_segment al v = Ok seg <-> decodes al v seg.
Proof.
  unfold dict_to_segment, read_rescale, decodes. split.
  - intros Hs. res_inv. eauto 10.
  - intros (s & e & -> & -> & Hs & He & -> & ->). simpl.
    rewrite Hs. simpl. rewrite He. by destruct seg.
Qed.

Lemma decodes_ext al a v seg :
  n_model_frames al = n_model_frames a ->
  sampling_rate al = sampling_rate a ->
  n_audio_samples al = n_audio_samples a ->
  decodes al v seg <-> decodes a v seg.
Proof.
  intros ???. unfold decodes.
  by setoid_rewrite (seconds_to_model_frames_ext al a).
Qed.

Lemma read_segments_decodes al a m key segs :
  n_model_frames al = n_model_frames a ->
  sampling_rate al = sampling_rate a ->
  n_audio_samples al = n_audio_samples a ->
  read_segments al m key = Ok segs <-> decodes_list a m key segs.
Proof.
  intros ???. rewrite read_segments_Ok. unfold decodes_list.
  split; intros (v & ds & ? & ? & Hds); exists v, ds; split_and!; try done;
    (eapply Forall2_impl; [done|]); intros x seg;
    by rewrite dict_to_segment_Ok, (decodes_ext al a).
Qed.

Lemma read_segments_skeleton a m key segs :
  read_segments
    (skeleton (id_ a) (recognised a) (n_model_frames a) (n_audio_samples a)
       (sampling_rate a) (partition_score a)) m key = Ok segs <->
  decodes_list a m key segs.
Proof. by apply read_segments_decodes. Qed.

(** C4: [read_alignment_dict] succeeds with [a] exactly when the three
    arrays of [a] are empty, its six scalars are the values of the
    record's keys, and each of its four lists holds, in the record's
    order, one segment per entry of the record's list of that name: the
    entry's label and score, and its start and end taken back to frames
    with the metadata of the record. *)
Theorem read_alignment_dict_Ok m a :
  read_alignment_dict m = Ok a <->
  log_probs a = [] /\ trellis a = [] /\ path a = [] /\
  py_getitem m "id" = Ok (id_ a) /\
  py_getitem m "recognised" = Ok (recognised a) /\
  py_getitem m "n_model_frames" = Ok (n_model_frames a) /\
  py_getitem m "n_audio_samples" = Ok (n_audio_samples a) /\
  py_getitem m "sampling_rate" = Ok (sampling_rate a) /\
  py_getitem m "partition_score" = Ok (partition_score a) /\
  decodes_list a m "chars_cleaned" (chars_cleaned a) /\
  decodes_list a m "chars" (chars a) /\
  decodes_list a m "words_cleaned" (words_cleaned a) /\
  decodes_list a m "words" (words a).
Proof.
  unfold read_alignment_dict. split.
  - intros Ha. res_inv. split_and!; try done; by apply read_segments_skeleton.
  - destruct a. simpl.
    intros (-> & -> & -> & -> & -> & -> & -> & -> & -> & Hcc & Hc & Hwc & Hw).
    apply read_segments_skeleton in Hcc, Hc, Hwc, Hw.
    unfold skeleton in *. simpl in *. by rewrite Hcc, Hc, Hwc, Hw.
Qed.

(** C24: a record whose four lists are empty decodes whatever its counts
    are: nothing is rescaled, so a frame count, a sample count or a
    sampling rate of zero, or one that is no number at all, is not
    detected and comes back in the alignment. *)
Theorem read_alignment_dict_no_entries (i nmf nas sr ps r : pyval F) :
  read_alignment_dict
    (record i nmf nas sr ps r (PList []) (PList []) (PList []) (PList [])) =
  Ok (skeleton i r nmf nas sr ps).
Proof. reflexivity. Qed.

End decoder_properties.

(** ** The round trip *)

Section roundtrip.
Context {F : Type} `{FloatOps F}.
Implicit Types (a : Alignment F) (seg : Segment F) (m : pyval F).

Lemma read_alignment_dict_meta a m :
  alignment_meta a = Ok m -> read_alignment_dict m = reload a.
Proof.
  intros (c & cc & w & wc & Hc & Hcc & Hw & Hwc & ->)%alignment_meta_inv.
  rewrite read_alignment_dict_record. cbv zeta.
  rewrite (read_list_encoded _ a (chars_cleaned a) cc) by done.
  rewrite (read_list_encoded _ a (chars a) c) by done.
  rewrite (read_list_encoded _ a (words_cleaned a) wc) by done.
  by rewrite (read_list_encoded _ a (words a) w) by done.
Qed.

Lemma reload_segment_Ok a seg seg' :
  reload_segment a seg = Ok seg' ->
  label seg' = label seg /\ score seg' = score seg /\
  reload_time a (start seg) = Ok (start seg') /\
  reload_time a (end_ seg) = Ok (end_ seg').
Proof. unfold reload_segment. intros Hs. by res_inv. Qed.

Lemma reload_segments_Ok a segs segs' :
  traverse (reload_segment a) segs = Ok segs' ->
  map label segs' = map label segs /\ map score segs' = map score segs /\
  Forall2 (fun seg seg' =>
    reload_time a (start seg) = Ok (start seg') /\
    reload_time a (end_ seg) = Ok (end_ seg')) segs segs'.
Proof.
  intros Hs%traverse_Ok_Forall2.
  induction Hs as [|seg seg' segs segs' Hseg _ (IHl & IHs & IHt)];
    [done|].
  apply reload_segment_Ok in Hseg as (Hl & Hsc & Hst & He).
  simpl. rewrite Hl, Hsc, IHl, IHs. split_and!; try done. by constructor.
Qed.

Lemma reload_Ok a a' :
  reload a = Ok a' ->
  traverse (reload_segment a) (chars_cleaned a) = Ok (chars_cleaned a') /\
  traverse (reload_segment a) (chars a) = Ok (chars a') /\
  traverse (reload_segment a) (words_cleaned a) = Ok (words_cleaned a') /\
  traverse (reload_segment a) (words a) = Ok (words a') /\
  a' = mkAlignment (id_ a) [] (recognised a) [] []
         (chars_cleaned a') (chars a') (words_cleaned a') (words a')
         (n_model_frames a) (n_audio_samples a) (sampling_rate a)
         (partition_score a).
Proof. unfold reload. intros Ha. by res_inv. Qed.

(** C1: writing then reading is [reload]: when [alignment_meta] succeeds,
    [read_alignment_dict] on its record returns what [reload] specifies,
    exceptions included; when it fails, nothing is read. *)
Theorem roundtrip_reload a :
  bind (alignment_meta a) read_alignment_dict =
  bind (alignment_meta a) (fun _ => reload a).
Proof.
  destruct (alignment_meta a) as [m|e] eqn:Hm; [|done].
  simpl. by apply read_alignment_dict_meta.
Qed.

(** C8: across a round trip the identifier, the transcript, the three
    counts and the partition score are unchanged, the arrays are empty,
    each of the four lists keeps its labels and scores in order, and
    every time of every segment is the [reload_time] of the original. *)
Theorem roundtrip_preserves a m a' :
  alignment_meta a = Ok m ->
  read_alignment_dict m = Ok a' ->
  id_ a' = id_ a /\ recognised a' = recognised a /\
  n_model_frames a' = n_model_frames a /\
  n_audio_samples a' = n_audio_samples a /\
  sampling_rate a' = sampling_rate a /\
  partition_score a' = partition_score a /\
  log_probs a' = [] /\ trellis a' = [] /\ path a' = [] /\
  map label (chars a') = map label (chars a) /\
  map score (chars a') = map score (chars a) /\
  map label (chars_cleaned a') = map label (chars_cleaned a) /\
  map score (chars_cleaned a') = map score (chars_cleaned a) /\
  map label (words a') = map label (words a) /\
  map score (words a') = map score (words a) /\
  map label (words_cleaned a') = map label (words_cleaned a) /\
  map score (words_cleaned a') = map score (words_cleaned a) /\
  Forall2 (fun seg seg' =>
    reload_time a (start seg) = Ok (start seg') /\
    reload_time a (end_ seg) = Ok (end_ seg'))
    (all_segments a) (all_segments a').
Proof.
  intros Hm Ha'. rewrite (read_alignment_dict_meta _ _ Hm) in Ha'.
  apply reload_Ok in Ha' as (Hcc & Hc & Hwc & Hw & Ha').
  apply reload_segments_Ok in Hcc as (? & ? & ?), Hc as (? & ? & ?),
    Hwc as (? & ? & ?), Hw as (? & ? & ?).
  rewrite Ha'. unfold all_segments. simpl.
  split_and!; try done. by repeat apply Forall2_app.
Qed.

End roundtrip.
