(* ===== verification/CodecTypes.v ===== *)
(** * CodecTypes: the shape of a record and the exceptions of the codec

    [is_record] is the shape of what [alignment_meta] returns: a
    dictionary of the ten keys in the order of the display, whose four
    lists hold entries of the four keys with times that are floats (a true
    division never returns anything else).  On a record of that shape
    whose three counts are integers other than zero that convert to
    floats, [read_alignment_dict] returns an alignment: the decoder is
    total on what the encoder writes for an alignment that is not
    degenerate.  The exceptions of the two directions are classified: the
    encoder raises those of a rescaling, the decoder those and [KeyError]
    of a key it reads. *)

From Stdlib Require Import ZArith String List Lia.
From stdpp Require Import base tactics option list strings.
From S2P Require Import Prelude PyFloat PyValue Align Codec CodecProps.

Local Open Scope string_scope.
Local Open Scope list_scope.
Local Open Scope res_scope.

Definition entry_keys : list string := ["label"; "start"; "end"; "score"].

Definition record_keys : list string :=
  ["id"; "n_model_frames"; "n_audio_samples"; "sampling_rate";
   "partition_score"; "recognised"; "chars"; "chars_cleaned"; "words";
   "words_cleaned"].

(** What the decoder raises: the exceptions of a rescaling, and
    [KeyError] of a key of a record or of an entry. *)
Definition decode_error (e : exn) : bool :=
  rescale_error e ||
  match e with
  | KeyError k => bool_decide (k ∈ record_keys ++ entry_keys)
  | _ => false
  end.

Section shapes.
Context {F : Type} `{FloatOps F}.
Implicit Types (a al : Alignment F) (seg : Segment F) (d m v : pyval F).

Definition is_entry d : bool :=
  match d with
  | PDict items =>
      bool_decide (dict_keys items = entry_keys) &&
      match dict_get "start" items, dict_get "end" items with
      | Some (PFloat _), Some (PFloat _) => true
      | _, _ => false
      end
  | _ => false
  end.

Definition is_entries (o : option (pyval F)) : bool :=
  match o with
  | Some (PList l) => forallb is_entry l
  | _ => false
  end.

Definition is_record m : bool :=
  match m with
  | PDict items =>
      bool_decide (dict_keys items = record_keys) &&
      is_entries (dict_get "chars" items) &&
      is_entries (dict_get "chars_cleaned" items) &&
      is_entries (dict_get "words" items) &&
      is_entries (dict_get "words_cleaned" items)
  | _ => false
  end.

(** An [int] other than zero that converts to a float. *)
Definition converts (o : option (pyval F)) : bool :=
  match o with
  | Some (PInt n) => negb (n =? 0)%Z && bool_decide (is_Some (f_of_int n))
  | _ => false
  end.

(** An [int] other than zero that converts to a float that is not zero. *)
Definition converts_nonzero (o : option (pyval F)) : bool :=
  match o with
  | Some (PInt n) =>
      negb (n =? 0)%Z &&
      match f_of_int n with
      | Some x => negb (f_is_zero x)
      | None => false
      end
  | _ => false
  end.

(** The three counts of a record that is not degenerate. *)
Definition scalars_ok m : bool :=
  match m with
  | PDict items =>
      converts (dict_get "n_model_frames" items) &&
      converts (dict_get "sampling_rate" items) &&
      converts_nonzero (dict_get "n_audio_samples" items)
  | _ => false
  end.

End shapes.

Arguments is_entries {F} o : simpl never.

(** ** What the encoder returns *)

Section encoder_shape.
Context {F : Type} `{FloatOps F}.
Implicit Types (a al : Alignment F) (seg : Segment F) (d m v t : pyval F).

Lemma encodes_entry a seg d : encodes a seg d -> is_entry d = true.
Proof.
  intros (s & e & Hs%model_frames_to_seconds_float &
          He%model_frames_to_seconds_float & ->).
  by destruct s, e.
Qed.

Lemma encoded_entries a segs ds :
  Forall2 (encodes a) segs ds -> is_entries (Some (PList ds)) = true.
Proof.
  unfold is_entries. induction 1 as [|seg d segs ds Hd _ IH]; simpl; [done|].
  by rewrite (encodes_entry a seg d), IH.
Qed.

Lemma segment_dict_Err a seg e :
  segment_dict a seg = Err e -> rescale_error e = true.
Proof.
  unfold segment_dict, meta_rescale. intros He.
  res_err; eauto using model_frames_to_seconds_Err.
Qed.

(** The encoder raises nothing but the exceptions of a rescaling. *)
Lemma alignment_meta_Err_rescale a e :
  alignment_meta a = Err e -> rescale_error e = true.
Proof.
  rewrite alignment_meta_Err_traverse, traverse_Err_first.
  intros (_ & seg & _ & _ & _ & He). by apply segment_dict_Err in He.
Qed.

End encoder_shape.

(** ** What the decoder raises *)

Section decoder_errors.
Context {F : Type} `{FloatOps F}.
Implicit Types (a al : Alignment F) (seg : Segment F) (d m v t : pyval F).

Lemma py_getitem_Err v k e :
  py_getitem v k = Err e -> e = TypeError \/ e = KeyError k.
Proof.
  destruct v; simpl; try (intros [= <-]; by left).
  intros [_ ->]%of_option_Err_inv. by right.
Qed.

Lemma py_iter_Err v e : py_iter v = Err e -> e = TypeError.
Proof. destruct v; simpl; congruence. Qed.

Lemma py_getitem_decode_error v k e :
  k ∈ record_keys ++ entry_keys -> py_getitem v k = Err e ->
  decode_error e = true.
Proof.
  intros Hk [->| ->]%py_getitem_Err; [done|].
  by apply bool_decide_eq_true_2.
Qed.

Lemma rescale_decode_error e :
  rescale_error e = true -> decode_error e = true.
Proof. unfold decode_error. by intros ->. Qed.

Lemma dict_to_segment_Err al d e :
  dict_to_segment al d = Err e -> decode_error e = true.
Proof.
  unfold dict_to_segment, read_rescale. intros He.
  res_err;
    eauto using rescale_decode_error, seconds_to_model_frames_Err;
    (eapply py_getitem_decode_error; [|done]); compute_done.
Qed.

Lemma read_segments_Err al m k e :
  k ∈ record_keys ++ entry_keys -> read_segments al m k = Err e ->
  decode_error e = true.
Proof.
  unfold read_segments. intros Hk He. res_err.
  - by eapply py_getitem_decode_error.
  - by apply py_iter_Err in He as ->.
  - apply traverse_Err_first in He as (_ & d & _ & _ & _ & He).
    by apply dict_to_segment_Err in He.
Qed.

Lemma read_alignment_dict_Err m e :
  read_alignment_dict m = Err e -> decode_error e = true.
Proof.
  unfold read_alignment_dict. intros He.
  res_err;
    match goal with
    | H : py_getitem _ _ = Err _ |- _ =>
        apply py_getitem_decode_error in H; [done|compute_done]
    | H : read_segments _ _ _ = Err _ |- _ =>
        apply read_segments_Err in H; [done|compute_done]
    end.
Qed.

End decoder_errors.

(** ** Records of the encoder's shape *)

Section record_shape.
Context {F : Type} `{FloatOps F}.
Implicit Types (a al : Alignment F) (seg : Segment F) (d m v t : pyval F).

Lemma is_entry_inv d :
  is_entry d = true ->
  exists l s e sc,
    d = PDict [("label", l); ("start", PFloat s); ("end", PFloat e);
               ("score", sc)].
Proof.
  destruct d as [| | | | | |items]; try done. simpl.
  intros [Hk Ht]%andb_true_iff. apply bool_decide_eq_true in Hk.
  do 4 (destruct items as [|[? ?] items]; [done|]).
  destruct items; [|done]. unfold dict_keys, entry_keys in Hk. simpl in Hk. simplify_eq. simpl in Ht.
  repeat case_match; try done. eauto.
Qed.

Lemma is_entries_inv (o : option (pyval F)) :
  is_entries o = true -> exists l, o = Some (PList l) /\ forallb is_entry l = true.
Proof. unfold is_entries. destruct o as [[]|]; try done. eauto. Qed.

Lemma is_record_inv m :
  is_record m = true ->
  exists i nmf nas sr ps r c cc w wc,
    m = record i nmf nas sr ps r (PList c) (PList cc) (PList w) (PList wc) /\
    forallb is_entry c = true /\ forallb is_entry cc = true /\
    forallb is_entry w = true /\ forallb is_entry wc = true.
Proof.
  destruct m as [| | | | | |items]; try done. simpl.
  rewrite !andb_true_iff.
  intros ((((Hk%bool_decide_eq_true & Hc) & Hcc) & Hw) & Hwc).
  do 10 (destruct items as [|[? ?] items]; [done|]).
  destruct items; [|done]. unfold dict_keys, record_keys in Hk. simpl in Hk. simplify_eq. simpl in *.
  apply is_entries_inv in Hc as (c & [= ->] & Hc), Hcc as (cc & [= ->] & Hcc),
    Hw as (w & [= ->] & Hw), Hwc as (wc & [= ->] & Hwc).
  unfold record. eauto 20.
Qed.

(** On a list of entries the decoder fails only where a time fails to
    rescale. *)
Lemma traverse_entries_Err al l e :
  forallb is_entry l = true -> traverse (dict_to_segment al) l = Err e ->
  exists x, seconds_to_model_frames al (PFloat x) = Err e.
Proof.
  intros Hl He.
  apply traverse_Err_first in He as (l1 & d & l2 & -> & _ & He).
  rewrite forallb_app in Hl. simpl in Hl.
  apply andb_true_iff in Hl as [_ [Hd _]%andb_true_iff].
  apply is_entry_inv in Hd as (lb & s & en & sc & ->).
  rewrite dict_to_segment_entry in He. res_err; eauto.
Qed.

Lemma read_list_entries_Err al l e :
  forallb is_entry l = true -> read_list al (PList l) = Err e ->
  exists x, seconds_to_model_frames al (PFloat x) = Err e.
Proof. apply traverse_entries_Err. Qed.

Lemma read_list_entries_Ok al l :
  (forall x, is_ok (seconds_to_model_frames al (PFloat x)) = true) ->
  forallb is_entry l = true -> is_ok (read_list al (PList l)) = true.
Proof.
  intros Hal Hl. destruct (read_list al (PList l)) as [?|e] eqn:He; [done|].
  apply read_list_entries_Err in He as [x He]; [|done].
  specialize (Hal x). by rewrite He in Hal.
Qed.

End record_shape.

(** ** The properties *)

Section codec_types.
Context {F : Type} `{FloatOps F}.
Implicit Types (a al : Alignment F) (seg : Segment F) (d m v t : pyval F).

Lemma seconds_to_model_frames_total al x :
  converts (Some (n_model_frames al)) = true ->
  converts (Some (sampling_rate al)) = true ->
  converts_nonzero (Some (n_audio_samples al)) = true ->
  is_ok (seconds_to_model_frames al (PFloat x)) = true.
Proof.
  unfold seconds_to_model_frames, check_degenerate, degenerate, converts,
    converts_nonzero.
  destruct (n_model_frames al) as [| |f| | | |]; try done.
  destruct (sampling_rate al) as [| |r| | | |]; try done.
  destruct (n_audio_samples al) as [| |n| | | |]; try done.
  intros [Hf0 [fx Hf]%bool_decide_eq_true]%andb_true_iff
         [Hr0 [rx Hr]%bool_decide_eq_true]%andb_true_iff
         [Hn0 Hn]%andb_true_iff.
  destruct (f_of_int n) as [nx|] eqn:Hnx; [|done].
  apply negb_true_iff in Hf0, Hr0, Hn0, Hn.
  unfold py_is_zero. simpl. rewrite Hf0, Hr0, Hn0. simpl.
  autorewrite with res. rewrite Hf. simpl.
  autorewrite with res. rewrite Hr. simpl.
  autorewrite with res. rewrite Hnx. simpl. by rewrite Hn.
Qed.

Lemma alignment_meta_record a m :
  alignment_meta a = Ok m -> is_record m = true.
Proof.
  intros (c & cc & w & wc & Hc & Hcc & Hw & Hwc & ->)%alignment_meta_inv.
  unfold is_record, record. cbn [dict_keys map fst dict_get String.eqb
    Ascii.eqb Bool.eqb].
  rewrite (encoded_entries a _ _ Hc), (encoded_entries a _ _ Hcc),
    (encoded_entries a _ _ Hw), (encoded_entries a _ _ Hwc).
  compute_done.
Qed.

(** On a record of the encoder's shape every key is there and every
    time is a float: only a rescaling can fail. *)
Lemma read_alignment_dict_Err_record m e :
  is_record m = true -> read_alignment_dict m = Err e ->
  rescale_error e = true.
Proof.
  intros (i & nmf & nas & sr & ps & r & c & cc & w & wc & -> &
          Hc & Hcc & Hw & Hwc)%is_record_inv He.
  rewrite read_alignment_dict_record in He. cbv zeta in He.
  res_err;
    match goal with
    | Hr : read_list _ _ = Err _ |- _ =>
        apply read_list_entries_Err in Hr as [? Hr]; [|done];
        by apply seconds_to_model_frames_Err in Hr
    end.
Qed.

(** C26: what [alignment_meta] returns has the shape of a record: the ten
    keys in the order of the display, four lists of entries of the four
    keys, every start and end a float. *)
Theorem alignment_meta_typed a m :
  alignment_meta a = Ok m -> is_record m = true.
Proof. apply alignment_meta_record. Qed.

(** C27: [read_alignment_dict] raises nothing but [TypeError],
    [ZeroDivisionError], [OverflowError], [DegenerateAlignment] and
    [KeyError] of one of the keys it reads; on a record of the encoder's
    shape it raises only what a rescaling raises. *)
Theorem read_alignment_dict_raises m e :
  read_alignment_dict m = Err e ->
  decode_error e = true /\ (is_record m = true -> rescale_error e = true).
Proof.
  intros He. split; [by apply read_alignment_dict_Err in He|].
  intros Hm. by apply (read_alignment_dict_Err_record m).
Qed.

(** C28: the decoder is total on well-shaped records that are not
    degenerate: when the record has the encoder's shape, its frame count
    and sampling rate are integers other than zero that convert to floats
    and its sample count one that converts to a float that is not zero,
    [read_alignment_dict] returns an alignment. *)
Theorem read_alignment_dict_total m :
  is_record m = true -> scalars_ok m = true ->
  is_ok (read_alignment_dict m) = true.
Proof.
  intros (i & nmf & nas & sr & ps & r & c & cc & w & wc & -> &
          Hc & Hcc & Hw & Hwc)%is_record_inv Hs.
  unfold scalars_ok, record in Hs.
  cbn [dict_get String.eqb Ascii.eqb Bool.eqb] in Hs.
  apply andb_true_iff in Hs as [[Hf Hr]%andb_true_iff Hn].
  rewrite read_alignment_dict_record. cbv zeta.
  set (al := skeleton i r nmf nas sr ps).
  assert (Hal : forall x, is_ok (seconds_to_model_frames al (PFloat x)) = true)
    by (intros x; by apply seconds_to_model_frames_total).
  pose proof (read_list_entries_Ok al cc Hal Hcc) as [? ->]%is_ok_true.
  pose proof (read_list_entries_Ok al c Hal Hc) as [? ->]%is_ok_true.
  pose proof (read_list_entries_Ok al wc Hal Hwc) as [? ->]%is_ok_true.
  by pose proof (read_list_entries_Ok al w Hal Hw) as [? ->]%is_ok_true.
Qed.

End codec_types.
