(* ===== verification/CodecExact.v ===== *)
(** * CodecExact: the round trip under exact arithmetic, for reference

    The specification's two rescaling formulas are inverse of each other in
    exact arithmetic.  This file records what that means for the codec,
    against the interface [ExactOps]: for an alignment whose three counts
    are non-zero [int]s and whose segment times are numbers,
    [alignment_meta] succeeds and [read_alignment_dict] on its record
    returns [loaded a]: the same alignment with the arrays emptied and
    every [int] time turned into the float of the same value (Python's [/]
    always returns a float).

    CPython's floats are no instance of [ExactOps]: the lemma is the ideal
    the binary64 results of [CodecB64] are measured against, not a
    statement about what the interpreter computes. *)

From Stdlib Require Import ZArith String List Lia.
From stdpp Require Import base tactics option list.
From S2P Require Import Prelude PyFloat PyValue Align Codec CodecProps.

Local Open Scope string_scope.
Local Open Scope list_scope.
Local Open Scope Z_scope.
Local Open Scope res_scope.

Section exact.
Context {F : Type} `{ExactOps F}.
Implicit Types (a : Alignment F) (seg : Segment F) (t : pyval F).

Definition nonzero_int t : bool :=
  match t with
  | PInt n => negb (n =? 0)
  | _ => false
  end.

Definition numeric_times seg : bool :=
  is_number (start seg) && is_number (end_ seg).

(** Non-degenerate integer metadata and numeric times. *)
Definition well_formed a : bool :=
  nonzero_int (n_model_frames a) && nonzero_int (n_audio_samples a) &&
  nonzero_int (sampling_rate a) && forallb numeric_times (all_segments a).

(** A time as it comes back: the float of the same value. *)
Definition as_float t : pyval F :=
  match t with
  | PInt z => PFloat (fz z)
  | _ => t
  end.

Definition loaded_segment seg : Segment F :=
  mkSegment (label seg) (as_float (start seg)) (as_float (end_ seg))
    (score seg).

Definition loaded a : Alignment F :=
  mkAlignment (id_ a) [] (recognised a) [] []
    (map loaded_segment (chars_cleaned a)) (map loaded_segment (chars a))
    (map loaded_segment (words_cleaned a)) (map loaded_segment (words a))
    (n_model_frames a) (n_audio_samples a) (sampling_rate a)
    (partition_score a).

Lemma nonzero_int_inv t : nonzero_int t = true -> exists n, t = PInt n /\ n <> 0.
Proof.
  destruct t; simpl; try done. intros Hn%negb_true_iff%Z.eqb_neq. eauto.
Qed.

Lemma fz_nonzero n : n <> 0 -> f_is_zero (fz n) = false.
Proof. intros Hn. rewrite f_is_zero_fz. by apply Z.eqb_neq. Qed.

(** Evaluates the operators on [int] and [float] operands whose
    conversions are exact. *)
Ltac exact_arith :=
  repeat first
    [ rewrite py_mul_int_int | rewrite py_mul_float_int
    | rewrite py_truediv_int_int | rewrite py_truediv_float_int
    | rewrite f_of_int_exact | rewrite fz_nonzero by done
    | rewrite f_int_div_exact by done
    | rewrite (proj2 (Z.eqb_neq _ 0)) by done
    | progress simpl ].

(** ** Rescaling with non-degenerate metadata *)

Section metadata.
Context (a : Alignment F) (nmf nas sr : Z).
Context (Hnmf : n_model_frames a = PInt nmf) (Hnas : n_audio_samples a = PInt nas)
        (Hsr : sampling_rate a = PInt sr).
Context (Hnmf0 : nmf <> 0) (Hnas0 : nas <> 0) (Hsr0 : sr <> 0).

Lemma regular_metadata : degenerate a = false.
Proof.
  unfold degenerate, py_is_zero. rewrite Hnmf, Hnas, Hsr. simpl.
  by rewrite !(proj2 (Z.eqb_neq _ 0)).
Qed.

(** The seconds of a time given in frames. *)
Definition seconds_of t : F :=
  match t with
  | PInt z => f_div (f_div (fz (z * nas)) (fz sr)) (fz nmf)
  | PFloat x => f_div (f_div (f_mul x (fz nas)) (fz sr)) (fz nmf)
  | _ => fz 0
  end.

Lemma model_frames_to_seconds_exact t :
  is_number t = true ->
  model_frames_to_seconds a t = Ok (PFloat (seconds_of t)).
Proof.
  rewrite model_frames_to_seconds_regular, Hnmf, Hnas, Hsr
    by apply regular_metadata.
  destruct t as [| | z | x | | |]; try done; intros _; by exact_arith.
Qed.

Lemma seconds_to_model_frames_exact (x : F) :
  seconds_to_model_frames a (PFloat x) =
  Ok (PFloat (f_div (f_mul (f_mul x (fz nmf)) (fz sr)) (fz nas))).
Proof.
  rewrite seconds_to_model_frames_regular, Hnmf, Hnas, Hsr
    by apply regular_metadata.
  by exact_arith.
Qed.

(** The two formulas cancel. *)
Lemma frames_of_seconds_of t :
  is_number t = true ->
  PFloat (f_div (f_mul (f_mul (seconds_of t) (fz nmf)) (fz sr)) (fz nas)) =
  as_float t.
Proof.
  destruct t as [| | z | x | | |]; try done; intros _; simpl.
  - rewrite !f_div_mul_cancel by by apply fz_nonzero.
    by rewrite fz_mul, f_mul_div_cancel by by apply fz_nonzero.
  - rewrite !f_div_mul_cancel by by apply fz_nonzero.
    by rewrite f_mul_div_cancel by by apply fz_nonzero.
Qed.

Lemma reload_time_exact t :
  is_number t = true -> reload_time a t = Ok (as_float t).
Proof.
  intros Ht. unfold reload_time, meta_rescale, read_rescale.
  rewrite model_frames_to_seconds_exact by done. simpl.
  by rewrite seconds_to_model_frames_exact, frames_of_seconds_of.
Qed.

Lemma reload_segment_exact seg :
  numeric_times seg = true -> reload_segment a seg = Ok (loaded_segment seg).
Proof.
  intros [Hs He]%andb_true_iff. unfold reload_segment.
  by rewrite !reload_time_exact.
Qed.

Lemma reload_segments_exact segs :
  forallb numeric_times segs = true ->
  traverse (reload_segment a) segs = Ok (map loaded_segment segs).
Proof.
  intros Hsegs. apply traverse_Ok_map. intros seg Hseg.
  apply reload_segment_exact.
  rewrite forallb_forall in Hsegs. by apply Hsegs, list_elem_of_In.
Qed.

Lemma segment_dict_exact seg :
  numeric_times seg = true -> is_ok (segment_dict a seg) = true.
Proof.
  intros [Hs He]%andb_true_iff. unfold segment_dict, meta_rescale.
  by rewrite !model_frames_to_seconds_exact.
Qed.

Lemma alignment_meta_exact :
  forallb numeric_times (all_segments a) = true ->
  exists m, alignment_meta a = Ok m.
Proof.
  intros Hsegs. destruct (alignment_meta a) as [m|e] eqn:Hm; [by eauto|].
  apply alignment_meta_Err_traverse, traverse_Err_first in Hm
    as (l1 & seg & l2 & Hl & _ & Hseg).
  rewrite forallb_forall in Hsegs.
  assert (Hok : is_ok (segment_dict a seg) = true).
  { apply segment_dict_exact, Hsegs. rewrite Hl. apply in_elt. }
  by rewrite Hseg in Hok.
Qed.

End metadata.

Lemma forallb_app_inv {A} (p : A -> bool) (l1 l2 : list A) :
  forallb p (l1 ++ l2) = true -> forallb p l1 = true /\ forallb p l2 = true.
Proof. rewrite forallb_app. by intros ?%andb_true_iff. Qed.

Lemma reload_exact a : well_formed a = true -> reload a = Ok (loaded a).
Proof.
  unfold well_formed. rewrite !andb_true_iff.
  intros [[[(nmf & Hnmf & ?)%nonzero_int_inv (nas & Hnas & ?)%nonzero_int_inv]
    (sr & Hsr & ?)%nonzero_int_inv] Hsegs].
  unfold all_segments in Hsegs.
  apply forallb_app_inv in Hsegs as [Hc Hsegs].
  apply forallb_app_inv in Hsegs as [Hcc Hsegs].
  apply forallb_app_inv in Hsegs as [Hw Hwc].
  unfold reload. by rewrite !(reload_segments_exact a nmf nas sr).
Qed.

(** Under exact arithmetic the round trip loses nothing.  For an
    alignment with non-zero integer counts and numeric segment times,
    [alignment_meta] returns a record and [read_alignment_dict] on that
    record returns the alignment itself, with the three arrays emptied and
    every time as the float of the same value. *)
Lemma exact_roundtrip a :
  well_formed a = true ->
  exists m, alignment_meta a = Ok m /\ read_alignment_dict m = Ok (loaded a).
Proof.
  intros Hwf. pose proof (reload_exact a Hwf) as Hr.
  unfold well_formed in Hwf. rewrite !andb_true_iff in Hwf.
  destruct Hwf as [[[(nmf & Hnmf & ?)%nonzero_int_inv
    (nas & Hnas & ?)%nonzero_int_inv] (sr & Hsr & ?)%nonzero_int_inv] Hsegs].
  destruct (alignment_meta_exact a nmf nas sr) as [m Hm]; try done.
  exists m. split; [done|]. by rewrite (read_alignment_dict_meta a m).
Qed.

End exact.

(** ** A concrete instance over the rationals *)

Definition exact_example : Alignment Exact.float :=
  mkAlignment (PStr "audio/one.mp3") [] (PStr "a b") [] [] [] []
    [mkSegment (PStr "a") (PInt 0) (PInt 3) (PFloat (Exact.of_int 1))]
    [mkSegment (PStr "a") (PInt 0) (PInt 3) (PFloat (Exact.of_int 1));
     mkSegment (PStr "b") (PInt 3) (PInt 7) (PFloat (Exact.of_int 1))]
    (PInt 7) (PInt 160001) (PInt 16000) (PFloat (Exact.of_int 1)).

Example exact_roundtrip_example :
  exists m, alignment_meta exact_example = Ok m /\
            read_alignment_dict m = Ok (loaded exact_example).
Proof. apply exact_roundtrip. reflexivity. Qed.
