(* ===== verification/CodecB64.v ===== *)
(** * CodecB64: the codec as CPython runs it, on concrete recordings

    Under binary64 the two rescaling formulas are not exactly inverse: each
    of the five operations of a round trip rounds.  This file evaluates
    the codec on the specification's example and on a recording of thirty
    seconds at 16 kHz with 1499 model frames, and proves by enumeration of
    all its frames that a frame index comes back within a relative error
    of [2^-52], while some indices do not come back as themselves.  It
    also holds the concrete instances of the theorems of [CodecProps] and
    [CodecTypes]. *)

From Stdlib Require Import ZArith String List SpecFloat QArith Qabs Lia.
From stdpp Require Import base tactics option list.
From S2P Require Import Prelude PyFloat PyValue Align Codec CodecProps.
From S2P Require Import CodecTypes.

Local Open Scope string_scope.
Local Open Scope list_scope.
Local Open Scope Z_scope.
Local Open Scope res_scope.

Abbreviation b64val := (pyval B64.float).

Definition flt (n : Z) : b64val := PFloat (B64.lit n).

(** The score [0.9] and [0.8] of the specification's example, as the
    floats nearest to them. *)
Definition score_09 : b64val := PFloat (S754_finite false 8106479329266893 (-53)).
Definition score_08 : b64val := PFloat (S754_finite false 7205759403792794 (-53)).

(** The example of the specification: two words over ten frames of a
    recording of ten seconds at 16 kHz. *)
Definition spec_example : Alignment B64.float :=
  mkAlignment (PStr "audio/one.mp3") [] (PStr "a b") [] [] [] [] []
    [mkSegment (PStr "a") (PInt 0) (PInt 2) score_09;
     mkSegment (PStr "b") (PInt 2) (PInt 5) score_08]
    (PInt 10) (PInt 160000) (PInt 16000) (flt 1).

(** Thirty seconds at 16 kHz, 1499 model frames, no segments. *)
Definition recording30 : Alignment B64.float :=
  mkAlignment (PStr "audio/two.mp3") [] (PStr "") [] [] [] [] [] []
    (PInt 1499) (PInt 480000) (PInt 16000) (flt 1).

(** A recording whose metadata is all zero. *)
Definition empty_recording : Alignment B64.float :=
  mkAlignment (PStr "audio/empty.mp3") [] (PStr "") [] [] [] [] [] []
    (PInt 0) (PInt 0) (PInt 0) (flt 0).

(** One word, and a sampling rate of zero. *)
Definition zero_rate : Alignment B64.float :=
  mkAlignment (PStr "audio/three.mp3") [] (PStr "a") [] [] [] [] []
    [mkSegment (PStr "a") (PInt 0) (PInt 2) score_09]
    (PInt 10) (PInt 160000) (PInt 0) (flt 1).

(** A record without the key [sampling_rate]. *)
Definition no_sampling_rate : list (string * b64val) :=
  [("id", PStr "audio/one.mp3"); ("n_model_frames", PInt 10);
   ("n_audio_samples", PInt 160000); ("partition_score", flt 1);
   ("recognised", PStr "a b"); ("chars", PList []);
   ("chars_cleaned", PList []); ("words", PList []);
   ("words_cleaned", PList [])].

(** [x] is within a relative error of [2^-52] of the integer [f]. *)
Definition within_ulp (x : B64.float) (f : Z) : bool :=
  match B64.to_Q x with
  | Some q => Qle_bool (Qabs (q - inject_Z f)) (inject_Z f * (1 # 2 ^ 52))
  | None => false
  end.

Definition reloads_within (a : Alignment B64.float) (f : Z) : bool :=
  match reload_time a (PInt f) with
  | Ok (PFloat x) => within_ulp x f
  | _ => false
  end.

Lemma reloads_within_spec a f :
  reloads_within a f = true ->
  exists x q, reload_time a (PInt f) = Ok (PFloat x) /\
    B64.to_Q x = Some q /\
    (Qabs (q - inject_Z f) <= inject_Z f * (1 # 2 ^ 52))%Q.
Proof.
  unfold reloads_within, within_ulp. intros Hf.
  destruct (reload_time a (PInt f)) as [[| | | x | | |]|]; try done.
  destruct (B64.to_Q x) as [q|] eqn:Hq; [|done].
  exists x, q. split_and!; try done. by apply Qle_bool_iff.
Qed.

(** On the specification's example the two words come out in order, [a]
    from 0.0 to 2.0 seconds and [b] from 2.0 to 5.0 seconds, the start of
    the second being the end of the first, labels and scores copied. *)
Example spec_example_meta :
  alignment_meta spec_example =
  Ok (PDict [("id", PStr "audio/one.mp3");
             ("n_model_frames", PInt 10);
             ("n_audio_samples", PInt 160000);
             ("sampling_rate", PInt 16000);
             ("partition_score", flt 1);
             ("recognised", PStr "a b");
             ("chars", PList []);
             ("chars_cleaned", PList []);
             ("words",
              PList [PDict [("label", PStr "a"); ("start", flt 0);
                            ("end", flt 2); ("score", score_09)];
                     PDict [("label", PStr "b"); ("start", flt 2);
                            ("end", flt 5); ("score", score_08)]]);
             ("words_cleaned", PList [])]).
Proof. vm_compute. reflexivity. Qed.

(** C29: on a recording of thirty seconds with 1499 frames, every frame
    index from 0 to 1499 taken to seconds and back is a finite float
    within a relative error of [2^-52] of the index. *)
Theorem recording30_reload_within (f : Z) :
  0 <= f <= 1499 ->
  exists x q, reload_time recording30 (PInt f) = Ok (PFloat x) /\
    B64.to_Q x = Some q /\
    (Qabs (q - inject_Z f) <= inject_Z f * (1 # 2 ^ 52))%Q.
Proof.
  intros Hf. apply reloads_within_spec.
  apply (forallb_range (reloads_within recording30) 1500); [|lia].
  vm_compute. reflexivity.
Qed.

Lemma recording30_reload_within_witness :
  exists x q, reload_time recording30 (PInt 17) = Ok (PFloat x) /\
    B64.to_Q x = Some q /\
    (Qabs (q - inject_Z 17) <= inject_Z 17 * (1 # 2 ^ 52))%Q.
Proof. apply recording30_reload_within. lia. Defined.

(** C30: the binary64 round trip is not the identity: frame 843 of that
    recording comes back as a float below 843, which a truncation to an
    integer would turn into 842. *)
Theorem recording30_reload_below :
  exists x q, reload_time recording30 (PInt 843) = Ok (PFloat x) /\
    B64.to_Q x = Some q /\ (q < 843)%Q.
Proof.
  exists (S754_finite false 7415106417721343 (-43)). eexists.
  split_and!; [by vm_compute|reflexivity|by vm_compute].
Qed.

(** ** The theorems of [CodecProps] on these recordings *)

(** The specification's example as a record, and as it is read back. *)
Definition spec_record : b64val :=
  PDict [("id", PStr "audio/one.mp3");
         ("n_model_frames", PInt 10);
         ("n_audio_samples", PInt 160000);
         ("sampling_rate", PInt 16000);
         ("partition_score", flt 1);
         ("recognised", PStr "a b");
         ("chars", PList []);
         ("chars_cleaned", PList []);
         ("words",
          PList [PDict [("label", PStr "a"); ("start", flt 0);
                        ("end", flt 2); ("score", score_09)];
                 PDict [("label", PStr "b"); ("start", flt 2);
                        ("end", flt 5); ("score", score_08)]]);
         ("words_cleaned", PList [])].

(** A record of the encoder's shape with one word and a sampling rate of
    zero, as another producer might write it. *)
Definition zero_rate_record : b64val :=
  PDict [("id", PStr "audio/three.mp3");
         ("n_model_frames", PInt 10);
         ("n_audio_samples", PInt 160000);
         ("sampling_rate", PInt 0);
         ("partition_score", flt 1);
         ("recognised", PStr "a");
         ("chars", PList []);
         ("chars_cleaned", PList []);
         ("words",
          PList [PDict [("label", PStr "a"); ("start", flt 0);
                        ("end", flt 2); ("score", score_09)]]);
         ("words_cleaned", PList [])].

Definition spec_loaded : Alignment B64.float :=
  mkAlignment (PStr "audio/one.mp3") [] (PStr "a b") [] [] [] [] []
    [mkSegment (PStr "a") (flt 0) (flt 2) score_09;
     mkSegment (PStr "b") (flt 2) (flt 5) score_08]
    (PInt 10) (PInt 160000) (PInt 16000) (flt 1).

Lemma read_alignment_dict_missing_key_witness :
  read_alignment_dict (PDict no_sampling_rate) =
  Err (KeyError "sampling_rate").
Proof.
  apply (read_alignment_dict_missing_key no_sampling_rate
           ["id"; "recognised"; "n_model_frames"; "n_audio_samples"]
           "sampling_rate" ["partition_score"]).
  - reflexivity.
  - compute_done.
  - compute_done.
Defined.

Lemma alignment_meta_degenerate_witness :
  alignment_meta zero_rate = Err DegenerateAlignment.
Proof. by apply (alignment_meta_degenerate zero_rate). Defined.

Lemma alignment_meta_no_segments_witness :
  is_ok (alignment_meta empty_recording) = true.
Proof. by rewrite (alignment_meta_no_segments empty_recording). Defined.

Lemma read_alignment_dict_Ok_witness :
  read_alignment_dict spec_record = Ok spec_loaded.
Proof.
  apply (proj2 (read_alignment_dict_Ok spec_record spec_loaded)).
  do 9 (split; [reflexivity|]).
  split_and!; (eexists _, _; split_and!; [reflexivity..|]);
    repeat constructor; eexists _, _; split_and!; reflexivity.
Defined.

Lemma roundtrip_preserves_witness :
  map label (words spec_loaded) = map label (words spec_example) /\
  map score (words spec_loaded) = map score (words spec_example).
Proof.
  destruct (roundtrip_preserves spec_example spec_record spec_loaded)
    as (_ & _ & _ & _ & _ & _ & _ & _ & _ & _ & _ & _ & _ & ? & ? & _);
    [by vm_compute|by vm_compute|done].
Defined.

Lemma alignment_meta_typed_witness : is_record spec_record = true.
Proof. apply (alignment_meta_typed spec_example). by vm_compute. Defined.

Lemma read_alignment_dict_raises_witness :
  decode_error DegenerateAlignment = true /\
  (is_record zero_rate_record = true ->
   rescale_error DegenerateAlignment = true).
Proof.
  apply (read_alignment_dict_raises zero_rate_record). by vm_compute.
Defined.

Lemma read_alignment_dict_total_witness :
  is_ok (read_alignment_dict spec_record) = true.
Proof. apply read_alignment_dict_total; by vm_compute. Defined.
