(* ===== verification/PosixPath.v ===== *)
(** * PosixPath: pathlib's pure POSIX paths, and [alignment_filename]

    [alignment_filename] (utils.py, lines 167-173) is two operations of
    [pathlib]: [filename = path / id], then
    [filename.parent / (filename.name + ".json")].  This file models the
    pure paths of [pathlib] on POSIX as CPython parses them: a path is a
    root ([""], ["/"] or ["//"]) and the list of its components, which are
    non-empty, are not ["."] and hold no separator; [".."] is kept as a
    component.  [parse] is the constructor on one string, [joinpath] is
    [p / s], [name] and [parent] are the properties, [to_str] is [str(p)].

    The theorems: the components [alignment_filename] returns, that
    every result is a well-formed path whose
    last component ends in [.json], that two ids give the same location
    under a root exactly when they have the same components, and the
    collisions and escapes that follow: ids equal up to doubled separators
    or [.] components share a location, and an absolute id leaves the
    root. *)

From Stdlib Require Import String Ascii List Arith Lia.
From stdpp Require Import countable base tactics option list strings.
From S2P Require Import Prelude.

Local Open Scope string_scope.
Local Open Scope list_scope.

(** ** Strings *)

Definition sep : ascii := "/"%char.

(** [s.split("/")]: the pieces between separators, at least one. *)
Fixpoint split (s : string) : list string :=
  match s with
  | EmptyString => [EmptyString]
  | String c s' =>
      if Ascii.eqb c sep then EmptyString :: split s'
      else match split s' with
           | h :: t => String c h :: t
           | [] => [String c EmptyString]
           end
  end.

(** [s.lstrip("/")]. *)
Fixpoint lstrip (s : string) : string :=
  match s with
  | String c s' => if Ascii.eqb c sep then lstrip s' else s
  | EmptyString => EmptyString
  end.

(** No separator occurs in [s]. *)
Fixpoint no_sep (s : string) : bool :=
  match s with
  | EmptyString => true
  | String c s' => negb (Ascii.eqb c sep) && no_sep s'
  end.

(** ["/".join(l)]. *)
Fixpoint join_sep (l : list string) : string :=
  match l with
  | [] => EmptyString
  | [x] => x
  | x :: l' => x +:+ String sep (join_sep l')
  end.

(** ** Paths *)

Inductive root_kind : Type :=
| RootNone
| Root1
| Root2.

#[export] Instance root_kind_eq_dec : EqDecision root_kind.
Proof. solve_decision. Defined.

Record PurePath : Type := mkPath {
  root : root_kind;
  parts : list string;
}.

#[export] Instance PurePath_eq_dec : EqDecision PurePath.
Proof. solve_decision. Defined.

#[export] Instance root_kind_countable : Countable root_kind.
Proof.
  apply (inj_countable'
    (fun r => match r with RootNone => 0 | Root1 => 1 | Root2 => 2 end)
    (fun n => match n with 0 => RootNone | 1 => Root1 | _ => Root2 end)).
  by intros [].
Defined.

#[export] Instance PurePath_countable : Countable PurePath.
Proof.
  apply (inj_countable' (fun p => (root p, parts p))
                        (fun x => mkPath (fst x) (snd x))).
  by intros [].
Defined.

Definition root_str (r : root_kind) : string :=
  match r with
  | RootNone => ""
  | Root1 => "/"
  | Root2 => "//"
  end.

(** [splitroot]: exactly two leading separators are the root ["//"], any
    other number of them the root ["/"]. *)
Definition splitroot (part : string) : root_kind * string :=
  match part with
  | String c _ =>
      if Ascii.eqb c sep then
        let stripped := lstrip part in
        if Nat.eqb (String.length part - String.length stripped) 2
        then (Root2, stripped)
        else (Root1, stripped)
      else (RootNone, part)
  | EmptyString => (RootNone, part)
  end.

(** A piece is kept as a component unless it is empty or ["."]. *)
Definition keep_part (x : string) : bool :=
  negb (String.eqb x "") && negb (String.eqb x ".").

Definition parse_rel (rel : string) : list string :=
  filter (fun x => keep_part x = true) (split rel).

Definition parse (s : string) : PurePath :=
  let '(r, rel) := splitroot s in
  mkPath r (parse_rel rel).

(** [p / s]: an absolute [s] replaces [p]. *)
Definition joinpath (p : PurePath) (s : string) : PurePath :=
  let q := parse s in
  match root q with
  | RootNone => mkPath (root p) (parts p ++ parts q)
  | _ => q
  end.

Definition name (p : PurePath) : string :=
  match last (parts p) with
  | Some x => x
  | None => ""
  end.

Definition parent (p : PurePath) : PurePath :=
  mkPath (root p) (removelast (parts p)).

Definition to_str (p : PurePath) : string :=
  match root p, parts p with
  | RootNone, [] => "."
  | r, l => root_str r +:+ join_sep l
  end.

(** ** The function *)

Definition alignment_filename (path : PurePath) (id : string) : PurePath :=
  let filename := joinpath path id in
  joinpath (parent filename) (name filename +:+ ".json").

(** ** Well-formed paths *)

Definition wf_part (x : string) : bool := keep_part x && no_sep x.

Definition wf_path (p : PurePath) : Prop :=
  Forall (fun x => wf_part x = true) (parts p).

(** ** Facts on strings *)

Section string_facts.
Implicit Types (s t x : string) (l : list string).

Lemma string_length_app s t :
  String.length (s +:+ t) = String.length s + String.length t.
Proof. induction s as [|c s IH]; simpl; [done|]. by rewrite IH. Qed.

Lemma string_app_inv_tail s1 s2 t : s1 +:+ t = s2 +:+ t -> s1 = s2.
Proof.
  revert s2. induction s1 as [|c s1 IH]; intros [|c2 s2] Heq; simpl in *.
  - done.
  - apply (f_equal String.length) in Heq.
    rewrite !string_length_app in Heq. simpl in Heq. lia.
  - apply (f_equal String.length) in Heq.
    rewrite !string_length_app in Heq. simpl in Heq. lia.
  - injection Heq as -> Heq. f_equal. by apply IH.
Qed.

Lemma no_sep_app s t : no_sep (s +:+ t) = no_sep s && no_sep t.
Proof.
  induction s as [|c s IH]; simpl; [done|]. by rewrite IH, andb_assoc.
Qed.

Lemma split_nonempty s : split s <> [].
Proof.
  destruct s as [|c s]; simpl; [done|].
  destruct (Ascii.eqb c sep); [done|]. by destruct (split s).
Qed.

Lemma split_no_sep s : no_sep s = true -> split s = [s].
Proof.
  induction s as [|c s IH]; simpl; [done|].
  intros [Hc Hs]%andb_true_iff. apply negb_true_iff in Hc.
  by rewrite Hc, IH.
Qed.

Lemma split_Forall_no_sep s : Forall (fun x => no_sep x = true) (split s).
Proof.
  induction s as [|c s IH]; simpl; [by repeat constructor|].
  destruct (Ascii.eqb c sep) eqn:Hc; [by constructor|].
  destruct IH as [|h t Hh Ht]; constructor; simpl; try done;
    by rewrite Hc, ?Hh.
Qed.

(** Splitting undoes joining. *)
Lemma split_app_sep x s :
  no_sep x = true -> split (x +:+ String sep s) = x :: split s.
Proof.
  induction x as [|c x IH]; simpl; [done|].
  intros [Hc Hx]%andb_true_iff. apply negb_true_iff in Hc.
  by rewrite Hc, IH.
Qed.

Lemma split_join_sep l :
  l <> [] -> Forall (fun x => no_sep x = true) l -> split (join_sep l) = l.
Proof.
  induction l as [|x l IH]; [done|]. intros _ Hl.
  apply Forall_cons in Hl as [Hx Hl].
  destruct l as [|y l]; [by apply split_no_sep|].
  change (join_sep (x :: y :: l)) with (x +:+ String sep (join_sep (y :: l))).
  by rewrite split_app_sep, IH.
Qed.

Lemma keep_part_json x : keep_part (x +:+ ".json") = true.
Proof.
  unfold keep_part. apply andb_true_iff; split; apply negb_true_iff;
    apply String.eqb_neq; intros Heq;
    apply (f_equal String.length) in Heq;
    rewrite string_length_app in Heq; simpl in Heq; lia.
Qed.

Lemma wf_part_json x : no_sep x = true -> wf_part (x +:+ ".json") = true.
Proof.
  intros Hx. unfold wf_part. by rewrite keep_part_json, no_sep_app, Hx.
Qed.

Lemma wf_part_inv x :
  wf_part x = true -> x <> "" /\ x <> "." /\ no_sep x = true.
Proof.
  unfold wf_part, keep_part. rewrite !andb_true_iff, !negb_true_iff.
  intros [[?%String.eqb_neq ?%String.eqb_neq] ?]. done.
Qed.

End string_facts.

(** ** Facts on paths *)

Section path_facts.
Implicit Types (p q : PurePath) (s x id : string) (l : list string).

Lemma parse_rel_wf s : Forall (fun x => wf_part x = true) (parse_rel s).
Proof.
  unfold parse_rel. apply Forall_forall. intros x Hx.
  apply list_elem_of_filter in Hx as [Hk Hx].
  unfold wf_part. rewrite Hk. simpl.
  by eapply (proj1 (Forall_forall _ _)) in Hx; [|apply split_Forall_no_sep].
Qed.

Lemma parse_wf s : wf_path (parse s).
Proof.
  unfold parse, wf_path. destruct (splitroot s). apply parse_rel_wf.
Qed.

(** A well-formed component parses to itself. *)
Lemma parse_part x : wf_part x = true -> parse x = mkPath RootNone [x].
Proof.
  intros Hx. pose proof (wf_part_inv x Hx) as (Hne & Hdot & Hsep).
  unfold parse, splitroot, parse_rel. destruct x as [|c x]; [done|].
  simpl in Hsep. apply andb_true_iff in Hsep as [Hc Hsep].
  apply negb_true_iff in Hc. rewrite Hc.
  rewrite split_no_sep by (simpl; by rewrite Hc, Hsep).
  unfold wf_part in Hx. apply andb_true_iff in Hx as [Hk _].
  by rewrite filter_cons_True.
Qed.

Lemma joinpath_part p x :
  wf_part x = true -> joinpath p x = mkPath (root p) (parts p ++ [x]).
Proof. intros Hx. unfold joinpath. by rewrite parse_part. Qed.

Lemma joinpath_wf p s : wf_path p -> wf_path (joinpath p s).
Proof.
  intros Hp. unfold joinpath. pose proof (parse_wf s) as Hs.
  destruct (root (parse s)); try done.
  unfold wf_path in *. simpl. by apply Forall_app.
Qed.

Lemma Forall_removelast {A} (P : A -> Prop) (l : list A) :
  Forall P l -> Forall P (removelast l).
Proof.
  induction 1 as [|x l Hx Hl IH]; simpl; [done|].
  destruct l; [done|]. by constructor.
Qed.

Lemma parent_wf p : wf_path p -> wf_path (parent p).
Proof. unfold wf_path, parent. simpl. apply Forall_removelast. Qed.

Lemma name_no_sep p : wf_path p -> no_sep (name p) = true.
Proof.
  unfold wf_path, name. intros Hp.
  destruct (last (parts p)) as [x|] eqn:Hl; [|done].
  apply last_Some_elem_of in Hl.
  eapply (proj1 (Forall_forall _ _)) in Hl; [|done].
  by apply wf_part_inv in Hl as (_ & _ & ?).
Qed.

(** The components of the location: those of [path / id] with [.json]
    appended to the last. *)
Lemma alignment_filename_parts path id :
  wf_path path ->
  alignment_filename path id =
  mkPath (root (joinpath path id))
    (removelast (parts (joinpath path id)) ++
     [name (joinpath path id) +:+ ".json"]).
Proof.
  intros Hp. unfold alignment_filename.
  rewrite joinpath_part; [done|].
  by apply wf_part_json, name_no_sep, joinpath_wf.
Qed.

(** A list of well-formed components is recovered from its location. *)
Definition with_suffix l : list string :=
  removelast l ++ [match last l with Some x => x | None => "" end +:+ ".json"].

Lemma with_suffix_inj l1 l2 :
  Forall (fun x => wf_part x = true) l1 ->
  Forall (fun x => wf_part x = true) l2 ->
  with_suffix l1 = with_suffix l2 -> l1 = l2.
Proof.
  unfold with_suffix. intros H1 H2 Heq.
  apply app_inj_tail in Heq as [Hr Hl]. apply string_app_inv_tail in Hl.
  destruct l1 as [|x1 l1 _] using rev_ind; destruct l2 as [|x2 l2 _] using rev_ind.
  - done.
  - rewrite last_snoc in Hl. simpl in Hl. subst x2.
    apply Forall_app in H2 as [_ H2]. by apply Forall_cons in H2 as [? _].
  - rewrite last_snoc in Hl. simpl in Hl. subst x1.
    apply Forall_app in H1 as [_ H1]. by apply Forall_cons in H1 as [? _].
  - rewrite !last_snoc in Hl. rewrite !removelast_last in Hr. by subst.
Qed.

End path_facts.

(** ** Printing and parsing *)

Section print_parse.
Implicit Types (p : PurePath) (s x : string) (l : list string).

Definition starts_with_sep s : bool :=
  match s with
  | String c _ => Ascii.eqb c sep
  | EmptyString => false
  end.

Lemma lstrip_id s : starts_with_sep s = false -> lstrip s = s.
Proof. destruct s as [|c s]; simpl; [done|]. by intros ->. Qed.

Lemma splitroot_relative s :
  starts_with_sep s = false -> splitroot s = (RootNone, s).
Proof. destruct s as [|c s]; simpl; [done|]. by intros ->. Qed.

Lemma starts_with_sep_part x s :
  wf_part x = true -> starts_with_sep (x +:+ s) = false.
Proof.
  intros (Hne & _ & Hsep)%wf_part_inv. destruct x as [|c x]; [done|].
  simpl in *. apply andb_true_iff in Hsep as [Hc _]. by apply negb_true_iff.
Qed.

Lemma starts_with_sep_wf x : wf_part x = true -> starts_with_sep x = false.
Proof.
  intros (Hne & _ & Hsep)%wf_part_inv. destruct x as [|c x]; [done|].
  simpl in *. apply andb_true_iff in Hsep as [Hc _]. by apply negb_true_iff.
Qed.

Lemma starts_with_sep_join l :
  Forall (fun x => wf_part x = true) l -> starts_with_sep (join_sep l) = false.
Proof.
  intros [|x l' Hx _]; [done|]. destruct l' as [|y l''].
  - by apply starts_with_sep_wf.
  - by apply starts_with_sep_part.
Qed.

Lemma filter_keep_wf l :
  Forall (fun x => wf_part x = true) l ->
  filter (fun x => keep_part x = true) l = l.
Proof.
  induction 1 as [|x l Hx _ IH]; [done|].
  unfold wf_part in Hx. apply andb_true_iff in Hx as [Hk _].
  by rewrite filter_cons_True, IH.
Qed.

Lemma parse_rel_join l :
  Forall (fun x => wf_part x = true) l -> parse_rel (join_sep l) = l.
Proof.
  intros Hl. unfold parse_rel. destruct l as [|x l]; [done|].
  rewrite split_join_sep; [by apply filter_keep_wf|done|].
  eapply Forall_impl; [done|]. intros y Hy. by apply wf_part_inv in Hy as (_ & _ & ?).
Qed.

Lemma splitroot_root1 s :
  starts_with_sep s = false -> splitroot (String sep s) = (Root1, s).
Proof.
  intros Hs. unfold splitroot. rewrite Ascii.eqb_refl. cbn [lstrip].
  rewrite Ascii.eqb_refl, lstrip_id by done. cbn [String.length].
  by replace (S _ - _) with 1 by lia.
Qed.

Lemma splitroot_root2 s :
  starts_with_sep s = false ->
  splitroot (String sep (String sep s)) = (Root2, s).
Proof.
  intros Hs. unfold splitroot. rewrite Ascii.eqb_refl. cbn [lstrip].
  rewrite !Ascii.eqb_refl, lstrip_id by done. cbn [String.length].
  by replace (S (S _) - _) with 2 by lia.
Qed.

Lemma parse_to_str p : wf_path p -> parse (to_str p) = p.
Proof.
  destruct p as [r l]. unfold wf_path. simpl. intros Hl.
  pose proof (starts_with_sep_join l Hl) as Hj.
  pose proof (parse_rel_join l Hl) as Hr.
  destruct r; unfold to_str, parse; simpl root_str; cbn [root parts].
  - destruct l as [|x l]; [done|].
    change ("" +:+ ?s) with s. by rewrite splitroot_relative, Hr.
  - change ("/" +:+ ?s) with (String sep s).
    by rewrite splitroot_root1, Hr.
  - change ("//" +:+ ?s) with (String sep (String sep s)).
    by rewrite splitroot_root2, Hr.
Qed.

End print_parse.
(** ** The location of a record *)

Section filename_properties.
Implicit Types (path : PurePath) (id : string).

Lemma alignment_filename_inj_join path id1 id2 :
  wf_path path ->
  alignment_filename path id1 = alignment_filename path id2 ->
  joinpath path id1 = joinpath path id2.
Proof.
  intros Hp. rewrite !alignment_filename_parts by done.
  pose proof (joinpath_wf path id1 Hp) as H1.
  pose proof (joinpath_wf path id2 Hp) as H2.
  destruct (joinpath path id1) as [r1 l1], (joinpath path id2) as [r2 l2].
  unfold name. cbn [root parts]. intros [= -> Hl]. f_equal.
  by apply with_suffix_inj.
Qed.

(** The name of the location: the name of [path / id] followed by
    [.json]. *)
Lemma alignment_filename_last path id :
  wf_path path ->
  last (parts (alignment_filename path id)) =
    Some (name (joinpath path id) +:+ ".json").
Proof.
  intros Hp. rewrite alignment_filename_parts by done. cbn [parts].
  apply last_snoc.
Qed.

Lemma alignment_filename_name path id :
  wf_path path ->
  name (alignment_filename path id) = name (joinpath path id) +:+ ".json".
Proof. intros Hp. unfold name at 1. by rewrite alignment_filename_last. Qed.

(** The location of the specification's example: id [audio/one.mp3] under
    root [out] is [out/audio/one.mp3.json]. *)
Example alignment_filename_spec_example :
  to_str (alignment_filename (parse "out") "audio/one.mp3") =
  "out/audio/one.mp3.json".
Proof. vm_compute. reflexivity. Qed.

(** C3: under a root, two relative ids have the same location exactly
    when they have the same components: the mapping is injective up to
    the normalisation [pathlib] applies to an id. *)
Theorem alignment_filename_injective path id1 id2 :
  wf_path path ->
  root (parse id1) = RootNone ->
  root (parse id2) = RootNone ->
  alignment_filename path id1 = alignment_filename path id2 <->
  parse id1 = parse id2.
Proof.
  intros Hp Hr1 Hr2. split.
  - intros Heq%alignment_filename_inj_join; [|done].
    unfold joinpath in Heq. rewrite Hr1, Hr2 in Heq.
    injection Heq as Heq%app_inv_head.
    destruct (parse id1), (parse id2). simpl in *. by subst.
  - intros Heq. unfold alignment_filename, joinpath. by rewrite Heq.
Qed.

(** C21: the location is a well-formed path, its last component is the
    last component of [path / id] followed by [.json], and it is the path
    its own string denotes. *)
Theorem alignment_filename_wf path id :
  wf_path path ->
  wf_path (alignment_filename path id) /\
  last (parts (alignment_filename path id)) =
    Some (name (joinpath path id) +:+ ".json") /\
  parse (to_str (alignment_filename path id)) = alignment_filename path id.
Proof.
  intros Hp.
  assert (Hwf : wf_path (alignment_filename path id)).
  { unfold alignment_filename. by apply joinpath_wf, parent_wf, joinpath_wf. }
  split_and!;
    [done|by apply alignment_filename_last|by apply parse_to_str].
Qed.

(** C22: distinct ids can share a location, and an id can leave the root:
    a doubled separator or a [.] component is dropped, and an absolute id
    replaces the root. *)
Theorem alignment_filename_collisions :
  "a/b" <> "a//b" /\
  alignment_filename (parse "out") "a/b" =
    alignment_filename (parse "out") "a//b" /\
  alignment_filename (parse "out") "a/b" =
    alignment_filename (parse "out") "./a/./b/" /\
  to_str (alignment_filename (parse "out") "/etc/x") = "/etc/x.json" /\
  to_str (alignment_filename (parse "out") "../x") = "out/../x.json".
Proof. split_and!; [done|by vm_compute..]. Qed.

Lemma alignment_filename_injective_witness :
  alignment_filename (parse "out") "a/b" =
    alignment_filename (parse "out") "a//b" <->
  parse "a/b" = parse "a//b".
Proof.
  apply (alignment_filename_injective (parse "out") "a/b" "a//b");
    [apply parse_wf|reflexivity|reflexivity].
Defined.

Lemma alignment_filename_wf_witness :
  last (parts (alignment_filename (parse "out") "audio/one.mp3")) =
  Some (name (joinpath (parse "out") "audio/one.mp3") +:+ ".json").
Proof.
  destruct (alignment_filename_wf (parse "out") "audio/one.mp3")
    as (_ & ? & _); [apply parse_wf|done].
Defined.

End filename_properties.
