(* ===== verification/Storage.v ===== *)
(** * Storage: a file store, its system calls and [Path.mkdir]

    The file system [write_alignment] and [read_alignment] act on is a
    state: a finite map from pure paths to nodes, a node being a directory
    or a file whose content is a JSON value or something that is not JSON.
    The path without components (the root, or the current directory) is a
    directory and is not stored.

    The system calls are [os_mkdir], [os_open_w] ([open(p, "w")], which
    creates or empties the file), [file_write] and [os_read_json]
    ([open(p)] followed by [json.load]); [os_write] is the [with] block
    of [write_alignment]: open, serialise, write.  Each resolves the directories above its
    path first ([check_dirs]): a missing one is [FileNotFoundError], a file
    in their place [NotADirectoryError].  [mkdir] is [pathlib]'s method,
    with its two flags and its recursion on the parent; the recursion is
    not structural, so it takes fuel, and with [S (length (parts p))] the
    model never runs out ([mkdir_fuel_Err], [mkdir_fuel_more]): the stack
    of the model is unbounded, where CPython raises [RecursionError] at
    about a thousand missing directories.  A state-and-exception
    computation keeps the state a failure leaves, so that atomicity is a
    theorem and not a consequence of the types.

    [wf_store] is the invariant of a store: every stored node has a name
    and lies under stored directories.  [mkdir_fuel_spec] is what [mkdir]
    guarantees in such a store, [mkdir_fuel_Ok] when it succeeds.

    Permissions, limits on the length of a name, a full disk, symbolic
    links, the resolution of [..] and concurrent writers are not
    modelled: a call fails only for what the store holds. *)

From Stdlib Require Import ZArith String List Lia.
From stdpp Require Import countable gmap base tactics option list strings.
From S2P Require Import Prelude PyFloat PyValue Align Codec CodecProps PosixPath.

Local Open Scope string_scope.
Local Open Scope list_scope.
Local Open Scope res_scope.

Inductive node (F : Type) : Type :=
| File (content : option (pyval F))
| Dir.

Arguments File {F} content.
Arguments Dir {F}.

(** The non-empty prefixes of [l], shortest first, each after [pre]. *)
Fixpoint prefixes (pre l : list string) : list (list string) :=
  match l with
  | [] => []
  | x :: l' => (pre ++ [x]) :: prefixes (pre ++ [x]) l'
  end.

(** The directories above [p], from the top. *)
Definition ancestors (p : PurePath) : list PurePath :=
  mkPath (root p) <$> prefixes [] (removelast (parts p)).

Section storage.
Context {F : Type} `{FloatOps F}.
Implicit Types (fs : gmap PurePath (node F)) (p q : PurePath).

Definition lookup_node fs p : option (node F) :=
  match parts p with
  | [] => Some Dir
  | _ => fs !! p
  end.

Fixpoint check_dirs fs (qs : list PurePath) : res exn unit :=
  match qs with
  | [] => Ok tt
  | q :: qs' =>
      match fs !! q with
      | None => Err FileNotFoundError
      | Some (File _) => Err NotADirectoryError
      | Some Dir => check_dirs fs qs'
      end
  end.

Definition os_mkdir p : sres (gmap PurePath (node F)) exn unit :=
  fun fs =>
    match check_dirs fs (ancestors p) with
    | Err e => (fs, Err e)
    | Ok _ =>
        match lookup_node fs p with
        | Some _ => (fs, Err FileExistsError)
        | None => (<[p := Dir]> fs, Ok tt)
        end
    end.

Definition is_dir fs p : bool :=
  match check_dirs fs (ancestors p), lookup_node fs p with
  | Ok _, Some Dir => true
  | _, _ => false
  end.

(** [open(p, "w")]: the file is created, or emptied if it is there; it
    holds no JSON value until one is written. *)
Definition os_open_w p : sres (gmap PurePath (node F)) exn PurePath :=
  fun fs =>
    match check_dirs fs (ancestors p) with
    | Err e => (fs, Err e)
    | Ok _ =>
        match lookup_node fs p with
        | Some Dir => (fs, Err IsADirectoryError)
        | _ => (<[p := File None]> fs, Ok p)
        end
    end.

(** [json.dumps(v, indent=4, ensure_ascii=False)].  The store keeps the
    value a text denotes, so the text of [v] is [v]; every [pyval]
    serialises ([NaN] and the infinities included, as [allow_nan] is
    left on). *)
Definition json_dumps (v : pyval F) : res exn (pyval F) := Ok v.

(** [f.write(text)], and the close at the end of the [with] block. *)
Definition file_write p (text : pyval F)
  : sres (gmap PurePath (node F)) exn unit :=
  fun fs => (<[p := File (Some text)]> fs, Ok tt).

(** [with open(p, "w") as f: f.write(json.dumps(v))]. *)
Definition os_write p (v : pyval F) : sres (gmap PurePath (node F)) exn unit :=
  f <~ os_open_w p ;;
  text <~ slift (json_dumps v) ;;
  file_write f text.

Definition os_read_json p : sres (gmap PurePath (node F)) exn (pyval F) :=
  fun fs =>
    match check_dirs fs (ancestors p) with
    | Err e => (fs, Err e)
    | Ok _ =>
        match lookup_node fs p with
        | None => (fs, Err FileNotFoundError)
        | Some Dir => (fs, Err IsADirectoryError)
        | Some (File None) => (fs, Err JSONDecodeError)
        | Some (File (Some v)) => (fs, Ok v)
        end
    end.

(** [Path.mkdir(parents, exist_ok)]: try the system call; if a directory
    above is missing and [parents] is set, make the parent with both flags
    set and try again without [parents]; on any other failure, succeed
    only if [exist_ok] is set and the path is a directory. *)
Fixpoint mkdir_fuel (fuel : nat) (parents exist_ok : bool) p fs
  : gmap PurePath (node F) * res exn unit :=
  match os_mkdir p fs with
  | (fs', Ok _) => (fs', Ok tt)
  | (_, Err FileNotFoundError) =>
      if negb parents || bool_decide (parent p = p)
      then (fs, Err FileNotFoundError)
      else
        match fuel with
        | O => (fs, Err RecursionError)
        | S fuel' =>
            match mkdir_fuel fuel' true true (parent p) fs with
            | (fs1, Ok _) => mkdir_fuel fuel' false exist_ok p fs1
            | (fs1, Err e) => (fs1, Err e)
            end
        end
  | (_, Err e) =>
      if negb exist_ok || negb (is_dir fs p) then (fs, Err e)
      else (fs, Ok tt)
  end.

Definition mkdir (parents exist_ok : bool) p
  : sres (gmap PurePath (node F)) exn unit :=
  mkdir_fuel (S (length (parts p))) parents exist_ok p.

(** Every stored node has components and lies under directories. *)
Definition wf_store fs : Prop :=
  forall p n, fs !! p = Some n ->
    parts p <> [] /\ Forall (fun q => fs !! q = Some Dir) (ancestors p).

(** [fs'] is [fs] with directories added at [p] or above it. *)
Definition grown fs fs' p : Prop :=
  forall q, fs' !! q = fs !! q \/
    (fs !! q = None /\ fs' !! q = Some Dir /\ (q = p \/ q ∈ ancestors p)).

(** [wf_store] as a test that runs on a given store. *)
Definition dir_at fs q : bool :=
  match fs !! q with
  | Some Dir => true
  | _ => false
  end.

Definition wf_storeb fs : bool :=
  forallb (fun pn => negb (bool_decide (parts pn.1 = [])) &&
                     forallb (dir_at fs) (ancestors pn.1))
    (map_to_list fs).

(** No file stands at a path of [qs]. *)
Definition no_file fs (qs : list PurePath) : Prop :=
  Forall (fun q => forall c, fs !! q <> Some (File c)) qs.

(** The exceptions [mkdir] and [open] raise on the state of the store. *)
Definition mkdir_error (e : exn) : bool :=
  match e with
  | FileNotFoundError | NotADirectoryError | FileExistsError => true
  | _ => false
  end.

Definition store_error (e : exn) : bool :=
  mkdir_error e || bool_decide (e = IsADirectoryError).

(** What a successful [mkdir] leaves, and what a failed one leaves. *)
Definition mkdir_post fs p (out : gmap PurePath (node F) * res exn unit)
  : Prop :=
  match out with
  | (fs', Ok _) => wf_store fs' /\ grown fs fs' p /\ is_dir fs' p = true
  | (fs', Err e) => fs' = fs /\ mkdir_error e = true
  end.

End storage.

(** ** Prefixes and ancestors *)

Section ancestors_facts.
Implicit Types (p q : PurePath) (l pre : list string).

Lemma prefixes_snoc pre l x :
  prefixes pre (l ++ [x]) = prefixes pre l ++ [pre ++ l ++ [x]].
Proof.
  revert pre. induction l as [|y l IH]; intros pre; simpl; [done|].
  by rewrite IH, <-!app_assoc.
Qed.

Lemma prefixes_length pre l l' :
  l' ∈ prefixes pre l -> length l' <= length pre + length l.
Proof.
  revert pre. induction l as [|y l IH]; intros pre; simpl.
  - by intros ?%elem_of_nil.
  - intros [->|Hl']%elem_of_cons.
    + rewrite length_app. simpl. lia.
    + apply IH in Hl'. rewrite length_app in Hl'. simpl in Hl'. lia.
Qed.

Lemma ancestors_nil p : removelast (parts p) = [] -> ancestors p = [].
Proof. unfold ancestors. by intros ->. Qed.

Lemma ancestors_shorter p q :
  q ∈ ancestors p -> length (parts q) < length (parts p).
Proof.
  unfold ancestors. intros Hq. apply list_elem_of_fmap in Hq as (l & -> & Hl).
  simpl. destruct (parts p) as [|x l0 _] using rev_ind.
  - by apply elem_of_nil in Hl.
  - rewrite removelast_last in Hl. apply prefixes_length in Hl.
    rewrite length_app. simpl in *. lia.
Qed.

Lemma ancestors_not_self p : p ∉ ancestors p.
Proof. intros Hp%ancestors_shorter. lia. Qed.

(** The directories above a path are those above its parent, and the
    parent. *)
Lemma ancestors_parent p :
  parts (parent p) <> [] -> ancestors p = ancestors (parent p) ++ [parent p].
Proof.
  unfold ancestors, parent. destruct p as [r l]. simpl.
  destruct (removelast l) as [|x l0 _] using rev_ind; [done|]. intros _.
  rewrite prefixes_snoc, removelast_last, fmap_app. done.
Qed.

Lemma parent_fixed p : parent p = p <-> parts p = [].
Proof.
  destruct p as [r l]. unfold parent. simpl. split.
  - intros [= Hl]. destruct l as [|x l _] using rev_ind; [done|].
    rewrite removelast_last in Hl. apply (f_equal length) in Hl.
    rewrite length_app in Hl. simpl in Hl. lia.
  - by intros ->.
Qed.

Lemma parent_length p : length (parts (parent p)) = pred (length (parts p)).
Proof.
  unfold parent. simpl. destruct (parts p) as [|x l _] using rev_ind; [done|].
  rewrite removelast_last, length_app. simpl. lia.
Qed.

End ancestors_facts.

(** ** The system calls *)

Section syscalls.
Context {F : Type} `{FloatOps F}.
Implicit Types (fs : gmap PurePath (node F)) (p q : PurePath).
Implicit Types (n : node F).

Lemma check_dirs_Ok fs qs :
  check_dirs fs qs = Ok tt <-> Forall (fun q => fs !! q = Some Dir) qs.
Proof.
  induction qs as [|q qs IH]; simpl; [by split; [constructor|]|].
  rewrite Forall_cons, <-IH.
  destruct (fs !! q) as [[c|]|]; split; try done; try by intros [? ?].
Qed.

Lemma check_dirs_Err fs qs e :
  check_dirs fs qs = Err e ->
  (e = FileNotFoundError /\ exists q, q ∈ qs /\ fs !! q = None) \/
  (e = NotADirectoryError /\ exists q c, q ∈ qs /\ fs !! q = Some (File c)).
Proof.
  induction qs as [|q qs IH]; simpl; [done|].
  destruct (fs !! q) as [[c|]|] eqn:Hq.
  - intros [= <-]. right. split; [done|]. exists q, c. split; [left|done].
  - intros [(-> & q' & ? & ?)|(-> & q' & c & ? & ?)]%IH; [left|right];
      (split; [done|]); [exists q'|exists q', c]; split; try done; by right.
  - intros [= <-]. left. split; [done|]. exists q. split; [left|done].
Qed.

(** The [with] block in one step: the file holds the value, unless the
    path does not resolve or is a directory. *)
Lemma os_write_unfold p (v : pyval F) fs :
  os_write p v fs =
  match check_dirs fs (ancestors p) with
  | Err e => (fs, Err e)
  | Ok _ =>
      match lookup_node fs p with
      | Some Dir => (fs, Err IsADirectoryError)
      | _ => (<[p := File (Some v)]> fs, Ok tt)
      end
  end.
Proof.
  unfold os_write, sbind, os_open_w, slift, json_dumps, file_write.
  destruct (check_dirs fs (ancestors p)); [|done].
  destruct (lookup_node fs p) as [[]|]; by rewrite ?insert_insert_eq.
Qed.

Lemma check_dirs_insert fs qs p n :
  p ∉ qs -> check_dirs (<[p := n]> fs) qs = check_dirs fs qs.
Proof.
  induction qs as [|q qs IH]; simpl; [done|].
  intros [Hq Hqs]%not_elem_of_cons.
  rewrite lookup_insert_ne by done. rewrite IH by done. done.
Qed.

Lemma check_dirs_unit fs qs (u : unit) :
  check_dirs fs qs = Ok u -> check_dirs fs qs = Ok tt.
Proof. by destruct u. Qed.

Lemma lookup_node_stored fs p : parts p <> [] -> lookup_node fs p = fs !! p.
Proof. unfold lookup_node. by destruct (parts p). Qed.

Lemma lookup_node_None fs p :
  lookup_node fs p = None -> parts p <> [] /\ fs !! p = None.
Proof. unfold lookup_node. by destruct (parts p). Qed.

(** A node may be stored under directories at a path that was not a
    directory. *)
Lemma wf_store_insert fs p n :
  wf_store fs -> parts p <> [] ->
  Forall (fun q => fs !! q = Some Dir) (ancestors p) ->
  fs !! p <> Some Dir ->
  wf_store (<[p := n]> fs).
Proof.
  intros Hwf Hp Hanc Hnd q m Hq.
  assert (Hkeep : forall q', fs !! q' = Some Dir -> <[p := n]> fs !! q' = Some Dir).
  { intros q' Hq'. rewrite lookup_insert_ne; [done|]. by intros ->. }
  destruct (decide (p = q)) as [<-|Hne].
  - split; [done|]. eapply Forall_impl; [done|]. apply Hkeep.
  - rewrite lookup_insert_ne in Hq by done.
    destruct (Hwf q m Hq) as [? Hq']. split; [done|].
    eapply Forall_impl; [done|]. apply Hkeep.
Qed.

Lemma os_mkdir_cases p fs :
  (exists e, os_mkdir p fs = (fs, Err e) /\ check_dirs fs (ancestors p) = Err e) \/
  (os_mkdir p fs = (fs, Err FileExistsError) /\
     check_dirs fs (ancestors p) = Ok tt /\ is_Some (lookup_node fs p)) \/
  (os_mkdir p fs = (<[p := Dir]> fs, Ok tt) /\
     check_dirs fs (ancestors p) = Ok tt /\ parts p <> [] /\ fs !! p = None).
Proof.
  unfold os_mkdir. destruct (check_dirs fs (ancestors p)) as [[]|e] eqn:Hc.
  - destruct (lookup_node fs p) as [n|] eqn:Hl.
    + right. left. eauto.
    + right. right. apply lookup_node_None in Hl as [? ?]. eauto.
  - left. eauto.
Qed.

Lemma is_dir_true fs p :
  is_dir fs p = true <->
  check_dirs fs (ancestors p) = Ok tt /\ lookup_node fs p = Some Dir.
Proof.
  unfold is_dir. destruct (check_dirs fs (ancestors p)) as [[]|e];
    destruct (lookup_node fs p) as [[c|]|]; split; try done; by intros [? ?].
Qed.

Lemma dir_at_true fs q : dir_at fs q = true <-> fs !! q = Some Dir.
Proof. unfold dir_at. by destruct (fs !! q) as [[c|]|]. Qed.

Lemma wf_storeb_true fs : wf_storeb fs = true -> wf_store fs.
Proof.
  unfold wf_storeb. rewrite forallb_forall. intros Hall p n Hp.
  apply elem_of_map_to_list, list_elem_of_In, Hall in Hp. simpl in Hp.
  apply andb_true_iff in Hp as [Hparts Hanc]. split.
  - apply negb_true_iff in Hparts. by apply bool_decide_eq_false in Hparts.
  - rewrite forallb_forall in Hanc. apply Forall_forall. intros q Hq.
    by apply dir_at_true, Hanc, list_elem_of_In.
Qed.

(** Under a directory, every directory above is in place. *)
Lemma check_dirs_parent fs p :
  is_dir fs (parent p) = true -> check_dirs fs (ancestors p) = Ok tt.
Proof.
  intros [Hc Hl]%is_dir_true.
  destruct (decide (parts (parent p) = [])) as [Hnil|Hne].
  - by rewrite ancestors_nil.
  - rewrite lookup_node_stored in Hl by done. rewrite ancestors_parent by done.
    apply check_dirs_Ok, Forall_app.
    split; [by apply check_dirs_Ok|by repeat constructor].
Qed.

(** In a well-formed store the parent of a stored node is a directory. *)
Lemma wf_store_parent_dir fs p n :
  wf_store fs -> fs !! p = Some n -> is_dir fs (parent p) = true.
Proof.
  intros Hwf Hp. destruct (Hwf p n Hp) as [_ Hanc]. apply is_dir_true.
  destruct (decide (parts (parent p) = [])) as [Hnil|Hne].
  - unfold lookup_node. rewrite Hnil. by rewrite ancestors_nil by by rewrite Hnil.
  - rewrite ancestors_parent in Hanc by done.
    apply Forall_app in Hanc as [Hanc Hpar%Forall_inv].
    by rewrite lookup_node_stored, check_dirs_Ok.
Qed.

End syscalls.

(** ** Making directories *)

Section mkdir_facts.
Context {F : Type} `{FloatOps F}.
Implicit Types (fs : gmap PurePath (node F)) (p q : PurePath).

Lemma grown_refl fs p : grown fs fs p.
Proof. intros q. by left. Qed.

Lemma grown_insert fs fs1 p :
  grown fs fs1 (parent p) -> parts (parent p) <> [] -> fs !! p = None ->
  grown fs (<[p := Dir]> fs1) p.
Proof.
  intros Hg Hpp Hp q. destruct (decide (p = q)) as [<-|Hne].
  - right. rewrite lookup_insert_eq. auto.
  - rewrite lookup_insert_ne by done.
    destruct (Hg q) as [?|(? & ? & Hq)]; [by left|right].
    split_and!; try done. right.
    rewrite ancestors_parent, elem_of_app, list_elem_of_singleton by done.
    tauto.
Qed.

(** Making the parent of [p] and the directories above it leaves [p] as
    it was. *)
Lemma grown_below fs fs' p :
  grown fs fs' (parent p) -> parts p <> [] -> fs' !! p = fs !! p.
Proof.
  intros Hg Hp. destruct (Hg p) as [?|(_ & _ & [Heq|Hq])]; [done| |].
  - symmetry in Heq. by apply parent_fixed in Heq.
  - apply ancestors_shorter in Hq. rewrite parent_length in Hq. lia.
Qed.

(** What was stored stays stored. *)
Lemma grown_Some fs fs' p q n :
  grown fs fs' p -> fs !! q = Some n -> fs' !! q = Some n.
Proof. intros Hg Hq. destruct (Hg q) as [->|(? & _)]; congruence. Qed.

Lemma mkdir_fuel_unfold fuel parents exist_ok p fs :
  mkdir_fuel fuel parents exist_ok p fs =
  match os_mkdir p fs with
  | (fs', Ok _) => (fs', Ok tt)
  | (_, Err FileNotFoundError) =>
      if negb parents || bool_decide (parent p = p)
      then (fs, Err FileNotFoundError)
      else
        match fuel with
        | O => (fs, Err RecursionError)
        | S fuel' =>
            match mkdir_fuel fuel' true true (parent p) fs with
            | (fs1, Ok _) => mkdir_fuel fuel' false exist_ok p fs1
            | (fs1, Err e) => (fs1, Err e)
            end
        end
  | (_, Err e) =>
      if negb exist_ok || negb (is_dir fs p) then (fs, Err e)
      else (fs, Ok tt)
  end.
Proof. by destruct fuel. Qed.

(** The system call succeeded. *)
Lemma mkdir_post_created fs fs0 p :
  wf_store fs -> grown fs0 fs (parent p) ->
  (fs0 = fs \/ parts (parent p) <> []) -> fs0 !! p = None ->
  check_dirs fs (ancestors p) = Ok tt -> parts p <> [] -> fs !! p = None ->
  mkdir_post fs0 p (<[p := Dir]> fs, Ok tt).
Proof.
  intros Hwf Hg Hpp Hp0 Hc Hp Hnone. split_and!.
  - apply wf_store_insert; try done; [by apply check_dirs_Ok|by rewrite Hnone].
  - destruct Hpp as [->|Hpp]; [|by apply grown_insert].
    intros q. destruct (decide (p = q)) as [<-|Hne].
    + right. rewrite lookup_insert_eq. auto.
    + left. by rewrite lookup_insert_ne.
  - apply is_dir_true. rewrite check_dirs_insert by apply ancestors_not_self.
    by rewrite lookup_node_stored, lookup_insert_eq.
Qed.

(** The system call failed for another reason than a missing directory. *)
Lemma mkdir_post_exists fs p exist_ok e :
  wf_store fs -> mkdir_error e = true ->
  mkdir_post fs p
    (if negb exist_ok || negb (is_dir fs p) then (fs, Err e) else (fs, Ok tt)).
Proof.
  intros Hwf He. destruct (negb exist_ok || negb (is_dir fs p)) eqn:Hb;
    simpl; [done|].
  apply orb_false_iff in Hb as [_ Hd%negb_false_iff].
  split_and!; [done|apply grown_refl|done].
Qed.

(** A missing directory above [p] in a well-formed store: [p] is not
    stored, and it has a parent. *)
Lemma missing_above fs p :
  wf_store fs -> check_dirs fs (ancestors p) = Err FileNotFoundError ->
  fs !! p = None /\ parts (parent p) <> [] /\ parent p <> p.
Proof.
  intros Hwf Hc. apply check_dirs_Err in Hc as [(_ & q & Hq & Hnone)|[[=] _]].
  assert (Hpp : parts (parent p) <> []).
  { intros Hnil. rewrite ancestors_nil in Hq by done. by apply elem_of_nil in Hq. }
  split_and!; [|done|].
  - destruct (fs !! p) as [n|] eqn:Hp; [|done].
    destruct (Hwf p n Hp) as [_ Hanc].
    eapply (proj1 (Forall_forall _ _)) in Hanc; [|done]. congruence.
  - intros Heq. rewrite Heq in Hpp. by apply parent_fixed in Heq.
Qed.

(** Under a directory, the system call creates a missing [p]. *)
Lemma mkdir_fuel_create fs p fuel parents exist_ok :
  is_dir fs (parent p) = true -> parts p <> [] -> fs !! p = None ->
  mkdir_fuel fuel parents exist_ok p fs = (<[p := Dir]> fs, Ok tt).
Proof.
  intros Hc%check_dirs_parent Hp Hnone. rewrite mkdir_fuel_unfold.
  unfold os_mkdir. by rewrite Hc, lookup_node_stored, Hnone.
Qed.

(** After the parent was made, the second attempt creates [p]. *)
Lemma mkdir_second fs fs1 p fuel exist_ok :
  wf_store fs1 -> grown fs fs1 (parent p) -> is_dir fs1 (parent p) = true ->
  fs !! p = None -> parts (parent p) <> [] -> parent p <> p ->
  mkdir_post fs p (mkdir_fuel fuel false exist_ok p fs1).
Proof.
  intros Hwf Hg Hd Hp Hpp Hne.
  assert (Hparts : parts p <> []) by (by rewrite <-parent_fixed).
  pose proof (grown_below _ _ _ Hg Hparts) as Hp1. rewrite Hp in Hp1.
  rewrite mkdir_fuel_create by done.
  apply mkdir_post_created; auto using check_dirs_parent.
Qed.

Lemma mkdir_fuel_spec fuel parents exist_ok p fs :
  wf_store fs -> length (parts p) <= fuel ->
  mkdir_post fs p (mkdir_fuel fuel parents exist_ok p fs).
Proof.
  revert parents exist_ok p fs.
  induction fuel as [|fuel IH]; intros parents exist_ok p fs Hwf Hlen;
    rewrite mkdir_fuel_unfold;
    destruct (os_mkdir_cases p fs) as
      [(e & -> & Hc)|[(-> & Hc & Hl)|(-> & Hc & Hp & Hnone)]];
    try (by apply mkdir_post_exists);
    try (apply mkdir_post_created; by auto using grown_refl).
  all: destruct (check_dirs_Err _ _ _ Hc) as [[-> _]|[-> _]];
    [|by apply mkdir_post_exists].
  all: destruct (missing_above fs p Hwf Hc) as (Hnone & Hpp & Hne).
  all: destruct (negb parents || bool_decide (parent p = p)); [done|].
  - destruct (parts p) eqn:Hparts; [by apply parent_fixed in Hparts|].
    simpl in Hlen. lia.
  - specialize (IH true true (parent p) fs Hwf).
    rewrite parent_length in IH.
    destruct (mkdir_fuel fuel true true (parent p) fs) as [fs1 [[]|e]];
      simpl in IH.
    + destruct IH as (Hwf1 & Hg & Hd); [lia|]. by apply (mkdir_second fs).
    + destruct IH as [-> He]; [lia|]. done.
Qed.

(** ** When [mkdir] succeeds *)

Lemma no_file_parent fs p :
  no_file fs (ancestors p) ->
  no_file fs (ancestors (parent p)) /\
  forall c, lookup_node fs (parent p) <> Some (File c).
Proof.
  intros Hnf. destruct (decide (parts (parent p) = [])) as [Hnil|Hne].
  - unfold lookup_node. rewrite Hnil.
    rewrite (ancestors_nil (parent p)) by (by rewrite Hnil).
    split; [constructor|done].
  - rewrite ancestors_parent in Hnf by done.
    apply Forall_app in Hnf as [Hnf Hpar%Forall_inv].
    by rewrite lookup_node_stored.
Qed.

Lemma no_file_is_dir fs p :
  check_dirs fs (ancestors p) = Ok tt -> is_Some (lookup_node fs p) ->
  (forall c, lookup_node fs p <> Some (File c)) -> is_dir fs p = true.
Proof.
  intros Hc [[c|] Hl] Hnf; [by destruct (Hnf c)|]. by apply is_dir_true.
Qed.

Lemma check_dirs_no_file fs qs e :
  no_file fs qs -> check_dirs fs qs = Err e -> e = FileNotFoundError.
Proof.
  intros Hnf [[-> _]|(_ & q & c & Hq & Hc)]%check_dirs_Err; [done|].
  eapply (proj1 (Forall_forall _ _)) in Hnf; [|done]. by destruct (Hnf c).
Qed.

(** With both flags set, [mkdir] succeeds unless a file is in the way. *)
Lemma mkdir_fuel_Ok fuel p fs :
  wf_store fs -> length (parts p) <= fuel ->
  no_file fs (ancestors p) -> (forall c, lookup_node fs p <> Some (File c)) ->
  exists fs', mkdir_fuel fuel true true p fs = (fs', Ok tt).
Proof.
  revert p. induction fuel as [|fuel IH]; intros p Hwf Hlen Hanc Hp;
    rewrite mkdir_fuel_unfold;
    destruct (os_mkdir_cases p fs) as
      [(e & -> & Hc)|[(-> & Hc & Hl)|(-> & Hc & Hparts & Hnone)]];
    try (rewrite no_file_is_dir by done; by eauto); try by eauto.
  all: pose proof (check_dirs_no_file _ _ _ Hanc Hc) as ->.
  all: destruct (missing_above fs p Hwf Hc) as (Hnone & Hpp & Hne).
  all: rewrite bool_decide_eq_false_2 by done; simpl.
  - destruct (parts p) eqn:Hparts; [by apply parent_fixed in Hparts|].
    simpl in Hlen. lia.
  - pose proof (mkdir_fuel_spec fuel true true (parent p) fs Hwf) as Hpost.
    rewrite parent_length in Hpost.
    destruct (no_file_parent fs p Hanc) as [Hanc' Hp'].
    destruct (IH (parent p)) as [fs1 Hmk];
      [done|rewrite parent_length; lia|done|done|].
    rewrite Hmk in *. destruct Hpost as (Hwf1 & Hg & Hd); [lia|].
    assert (Hparts : parts p <> []) by (by rewrite <-parent_fixed).
    rewrite mkdir_fuel_create; eauto.
    by rewrite (grown_below _ _ _ Hg Hparts).
Qed.

End mkdir_facts.

(** ** The fuel of [mkdir]

    None of this needs the store to be well formed: each recursive call
    is on the parent, which has one component less, and a path without
    components is its own parent. *)

Section mkdir_fuel_facts.
Context {F : Type} `{FloatOps F}.
Implicit Types (fs : gmap PurePath (node F)) (p q : PurePath).

Lemma os_mkdir_Err p fs fs' e :
  os_mkdir p fs = (fs', Err e) -> mkdir_error e = true.
Proof.
  destruct (os_mkdir_cases p fs) as
    [(e' & -> & Hc)|[(-> & _)|(-> & _)]]; intros [= _ <-]; try done.
  by destruct (check_dirs_Err _ _ _ Hc) as [[-> _]|[-> _]].
Qed.

(** Without [parents] there is no recursion: the fuel is not looked at. *)
Lemma mkdir_fuel_flat fuel fuel' exist_ok p fs :
  mkdir_fuel fuel false exist_ok p fs = mkdir_fuel fuel' false exist_ok p fs.
Proof. rewrite !mkdir_fuel_unfold. by repeat case_match. Qed.

Lemma mkdir_fuel_flat_Err fuel exist_ok p fs fs' e :
  mkdir_fuel fuel false exist_ok p fs = (fs', Err e) -> mkdir_error e = true.
Proof.
  rewrite mkdir_fuel_unfold. destruct (os_mkdir p fs) as [fs1 [[]|e1]] eqn:Hos;
    [done|]. apply os_mkdir_Err in Hos. simpl.
  repeat case_match; intros ?; by simplify_eq.
Qed.

Lemma mkdir_fuel_Err fuel parents exist_ok p fs fs' e :
  length (parts p) <= fuel ->
  mkdir_fuel fuel parents exist_ok p fs = (fs', Err e) -> mkdir_error e = true.
Proof.
  revert parents exist_ok p fs fs' e.
  induction fuel as [|fuel IH]; intros parents exist_ok p fs fs' e Hlen;
    rewrite mkdir_fuel_unfold;
    (destruct (os_mkdir p fs) as [fs1 [[]|e1]] eqn:Hos; [done|]);
    apply os_mkdir_Err in Hos;
    (destruct (decide (e1 = FileNotFoundError)) as [->|Hne];
      [|by repeat case_match; intros ?; simplify_eq]);
    (destruct (negb parents || bool_decide (parent p = p)) eqn:Hb;
      [by intros ?; simplify_eq|]);
    apply orb_false_iff in Hb as [_ Hpar%bool_decide_eq_false].
  - rewrite parent_fixed in Hpar. destruct (parts p); [done|simpl in Hlen; lia].
  - destruct (mkdir_fuel fuel true true (parent p) fs) as [fs2 [[]|e2]] eqn:Hup.
    + apply mkdir_fuel_flat_Err.
    + intros [= _ <-]. eapply IH; [|done]. rewrite parent_length. lia.
Qed.

(** More fuel than the path has components changes nothing. *)
Lemma mkdir_fuel_more fuel fuel' parents exist_ok p fs :
  length (parts p) <= fuel -> length (parts p) <= fuel' ->
  mkdir_fuel fuel parents exist_ok p fs =
  mkdir_fuel fuel' parents exist_ok p fs.
Proof.
  revert fuel' parents exist_ok p fs.
  induction fuel as [|fuel IH]; intros [|fuel'] parents exist_ok p fs Hl Hl';
    rewrite !(mkdir_fuel_unfold _ parents exist_ok p fs); try done;
    (destruct (os_mkdir p fs) as [fs1 [[]|e1]]; [done|]);
    (destruct (decide (e1 = FileNotFoundError)) as [->|Hne];
      [|by repeat case_match]);
    (destruct (negb parents || bool_decide (parent p = p)) eqn:Hb; [done|]);
    apply orb_false_iff in Hb as [_ Hpar%bool_decide_eq_false];
    rewrite parent_fixed in Hpar;
    try (destruct (parts p); [done|simpl in *; lia]).
  rewrite (IH fuel') by (rewrite parent_length; lia).
  destruct (mkdir_fuel fuel' true true (parent p) fs) as [fs2 [[]|e2]];
    [apply mkdir_fuel_flat|done].
Qed.

End mkdir_fuel_facts.
