(* ===== verification/AlignmentIO.v ===== *)
(** * AlignmentIO: [write_alignment] and [read_alignment] on a file store

    [write_alignment] (utils.py, lines 100-114) encodes the alignment,
    computes the location, creates the location's directory with
    [Path.mkdir(parents=True, exist_ok=True)], opens the location for
    writing, serialises the record and writes it;
    [read_alignment] (lines 117-164) opens the location, loads the JSON
    value and decodes it.  Both are computations on the store of
    [Storage].

    The theorems: a write followed by a read of the same identifier
    returns what the codec's round trip specifies; a failed write leaves
    the store as it was; a write touches no other file, and succeeds
    unless a file or a directory is in its way; writing the same record
    twice changes nothing the second time; every store the two functions
    make of the empty one holds nothing but well-shaped records under
    [.json] names ([alignment_store], by induction on the sequence of
    [call]s), and in such a store a read raises only what [open] or a
    rescaling raises; and seen as a map from locations to records
    ([records], with the operations [kv_write] and [kv_read]), the store
    is a key-value store that the two functions refine.

    [write_alignment_on] is the function in an environment that says
    what [open] refuses whatever the store holds (a name too long, a
    permission, a full disk) and what the serialiser raises;
    [write_alignment] is the function in the ideal environment, where
    [open] fails only for what the store holds and every value of
    [pyval] serialises, so that [json.dumps] between [open] and [f.write]
    never raises.  Atomicity and success are theorems about the ideal
    environment; what a failed write leaves in general, and that a
    refused [open] leaves the directories [mkdir] made, are theorems
    about [write_alignment_on].  [mkdir] itself is never refused. *)

From Stdlib Require Import ZArith String List Lia.
From stdpp Require Import countable gmap base tactics option list strings.
From S2P Require Import Prelude PyFloat PyValue Align Codec CodecProps.
From S2P Require Import CodecTypes PosixPath Storage.

Local Open Scope string_scope.
Local Open Scope list_scope.
Local Open Scope res_scope.

Section operations.
Context {F : Type} `{FloatOps F}.
Implicit Types (fs : gmap PurePath (node F)) (p q : PurePath).

(** [open(p, "w")] on a system that can refuse the call whatever the
    store holds: [refuses p] is the error it fails with, if any (a name
    too long, a permission, a full disk). *)
Definition os_open_w_on (refuses : PurePath -> option exn) p
  : sres (gmap PurePath (node F)) exn PurePath :=
  fun fs =>
    match refuses p with
    | Some e => (fs, Err e)
    | None => os_open_w p fs
    end.

(** [write_alignment] in an environment: what [open] refuses, and the
    serialiser, which may raise on a value it cannot write. *)
Definition write_alignment_on (refuses : PurePath -> option exn)
    (dumps : pyval F -> res exn (pyval F))
    (output_path : PurePath) (id : string) (alignment : Alignment F)
  : sres (gmap PurePath (node F)) exn unit :=
  meta <~ slift (alignment_meta alignment) ;;
  let filename := alignment_filename output_path id in
  _ <~ mkdir true true (parent filename) ;;
  f <~ os_open_w_on refuses filename ;;
  text <~ slift (dumps meta) ;;
  file_write f text.

(** [write_alignment] where [open] fails only for what the store holds
    and every value serialises. *)
Definition write_alignment
  : PurePath -> string -> Alignment F ->
    sres (gmap PurePath (node F)) exn unit :=
  write_alignment_on (fun _ => None) json_dumps.

Definition read_alignment (alignments_dir : PurePath) (alignment_id : string)
  : sres (gmap PurePath (node F)) exn (Alignment F) :=
  alignment_dict <~
    os_read_json (alignment_filename alignments_dir alignment_id) ;;
  slift (read_alignment_dict alignment_dict).

(** The store seen from above: the JSON value at each location that
    holds one. *)
Definition node_record (n : node F) : option (pyval F) :=
  match n with
  | File c => c
  | Dir => None
  end.

Definition records fs : gmap PurePath (pyval F) := omap node_record fs.

(** The two operations on that view. *)
Definition kv_write (output_path : PurePath) (id : string)
    (alignment : Alignment F) (kv : gmap PurePath (pyval F))
  : res exn (gmap PurePath (pyval F)) :=
  meta <- alignment_meta alignment ;;
  Ok (<[alignment_filename output_path id := meta]> kv).

Definition kv_read (alignments_dir : PurePath) (alignment_id : string)
    (kv : gmap PurePath (pyval F)) : option (res exn (Alignment F)) :=
  read_alignment_dict <$> kv !! alignment_filename alignments_dir alignment_id.

(** What [write_alignment] returns and leaves, in a well-formed store:
    on success the record is stored at its location in a store that grew
    by the directories above it; on failure nothing has changed. *)
Definition write_post out id a fs
    (res : gmap PurePath (node F) * res exn unit) : Prop :=
  let f := alignment_filename out id in
  match res with
  | (fs', Ok _) =>
      exists m fs1, alignment_meta a = Ok m /\ wf_store fs1 /\
        grown fs fs1 (parent f) /\ is_dir fs1 (parent f) = true /\
        fs1 !! f <> Some Dir /\ fs' = <[f := File (Some m)]> fs1
  | (fs', Err e) =>
      fs' = fs /\ (alignment_meta a = Err e \/ store_error e = true)
  end.

(** A store that holds nothing but alignments: it is well formed, and
    every file in it holds a record of the encoder's shape under a name
    that ends in [.json]. *)
Definition json_name p : Prop := exists x, name p = x +:+ ".json".

Definition alignment_store fs : Prop :=
  wf_store fs /\
  forall p c, fs !! p = Some (File c) ->
    json_name p /\ exists m, c = Some m /\ is_record m = true.

(** One call of [write_alignment] or [read_alignment], from the store it
    finds to the store it leaves, whether it returns or raises. *)
Inductive call : relation (gmap PurePath (node F)) :=
| call_write out id a fs :
    wf_path out -> call fs (write_alignment out id a fs).1
| call_read out id fs : call fs (read_alignment out id fs).1.

(** What opening a location for reading raises. *)
Definition open_error (e : exn) : bool :=
  match e with
  | FileNotFoundError | NotADirectoryError | IsADirectoryError => true
  | _ => false
  end.

End operations.

(** ** Writing and reading a record *)

Section write_read.
Context {F : Type} `{FloatOps F}.
Implicit Types (fs : gmap PurePath (node F)) (p q out : PurePath).
Implicit Types (a : Alignment F) (id : string) (m : pyval F).

(** The function with its [with] block as one step. *)
Lemma write_alignment_steps out id a :
  write_alignment out id a =
  (meta <~ slift (alignment_meta a) ;;
   _ <~ mkdir true true (parent (alignment_filename out id)) ;;
   os_write (alignment_filename out id) meta).
Proof. reflexivity. Qed.

Lemma mkdir_spec parents exist_ok p fs :
  wf_store fs -> mkdir_post fs p (mkdir parents exist_ok p fs).
Proof. intros Hwf. apply mkdir_fuel_spec; [done|lia]. Qed.

Lemma mkdir_existing fuel parents p fs :
  is_dir fs p = true -> mkdir_fuel fuel parents true p fs = (fs, Ok tt).
Proof.
  intros Hd. rewrite mkdir_fuel_unfold. unfold os_mkdir.
  pose proof Hd as [Hc Hl]%is_dir_true. rewrite Hc, Hl. simpl. by rewrite Hd.
Qed.

Lemma alignment_filename_nonempty out id :
  wf_path out -> parts (alignment_filename out id) <> [].
Proof.
  intros Hout. rewrite alignment_filename_parts by done. simpl.
  by destruct (removelast (parts (joinpath out id))).
Qed.

Lemma os_write_Ok fs p m :
  is_dir fs (parent p) = true -> parts p <> [] -> fs !! p <> Some Dir ->
  os_write p m fs = (<[p := File (Some m)]> fs, Ok tt).
Proof.
  intros Hc%check_dirs_parent Hp Hn. rewrite os_write_unfold.
  rewrite Hc, lookup_node_stored by done. by destruct (fs !! p) as [[]|].
Qed.

Lemma os_write_dir fs p m :
  is_dir fs (parent p) = true -> parts p <> [] -> fs !! p = Some Dir ->
  os_write p m fs = (fs, Err IsADirectoryError).
Proof.
  intros Hc%check_dirs_parent Hp Hn. rewrite os_write_unfold.
  by rewrite Hc, lookup_node_stored, Hn.
Qed.

Lemma os_read_json_insert fs p m :
  check_dirs fs (ancestors p) = Ok tt -> parts p <> [] ->
  os_read_json p (<[p := File (Some m)]> fs) = (<[p := File (Some m)]> fs, Ok m).
Proof.
  intros Hc Hp. unfold os_read_json.
  rewrite check_dirs_insert by apply ancestors_not_self.
  by rewrite Hc, lookup_node_stored, lookup_insert_eq.
Qed.

Lemma os_read_json_Ok fs fs' p m :
  os_read_json p fs = (fs', Ok m) ->
  Forall (fun q => fs !! q = Some Dir) (ancestors p) /\ parts p <> [] /\
  fs !! p = Some (File (Some m)).
Proof.
  unfold os_read_json, lookup_node.
  destruct (check_dirs fs (ancestors p)) as [[]|e] eqn:Hc; [|done].
  apply check_dirs_Ok in Hc.
  destruct (parts p); [done|].
  destruct (fs !! p) as [[[v|]|]|]; try done. by intros [= _ ->].
Qed.

Lemma os_read_json_stored fs p m :
  Forall (fun q => fs !! q = Some Dir) (ancestors p) -> parts p <> [] ->
  fs !! p = Some (File (Some m)) -> os_read_json p fs = (fs, Ok m).
Proof.
  intros Hc%check_dirs_Ok Hp Hm. unfold os_read_json.
  by rewrite Hc, lookup_node_stored, Hm.
Qed.

Lemma os_write_Err fs fs' p m e :
  os_write p m fs = (fs', Err e) -> fs' = fs /\ store_error e = true.
Proof.
  rewrite os_write_unfold.
  destruct (check_dirs fs (ancestors p)) as [[]|e'] eqn:Hc.
  - repeat case_match; intros ?; by simplify_eq.
  - intros ?. simplify_eq. split; [done|].
    by destruct (check_dirs_Err _ _ _ Hc) as [[-> _]|[-> _]].
Qed.

Lemma mkdir_Err parents exist_ok p fs fs' e :
  mkdir parents exist_ok p fs = (fs', Err e) -> store_error e = true.
Proof.
  unfold mkdir, store_error. intros He%mkdir_fuel_Err; [|lia]. by rewrite He.
Qed.

(** Whatever the store, a failed write raised the encoder's exception or
    one of the store's. *)
Lemma write_alignment_Err_cases out id a fs fs' e :
  write_alignment out id a fs = (fs', Err e) ->
  alignment_meta a = Err e \/ store_error e = true.
Proof.
  rewrite write_alignment_steps, slift_bind.
  destruct (alignment_meta a) as [m|e']; [|intros ?; simplify_eq; by left].
  intros [He|(fs1 & [] & _ & He)]%sbind_Err_inv; right.
  - by apply mkdir_Err in He.
  - by apply os_write_Err in He as [_ ?].
Qed.

Lemma grown_records fs fs' p : grown fs fs' p -> records fs' = records fs.
Proof.
  intros Hg. apply map_eq. intros q. unfold records. rewrite !lookup_omap.
  destruct (Hg q) as [->|(-> & -> & _)]; done.
Qed.

Lemma records_lookup fs p m :
  records fs !! p = Some m <-> fs !! p = Some (File (Some m)).
Proof.
  unfold records. rewrite lookup_omap.
  destruct (fs !! p) as [[[?|]|]|]; simpl; split; congruence.
Qed.

Lemma is_dir_insert_below fs p (n : node F) :
  is_dir fs (parent p) = true -> parts p <> [] ->
  is_dir (<[p := n]> fs) (parent p) = true.
Proof.
  rewrite !is_dir_true. intros [Hc Hl] Hp. split.
  - rewrite check_dirs_insert; [done|].
    intros Hin%ancestors_shorter. rewrite parent_length in Hin. lia.
  - unfold lookup_node in *. destruct (parts (parent p)); [done|].
    rewrite lookup_insert_ne; [done|]. intros Heq. symmetry in Heq.
    by apply parent_fixed in Heq.
Qed.

Lemma write_alignment_post out id a fs :
  wf_store fs -> wf_path out ->
  write_post out id a fs (write_alignment out id a fs).
Proof.
  intros Hwf Hout. rewrite write_alignment_steps. unfold write_post.
  pose proof (alignment_filename_nonempty out id Hout) as Hf.
  set (f := alignment_filename out id) in *.
  rewrite slift_bind. destruct (alignment_meta a) as [m|e]; [|by auto].
  unfold sbind. pose proof (mkdir_spec true true (parent f) fs Hwf) as Hm.
  destruct (mkdir true true (parent f) fs) as [fs1 [[]|e]] eqn:Hmk;
    simpl in Hm.
  2: { destruct Hm as [-> He]. unfold store_error. rewrite He. auto. }
  destruct Hm as (Hwf1 & Hg & Hd).
  destruct (fs1 !! f) as [[c|]|] eqn:Hn.
  2: { rewrite os_write_dir by done.
       rewrite (grown_below _ _ _ Hg Hf) in Hn.
       apply (wf_store_parent_dir _ _ _ Hwf) in Hn.
       unfold mkdir in Hmk. rewrite mkdir_existing in Hmk by done.
       split; [congruence|by right]. }
  all: rewrite os_write_Ok by (done || congruence).
  all: exists m, fs1; split_and!; try done; congruence.
Qed.

(** ** A system that can refuse, a serialiser that can raise *)

Lemma os_open_w_on_Err refuses p fs fs' e :
  os_open_w_on refuses p fs = (fs', Err e) -> fs' = fs.
Proof.
  unfold os_open_w_on, os_open_w. intros Ho.
  repeat case_match; by simplify_eq.
Qed.

Lemma os_open_w_on_Ok refuses p fs fs' q :
  os_open_w_on refuses p fs = (fs', Ok q) ->
  q = p /\ fs' = <[p := File None]> fs.
Proof.
  unfold os_open_w_on, os_open_w. intros Ho.
  repeat case_match; by simplify_eq.
Qed.


(** C11: what a failed write leaves when [open] can be refused and the
    serialiser can raise: the store it found, with at most the
    directories above the location added, and, when it is the serialiser
    that raised, an empty file at the location.  No other file is
    touched; but the write is not atomic. *)
Theorem write_alignment_on_failure refuses dumps out id a fs fs' e :
  wf_store fs -> wf_path out ->
  write_alignment_on refuses dumps out id a fs = (fs', Err e) ->
  exists fs1, grown fs fs1 (parent (alignment_filename out id)) /\
    (fs' = fs1 \/
     fs' = <[alignment_filename out id := File None]> fs1 /\
     exists m, alignment_meta a = Ok m /\ dumps m = Err e).
Proof.
  intros Hwf Hout. unfold write_alignment_on. rewrite slift_bind.
  destruct (alignment_meta a) as [m|e0];
    [|intros [= <- <-]; exists fs; eauto using grown_refl].
  set (f := alignment_filename out id).
  pose proof (mkdir_spec true true (parent f) fs Hwf) as Hp.
  intros [Hmk|(fs1 & [] & Hmk & Hw)]%sbind_Err_inv; rewrite Hmk in Hp.
  { destruct Hp as [-> _]. exists fs. eauto using grown_refl. }
  destruct Hp as (_ & Hg & _). exists fs1. split; [done|].
  apply sbind_Err_inv in Hw as [Ho|(fs2 & q & Ho & Hw)].
  - left. by apply os_open_w_on_Err in Ho.
  - right. apply os_open_w_on_Ok in Ho as [-> ->].
    rewrite slift_bind in Hw. destruct (dumps m) eqn:Hd; [done|].
    simplify_eq. eauto.
Qed.

(** C12: when the system refuses to open the location, the write raises
    what the system raised, after [mkdir] has run: the directory of the
    location is there, whether it was before or not. *)
Theorem write_alignment_on_refused refuses dumps out id a fs m e :
  wf_store fs -> wf_path out -> alignment_meta a = Ok m ->
  no_file fs (ancestors (alignment_filename out id)) ->
  refuses (alignment_filename out id) = Some e ->
  exists fs1,
    write_alignment_on refuses dumps out id a fs = (fs1, Err e) /\
    is_dir fs1 (parent (alignment_filename out id)) = true.
Proof.
  intros Hwf Hout Hm Hnf Hr. unfold write_alignment_on.
  set (f := alignment_filename out id) in *.
  rewrite slift_bind, Hm. unfold sbind.
  pose proof (mkdir_spec true true (parent f) fs Hwf) as Hpost.
  destruct (no_file_parent fs f Hnf) as [Hanc Hpar].
  destruct (mkdir_fuel_Ok (S (length (parts (parent f)))) (parent f) fs)
    as [fs1 Hmk]; [done|lia|done|done|].
  unfold mkdir in *. rewrite Hmk in *. destruct Hpost as (_ & _ & Hd).
  exists fs1. unfold os_open_w_on. by rewrite Hr.
Qed.

(** C2: a record written by [write_alignment] is read back by
    [read_alignment] from the same directory and identifier as [reload]
    specifies, and reading leaves the store as the write left it. *)
Theorem write_then_read out id a fs fs' :
  wf_store fs -> wf_path out ->
  write_alignment out id a fs = (fs', Ok tt) ->
  read_alignment out id fs' = (fs', reload a).
Proof.
  intros Hwf Hout Hw.
  pose proof (write_alignment_post out id a fs Hwf Hout) as Hp.
  rewrite Hw in Hp. destruct Hp as (m & fs1 & Hm & _ & _ & Hd & _ & ->).
  unfold read_alignment, sbind.
  rewrite os_read_json_insert
    by eauto using check_dirs_parent, alignment_filename_nonempty.
  unfold slift. by rewrite (read_alignment_dict_meta a m).
Qed.

(** C9: [write_alignment] is atomic on failure: when it raises, the
    store is the one it started from, no directory created and no file
    written or truncated; and what it raises is the encoder's exception
    or one of the four the store gives. *)
Theorem write_alignment_atomic out id a fs fs' e :
  wf_store fs -> wf_path out ->
  write_alignment out id a fs = (fs', Err e) ->
  fs' = fs /\ (alignment_meta a = Err e \/ store_error e = true).
Proof.
  intros Hwf Hout Hw.
  pose proof (write_alignment_post out id a fs Hwf Hout) as Hp.
  by rewrite Hw in Hp.
Qed.

Lemma read_alignment_store out id fs : (read_alignment out id fs).1 = fs.
Proof.
  unfold read_alignment, sbind, os_read_json, slift.
  repeat case_match; by simplify_eq/=.
Qed.

Lemma alignment_store_empty : alignment_store (∅ : gmap PurePath (node F)).
Proof. split; intros p ?; by rewrite lookup_empty. Qed.

(** A write keeps the invariant, whether it returns or raises. *)
Lemma write_alignment_store out id a fs :
  alignment_store fs -> wf_path out ->
  alignment_store (write_alignment out id a fs).1.
Proof.
  intros [Hwf Hfiles] Hout.
  pose proof (write_alignment_post out id a fs Hwf Hout) as Hp.
  destruct (write_alignment out id a fs) as [fs' [[]|e]]; simpl in *;
    [|by destruct Hp as [-> _]].
  destruct Hp as (m & fs1 & Hm & Hwf1 & Hg & Hd & Hn & ->). split.
  - apply wf_store_insert; auto using alignment_filename_nonempty.
    by apply check_dirs_Ok, check_dirs_parent.
  - intros p c. destruct (decide (p = alignment_filename out id)) as [->|Hp].
    + rewrite lookup_insert_eq. intros [= <-]. split.
      * eexists. by apply alignment_filename_name.
      * eauto using alignment_meta_record.
    + rewrite lookup_insert_ne by done. intros Hc. apply Hfiles.
      destruct (Hg p) as [<-|(_ & Hdir & _)]; [done|congruence].
Qed.

Lemma call_alignment_store fs fs' :
  call fs fs' -> alignment_store fs -> alignment_store fs'.
Proof.
  intros [out id a fs0 Hout|out id fs0] Hfs.
  - by apply write_alignment_store.
  - by rewrite read_alignment_store.
Qed.

Lemma calls_alignment_store fs fs' :
  rtc call fs fs' -> alignment_store fs -> alignment_store fs'.
Proof. induction 1; eauto using call_alignment_store. Qed.

(** C18: every store that calls of [write_alignment] and
    [read_alignment] make of the empty one, in any number and order,
    failed calls included, holds nothing but alignments: it is well
    formed, and each of its files holds a record of the encoder's shape
    under a name that ends in [.json]. *)
Theorem reachable_alignment_store fs : rtc call ∅ fs -> alignment_store fs.
Proof.
  intros Hr. apply (calls_alignment_store ∅ fs Hr), alignment_store_empty.
Qed.

(** C19: in a store that holds nothing but alignments a read raises
    nothing but what opening the location raises or what a rescaling
    raises: no [JSONDecodeError], no [KeyError], and the store is left as
    it was. *)
Theorem read_alignment_raises out id fs fs' e :
  alignment_store fs ->
  read_alignment out id fs = (fs', Err e) ->
  fs' = fs /\ (open_error e = true \/ rescale_error e = true).
Proof.
  intros [Hwf Hfiles] Hr.
  pose proof (read_alignment_store out id fs) as Hfs.
  rewrite Hr in Hfs. simpl in Hfs. subst fs'. split; [done|].
  unfold read_alignment in Hr.
  apply sbind_Err_inv in Hr as [Hr|(fs1 & m & Hm & Hr)].
  - left. unfold os_read_json, lookup_node in Hr.
    destruct (check_dirs fs _) as [[]|e'] eqn:Hc.
    + destruct (parts (alignment_filename out id)); [by simplify_eq|].
      destruct (fs !! alignment_filename out id) as [[[v|]|]|] eqn:Hl;
        try by simplify_eq.
      by destruct (Hfiles _ _ Hl) as (_ & ? & ? & _).
    + simplify_eq. by apply check_dirs_Err in Hc as [[-> _]|[-> _]].
  - right. apply os_read_json_Ok in Hm as (_ & _ & Hl).
    destruct (Hfiles _ _ Hl) as (_ & ? & [= <-] & Hrec).
    unfold slift in Hr. simplify_eq.
    by eapply read_alignment_dict_Err_record.
Qed.

(** C14: a write touches nothing else: every JSON file that could be
    read before at another location is read with the same content after. *)
Theorem write_alignment_frame out id a fs fs' q m :
  wf_store fs -> wf_path out ->
  write_alignment out id a fs = (fs', Ok tt) ->
  q <> alignment_filename out id ->
  os_read_json q fs = (fs, Ok m) -> os_read_json q fs' = (fs', Ok m).
Proof.
  intros Hwf Hout Hw Hq Hr.
  pose proof (write_alignment_post out id a fs Hwf Hout) as Hp.
  rewrite Hw in Hp. destruct Hp as (m' & fs1 & _ & _ & Hg & _ & Hn & ->).
  apply os_read_json_Ok in Hr as (Hanc & Hparts & Hfile).
  apply os_read_json_stored; [|done|].
  - eapply Forall_impl; [exact Hanc|]. intros q' Hq'. simpl in Hq'.
    rewrite lookup_insert_ne; [by eapply grown_Some|].
    intros <-. apply (grown_Some _ _ _ _ _ Hg) in Hq'. congruence.
  - rewrite lookup_insert_ne by done. by eapply grown_Some.
Qed.

(** C10: [write_alignment] succeeds whenever the record can be encoded,
    no file stands where a directory of the location is needed and the
    location is not a directory; the record is then stored there.  In
    particular the recursion of [mkdir] always has fuel enough. *)
Theorem write_alignment_Ok out id a fs m :
  wf_store fs -> wf_path out -> alignment_meta a = Ok m ->
  no_file fs (ancestors (alignment_filename out id)) ->
  fs !! alignment_filename out id <> Some Dir ->
  exists fs', write_alignment out id a fs = (fs', Ok tt) /\
    fs' !! alignment_filename out id = Some (File (Some m)).
Proof.
  intros Hwf Hout Hm Hnf Hnd. rewrite write_alignment_steps.
  pose proof (alignment_filename_nonempty out id Hout) as Hf.
  set (f := alignment_filename out id) in *.
  rewrite slift_bind, Hm. unfold sbind.
  pose proof (mkdir_spec true true (parent f) fs Hwf) as Hpost.
  destruct (no_file_parent fs f Hnf) as [Hanc Hpar].
  destruct (mkdir_fuel_Ok (S (length (parts (parent f)))) (parent f) fs)
    as [fs1 Hmk]; [done|lia|done|done|].
  unfold mkdir in *. rewrite Hmk in *. destruct Hpost as (Hwf1 & Hg & Hd).
  rewrite os_write_Ok by (by rewrite ?(grown_below _ _ _ Hg Hf)).
  eexists. split; [done|]. by rewrite lookup_insert_eq.
Qed.

(** C20: reading an identifier that has no file raises and leaves the
    store alone: [FileNotFoundError], or [NotADirectoryError] when a file
    stands above the location. *)
Theorem read_alignment_absent out id fs :
  wf_path out -> fs !! alignment_filename out id = None ->
  exists e, read_alignment out id fs = (fs, Err e) /\
    (e = FileNotFoundError \/ e = NotADirectoryError).
Proof.
  intros Hout Hnone. unfold read_alignment, sbind, os_read_json.
  rewrite lookup_node_stored, Hnone by by apply alignment_filename_nonempty.
  destruct (check_dirs fs _) as [[]|e] eqn:Hc; [by eauto|].
  exists e. split; [done|].
  apply check_dirs_Err in Hc as [[-> _]|[-> _]]; auto.
Qed.

(** C15: writing the same record again changes nothing: the second
    write succeeds and leaves the store the first one left. *)
Theorem write_alignment_idempotent out id a fs fs' :
  wf_store fs -> wf_path out ->
  write_alignment out id a fs = (fs', Ok tt) ->
  write_alignment out id a fs' = (fs', Ok tt).
Proof.
  intros Hwf Hout Hw.
  pose proof (write_alignment_post out id a fs Hwf Hout) as Hp.
  rewrite Hw in Hp. destruct Hp as (m & fs1 & Hm & _ & _ & Hd & _ & ->).
  pose proof (alignment_filename_nonempty out id Hout) as Hf.
  rewrite write_alignment_steps, slift_bind, Hm. unfold sbind, mkdir.
  rewrite mkdir_existing by (by apply is_dir_insert_below).
  rewrite os_write_Ok; [by rewrite insert_insert_eq| |done|].
  - by apply is_dir_insert_below.
  - by rewrite lookup_insert_eq.
Qed.

(** C16: a write refines the write of a key-value store: on the records
    of the store, a successful [write_alignment] is the insertion of the
    encoded record at the location, and nothing else. *)
Theorem write_alignment_refines out id a fs fs' :
  wf_store fs -> wf_path out ->
  write_alignment out id a fs = (fs', Ok tt) ->
  kv_write out id a (records fs) = Ok (records fs').
Proof.
  intros Hwf Hout Hw.
  pose proof (write_alignment_post out id a fs Hwf Hout) as Hp.
  rewrite Hw in Hp. destruct Hp as (m & fs1 & Hm & _ & Hg & _ & _ & ->).
  unfold kv_write. rewrite Hm. simpl. f_equal.
  rewrite <-(grown_records _ _ _ Hg). symmetry. by apply omap_insert_Some.
Qed.

(** C17: a read refines the read of a key-value store: in a well-formed
    store, when the records hold one at the location, [read_alignment]
    decodes it and leaves the store as it is. *)
Theorem read_alignment_refines out id fs r :
  wf_store fs -> kv_read out id (records fs) = Some r ->
  read_alignment out id fs = (fs, r).
Proof.
  unfold kv_read. intros Hwf Hr.
  destruct (records fs !! alignment_filename out id) as [m|] eqn:Hm;
    simplify_eq/=.
  apply records_lookup in Hm. destruct (Hwf _ _ Hm) as [Hparts Hanc].
  unfold read_alignment, sbind. by rewrite (os_read_json_stored fs _ m).
Qed.

End write_read.
