(* ===== verification/StorageB64.v ===== *)
(** * StorageB64: writing and reading on concrete stores

    The store operations evaluated under binary64 on the specification's
    example: what a write creates in an empty store, what it does when a
    file is in its way, what it leaves on a system that limits the length
    of a name or with a serialiser that raises, and the concrete
    instances of the theorems of [AlignmentIO]. *)

From Stdlib Require Import ZArith String List SpecFloat Lia.
From stdpp Require Import countable gmap base tactics option list strings.
From S2P Require Import Prelude PyFloat PyValue Align Codec CodecProps.
From S2P Require Import CodecB64 PosixPath Storage AlignmentIO.

Local Open Scope string_scope.
Local Open Scope list_scope.
Local Open Scope res_scope.

Abbreviation store := (gmap PurePath (node B64.float)).

Definition out : PurePath := parse "out".

(** The store after the example was written under [out] in an empty one. *)
Definition written : store :=
  (write_alignment out "audio/one.mp3" spec_example ∅).1.

(** A store in which [out/audio] is a file. *)
Definition blocked : store :=
  <[parse "out/audio" := File None]> (<[out := Dir]> ∅).

(** A store in which the location of the example is a directory. *)
Definition taken : store :=
  (mkdir true true (parse "out/audio/one.mp3.json") ∅).1.

(** Two stores are equal when they list the same nodes; the lists are
    computed, the maps themselves are never compared. *)
Ltac store_eq := apply map_to_list_inj; vm_compute; reflexivity.

Ltac outcome_eq := apply injective_projections; [store_eq|by vm_compute].

(** The store after a second recording was written next to the first. *)
Definition written_twice : store :=
  (write_alignment out "audio/two.mp3" recording30 written).1.

Lemma wf_path_out : wf_path out.
Proof. apply parse_wf. Qed.

Lemma wf_store_empty : wf_store (∅ : store).
Proof. by apply wf_storeb_true. Qed.

Lemma wf_store_written : wf_store written.
Proof. apply wf_storeb_true. by vm_compute. Qed.

Lemma wf_store_blocked : wf_store blocked.
Proof. apply wf_storeb_true. by vm_compute. Qed.

Lemma wf_store_taken : wf_store taken.
Proof. apply wf_storeb_true. by vm_compute. Qed.

Lemma written_Ok :
  write_alignment out "audio/one.mp3" spec_example ∅ = (written, Ok tt).
Proof. apply injective_projections; [reflexivity|by vm_compute]. Qed.

Lemma written_twice_Ok :
  write_alignment out "audio/two.mp3" recording30 written =
  (written_twice, Ok tt).
Proof. apply injective_projections; [reflexivity|by vm_compute]. Qed.

Lemma blocked_Err :
  write_alignment out "audio/one.mp3" spec_example blocked =
  (blocked, Err FileExistsError).
Proof. outcome_eq. Qed.

Lemma taken_Err :
  write_alignment out "audio/one.mp3" spec_example taken =
  (taken, Err IsADirectoryError).
Proof. outcome_eq. Qed.

(** Written under [out] in an empty store, the example creates the
    directories [out] and [out/audio] and the file
    [out/audio/one.mp3.json] holding its record, and nothing else; with a
    file in place of the directory [out/audio] the write raises
    [FileExistsError] out of [mkdir], with a directory at the location it
    raises [IsADirectoryError], and the store is unchanged. *)
Example write_alignment_examples :
  write_alignment out "audio/one.mp3" spec_example ∅ =
    (<[parse "out/audio/one.mp3.json" := File (Some spec_record)]>
       (<[parse "out/audio" := Dir]> (<[out := Dir]> ∅)), Ok tt) /\
  write_alignment out "audio/one.mp3" spec_example blocked =
    (blocked, Err FileExistsError) /\
  write_alignment out "audio/one.mp3" spec_example taken =
    (taken, Err IsADirectoryError).
Proof. split_and!; [outcome_eq|exact blocked_Err|exact taken_Err]. Qed.

(** A system whose names hold 255 characters at most. *)
Definition name_too_long (p : PurePath) : option exn :=
  if Nat.ltb 255 (String.length (name p)) then Some OSError else None.

(** An identifier whose name has 253 characters. *)
Definition long_id : string := "audio/" +:+ repeat_string 253 "a".

(** A serialiser that rejects every value. *)
Definition no_dumps (v : b64val) : res exn b64val := Err TypeError.

(** On a system that limits names, the write of a long identifier raises
    after the directories were made; with a serialiser that raises, the
    write of the example over itself leaves an empty file. *)
Example write_alignment_not_atomic :
  let refused :=
    write_alignment_on name_too_long json_dumps out long_id spec_example ∅ in
  let emptied :=
    write_alignment_on (fun _ => None) no_dumps out "audio/one.mp3"
      spec_example written in
  refused.2 = Err OSError /\
  map_to_list refused.1 = [(out, Dir); (parse "out/audio", Dir)] /\
  emptied.2 = Err TypeError /\
  emptied.1 !! parse "out/audio/one.mp3.json" = Some (File None).
Proof. split_and!; by vm_compute. Qed.

(** ** The theorems of [AlignmentIO] on these stores *)

Lemma write_then_read_witness :
  read_alignment out "audio/one.mp3" written = (written, reload spec_example).
Proof.
  apply (write_then_read out "audio/one.mp3" spec_example ∅ written).
  - exact wf_store_empty.
  - exact wf_path_out.
  - exact written_Ok.
Defined.

Lemma write_alignment_atomic_witness :
  blocked = blocked /\
  (alignment_meta spec_example = Err FileExistsError \/
   store_error FileExistsError = true).
Proof.
  apply (write_alignment_atomic out "audio/one.mp3" spec_example blocked).
  - exact wf_store_blocked.
  - exact wf_path_out.
  - exact blocked_Err.
Defined.

Lemma alignment_store_written : alignment_store written.
Proof.
  apply write_alignment_store;
    [apply alignment_store_empty|exact wf_path_out].
Qed.

Lemma reachable_alignment_store_witness : alignment_store written.
Proof.
  apply reachable_alignment_store, rtc_once.
  exact (call_write out "audio/one.mp3" spec_example ∅ wf_path_out).
Defined.

Lemma read_alignment_raises_witness :
  written = written /\
  (open_error FileNotFoundError = true \/
   rescale_error FileNotFoundError = true).
Proof.
  apply (read_alignment_raises out "audio/two.mp3" written).
  - exact alignment_store_written.
  - apply injective_projections; [reflexivity|by vm_compute].
Defined.

Lemma write_alignment_frame_witness :
  os_read_json (parse "out/audio/one.mp3.json") written_twice =
  (written_twice, Ok spec_record).
Proof.
  apply (write_alignment_frame out "audio/two.mp3" recording30 written).
  - exact wf_store_written.
  - exact wf_path_out.
  - exact written_twice_Ok.
  - by vm_compute.
  - apply injective_projections; [reflexivity|by vm_compute].
Defined.

Lemma write_alignment_Ok_witness :
  exists fs' : store,
    write_alignment out "audio/one.mp3" spec_example ∅ = (fs', Ok tt) /\
    fs' !! alignment_filename out "audio/one.mp3" =
      Some (File (Some spec_record)).
Proof.
  apply (write_alignment_Ok out "audio/one.mp3" spec_example ∅ spec_record).
  - exact wf_store_empty.
  - exact wf_path_out.
  - by vm_compute.
  - apply Forall_forall. intros q _ c. by rewrite lookup_empty.
  - by rewrite lookup_empty.
Defined.

Lemma read_alignment_absent_witness :
  exists e, read_alignment out "audio/one.mp3" (∅ : store) = (∅, Err e) /\
    (e = FileNotFoundError \/ e = NotADirectoryError).
Proof.
  apply (read_alignment_absent out "audio/one.mp3" ∅).
  - exact wf_path_out.
  - apply lookup_empty.
Defined.

Lemma write_alignment_idempotent_witness :
  write_alignment out "audio/one.mp3" spec_example written = (written, Ok tt).
Proof.
  apply (write_alignment_idempotent out "audio/one.mp3" spec_example ∅).
  - exact wf_store_empty.
  - exact wf_path_out.
  - exact written_Ok.
Defined.

Lemma write_alignment_refines_witness :
  kv_write out "audio/one.mp3" spec_example (records (∅ : store)) =
  Ok (records written).
Proof.
  apply (write_alignment_refines out "audio/one.mp3" spec_example ∅ written).
  - exact wf_store_empty.
  - exact wf_path_out.
  - exact written_Ok.
Defined.

Lemma read_alignment_refines_witness :
  read_alignment out "audio/one.mp3" written = (written, Ok spec_loaded).
Proof.
  apply (read_alignment_refines out "audio/one.mp3" written).
  - exact wf_store_written.
  - by vm_compute.
Defined.


Lemma write_alignment_on_failure_witness :
  exists fs1 : store,
    grown written fs1 (parent (alignment_filename out "audio/one.mp3")) /\
    (<[parse "out/audio/one.mp3.json" := File None]> written = fs1 \/
     <[parse "out/audio/one.mp3.json" := File None]> written =
       <[alignment_filename out "audio/one.mp3" := File None]> fs1 /\
     exists m, alignment_meta spec_example = Ok m /\
       no_dumps m = Err TypeError).
Proof.
  apply (write_alignment_on_failure (fun _ => None) no_dumps out
           "audio/one.mp3" spec_example written).
  - exact wf_store_written.
  - exact wf_path_out.
  - outcome_eq.
Defined.

Lemma write_alignment_on_refused_witness :
  exists fs1 : store,
    write_alignment_on name_too_long json_dumps out long_id spec_example ∅ =
      (fs1, Err OSError) /\
    is_dir fs1 (parent (alignment_filename out long_id)) = true.
Proof.
  apply (write_alignment_on_refused name_too_long json_dumps out long_id
           spec_example ∅ spec_record).
  - exact wf_store_empty.
  - exact wf_path_out.
  - by vm_compute.
  - apply Forall_forall. intros q _ c. by rewrite lookup_empty.
  - by vm_compute.
Defined.
