(* ===== verification/Device.v ===== *)
(** * Device: the choice of the device to run on

    [best_device], [gpu_mps_available], [cuda_is_built] and
    [gpu_cuda_available] (utils.py, lines 179-197) question the installed
    torch library and return a device.  What torch answers is a record of
    booleans, [Torch]: the machine the program runs on.  Each function is
    a computation that appends the questions it asks to a log, in the
    order Python's [and] and [if] ask them, so that which capability is
    looked at, and when, is part of what is proved. *)

From Stdlib Require Import List Bool.
From stdpp Require Import base tactics option list.
From S2P Require Import Prelude PyFloat PyValue.

Local Open Scope list_scope.
Local Open Scope res_scope.

(** The questions: [torch.cuda.is_available()], [hasattr(torch.cuda,
    "is_built")], [torch.cuda.is_built()], [torch.backends.mps
    .is_available()], [torch.backends.mps.is_built()]. *)
Inductive probe : Type :=
| CudaIsAvailable
| CudaHasIsBuilt
| CudaIsBuilt
| MpsIsAvailable
| MpsIsBuilt.

#[export] Instance probe_eq_dec : EqDecision probe.
Proof. solve_decision. Defined.

(** [torch.device("cuda")] and [torch.device("cpu")]. *)
Inductive device : Type :=
| DeviceCuda
| DeviceCpu.

#[export] Instance device_eq_dec : EqDecision device.
Proof. solve_decision. Defined.

Record Torch : Type := mkTorch {
  cuda_is_available : bool;
  cuda_has_is_built : bool;
  cuda_built : bool;
  mps_is_available : bool;
  mps_is_built : bool;
}.

Definition answer (t : Torch) (q : probe) : bool :=
  match q with
  | CudaIsAvailable => cuda_is_available t
  | CudaHasIsBuilt => cuda_has_is_built t
  | CudaIsBuilt => cuda_built t
  | MpsIsAvailable => mps_is_available t
  | MpsIsBuilt => mps_is_built t
  end.

(** A computation that logs the questions it asks. *)
Definition probing (A : Type) : Type := sres (list probe) exn A.

Definition ask (t : Torch) (q : probe) : probing bool :=
  fun log => (log ++ [q], Ok (answer t q)).

Section selection.
Variable t : Torch.

(** [a and b] asks [b] only when [a] holds, and is [a] otherwise. *)
Definition gpu_mps_available : probing bool :=
  a <~ ask t MpsIsAvailable ;;
  (if a then ask t MpsIsBuilt else sret a).

Definition cuda_is_built : probing bool :=
  h <~ ask t CudaHasIsBuilt ;;
  (if h then ask t CudaIsBuilt else sret true).

Definition gpu_cuda_available : probing bool :=
  a <~ ask t CudaIsAvailable ;;
  (if a then cuda_is_built else sret a).

Definition best_device : probing device :=
  c <~ gpu_cuda_available ;;
  (if c then sret DeviceCuda else sret DeviceCpu).

End selection.

(** What [best_device] is meant to compute, and the questions it takes. *)
Definition cuda_usable (t : Torch) : bool :=
  cuda_is_available t && (negb (cuda_has_is_built t) || cuda_built t).

Definition cuda_probes (t : Torch) : list probe :=
  CudaIsAvailable ::
  if cuda_is_available t
  then CudaHasIsBuilt :: if cuda_has_is_built t then [CudaIsBuilt] else []
  else [].

Definition same_cuda (t t' : Torch) : Prop :=
  cuda_is_available t = cuda_is_available t' /\
  cuda_has_is_built t = cuda_has_is_built t' /\
  cuda_built t = cuda_built t'.

(** A laptop with an MPS backend and a torch built without CUDA. *)
Definition mps_laptop : Torch := mkTorch false true false true true.

(** A CUDA machine with a torch too old to have [torch.cuda.is_built]. *)
Definition old_torch : Torch := mkTorch true false false false false.

(** ** The selection *)

Section selection_facts.
Implicit Types (t : Torch) (log : list probe).

Lemma cuda_is_built_run t log :
  cuda_is_built t log =
  (log ++ CudaHasIsBuilt :: (if cuda_has_is_built t then [CudaIsBuilt] else []),
   Ok (negb (cuda_has_is_built t) || cuda_built t)).
Proof.
  unfold cuda_is_built, sbind, ask, sret. simpl.
  destruct (cuda_has_is_built t); simpl; by rewrite <-?app_assoc.
Qed.

Lemma gpu_cuda_available_run t log :
  gpu_cuda_available t log = (log ++ cuda_probes t, Ok (cuda_usable t)).
Proof.
  unfold gpu_cuda_available, cuda_probes, cuda_usable, sbind, ask, sret.
  simpl. destruct (cuda_is_available t); simpl; [|done].
  by rewrite cuda_is_built_run, <-app_assoc.
Qed.

(** C31: [best_device] returns the CUDA device exactly when CUDA is
    available and torch either cannot say whether it was built with CUDA
    or says it was; it asks about availability first, about the build
    only when CUDA is available, and nothing else. *)
Theorem best_device_run t log :
  best_device t log =
  (log ++ cuda_probes t,
   Ok (if cuda_usable t then DeviceCuda else DeviceCpu)).
Proof.
  unfold best_device, sbind. rewrite gpu_cuda_available_run.
  by destruct (cuda_usable t).
Qed.

Lemma cuda_probes_cuda t :
  Forall (fun q => q ∈ [CudaIsAvailable; CudaHasIsBuilt; CudaIsBuilt])
    (cuda_probes t).
Proof. unfold cuda_probes. repeat case_match; repeat constructor. Qed.

(** C32: the MPS backend plays no part in the choice: every question
    [best_device] adds to the log is one of the three about CUDA, and two
    machines that answer alike about CUDA get the same device after the
    same questions, whatever they answer about MPS. *)
Theorem best_device_ignores_mps t t' log :
  same_cuda t t' ->
  best_device t log = best_device t' log /\
  forall q, q ∈ (best_device t log).1 ->
    q ∈ log \/ q ∈ [CudaIsAvailable; CudaHasIsBuilt; CudaIsBuilt].
Proof.
  intros (Ha & Hh & Hb). unfold best_device, sbind.
  rewrite !gpu_cuda_available_run. split.
  - unfold cuda_probes, cuda_usable. by rewrite Ha, Hh, Hb.
  - intros q. destruct (cuda_usable t); simpl;
      (intros [?|Hq]%elem_of_app; [by left|right]);
      by apply (proj1 (Forall_forall _ _) (cuda_probes_cuda t)).
Qed.

(** A laptop whose only accelerator is MPS gets the CPU, although
    [gpu_mps_available] holds there; and a torch without
    [torch.cuda.is_built] is taken to be built with CUDA. *)
Example best_device_examples :
  (best_device mps_laptop []).2 = Ok DeviceCpu /\
  (gpu_mps_available mps_laptop []).2 = Ok true /\
  best_device old_torch [] =
    ([CudaIsAvailable; CudaHasIsBuilt], Ok DeviceCuda).
Proof. done. Qed.

Lemma best_device_ignores_mps_witness :
  best_device mps_laptop [] =
    best_device (mkTorch false true false false false) [] /\
  forall q, q ∈ (best_device mps_laptop []).1 ->
    q ∈ [] \/ q ∈ [CudaIsAvailable; CudaHasIsBuilt; CudaIsBuilt].
Proof.
  by apply (best_device_ignores_mps mps_laptop
              (mkTorch false true false false false) []).
Defined.

End selection_facts.
