(* ===== verification/Loaders.v ===== *)
(** * Loaders: [load_config] and [load_slice]

    [load_config] (utils.py, lines 20-37) looks a model up in the
    registry [models.yaml] and builds the configuration of an alignment
    run; the registry as [yaml.safe_load] returns it is a parameter, and
    so is the default cache directory of [timething.align].  [load_slice]
    (lines 40-52) turns two offsets in seconds into a frame offset and a
    frame count and asks torchaudio for that slice; torchaudio is the
    interface [TorchAudio], of which the function uses [info] and
    [load]. *)

From Stdlib Require Import ZArith String List Lia QArith Qcanon.
From stdpp Require Import base tactics option list strings.
From S2P Require Import Prelude PyFloat PyValue PosixPath.

Local Open Scope string_scope.
Local Open Scope list_scope.
Local Open Scope Z_scope.
Local Open Scope res_scope.

(** [timething.align.Config], by the keywords [load_config] passes. *)
Record Config (F : Type) : Type := mkConfig {
  hugging_model : pyval F;
  hugging_pin : pyval F;
  sampling_rate : pyval F;
  language : pyval F;
  k_shingles : pyval F;
  local_files_only : pyval F;
  cache_dir : pyval F;
}.

Arguments mkConfig {F} _ _ _ _ _ _ _.
Arguments hugging_model {F} _.
Arguments hugging_pin {F} _.
Arguments sampling_rate {F} _.
Arguments language {F} _.
Arguments k_shingles {F} _.
Arguments local_files_only {F} _.
Arguments cache_dir {F} _.

(** What [torchaudio.info] returns, by the two fields read. *)
Record AudioMetaData : Type := mkAudioMetaData {
  sample_rate : Z;
  num_frames : Z;
}.

(** torchaudio, as the loaders use it: [ta_info] is [torchaudio.info],
    [ta_load f offset n] is [torchaudio.load(f, offset, n)], a waveform
    and a sampling rate, [ta_shape1 w] is [w.shape[1]], the number of
    frames of a waveform, and [ta_decode b fmt] is what
    [torchaudio.load(path, format=fmt)] returns on a file that holds the
    bytes [b]. *)
Class TorchAudio : Type := {
  waveform : Type;
  ta_info : PurePath -> res exn AudioMetaData;
  ta_load : PurePath -> Z -> Z -> res exn (waveform * Z);
  ta_shape1 : waveform -> Z;
  ta_decode : list Byte.byte -> string -> res exn (waveform * Z);
}.

(** The fields of a registry entry, in the order they are read. *)
Definition config_keys : list string :=
  ["model"; "pin"; "sampling_rate"; "language"].

Section load_config.
Context {F : Type} `{FloatOps F}.

(** [yaml.safe_load(pkg_resources.read_text(timething, MODELS_YAML))]:
    the registry, or what reading or parsing it raised. *)
Variable models_yaml : res exn (pyval F).

(** [align.CACHE_DIR_DEFAULT]. *)
Variable CACHE_DIR_DEFAULT : pyval F.

Definition load_config (model : string)
    (k_shingles local_files_only cache_dir : pyval F) : res exn (Config F) :=
  cfg <- models_yaml ;;
  e1 <- py_getitem cfg model ;;
  hugging_model <- py_getitem e1 "model" ;;
  e2 <- py_getitem cfg model ;;
  hugging_pin <- py_getitem e2 "pin" ;;
  e3 <- py_getitem cfg model ;;
  sampling_rate <- py_getitem e3 "sampling_rate" ;;
  e4 <- py_getitem cfg model ;;
  language <- py_getitem e4 "language" ;;
  Ok (mkConfig hugging_model hugging_pin sampling_rate language
        k_shingles local_files_only
        (if py_truthy cache_dir then cache_dir else CACHE_DIR_DEFAULT)).

End load_config.

(** The frame at [t] seconds, in exact arithmetic: the reference for
    [load_slice]. *)
Definition frame_at (info : AudioMetaData) (num_samples t : Z) : Z :=
  Z.quot (t * sample_rate info * num_frames info) num_samples.

Section load_slice.
Context {F : Type} `{FloatOps F} `{TorchAudio}.

Definition load_slice (filename : PurePath)
    (start_seconds end_seconds : pyval F) : res exn (waveform * Z) :=
  info <- ta_info filename ;;
  whole <- ta_load filename 0 (-1) ;;
  let num_samples := ta_shape1 whole.1 in
  n_seconds <- py_truediv (PInt num_samples) (PInt (sample_rate info)) ;;
  seconds_per_frame <- py_truediv n_seconds (PInt (num_frames info)) ;;
  q <- py_truediv start_seconds seconds_per_frame ;;
  start <- py_int q ;;
  q' <- py_truediv end_seconds seconds_per_frame ;;
  end_ <- py_int q' ;;
  let duration := end_ - start in
  ta_load filename start duration.

End load_slice.

(** ** The configuration *)

Section load_config_facts.
Context {F : Type} `{FloatOps F}.
Variables (reg : res exn (pyval F)) (dflt : pyval F).
Implicit Types (model key : string) (k l c : pyval F).

Lemma py_getitem_entry d key :
  key ∈ dict_keys d -> exists v : pyval F, py_getitem (PDict d) key = Ok v.
Proof. intros [v Hv]%dict_get_is_Some. exists v. simpl. by rewrite Hv. Qed.

Lemma py_getitem_no_entry (d : list (string * pyval F)) key :
  key ∉ dict_keys d -> py_getitem (PDict d) key = Err (KeyError key).
Proof. intros Hk%dict_get_None. simpl. by rewrite Hk. Qed.

(** C33: [load_config] returns a configuration exactly when the registry
    could be read, holds an entry for the model and the entry holds the
    four fields; the configuration then has the four fields, the two
    options as given, and the cache directory given if it is truthy, the
    default otherwise. *)
Theorem load_config_Ok model k l c cfg :
  load_config reg dflt model k l c = Ok cfg <->
  exists r e hm hp sr lang,
    reg = Ok r /\ py_getitem r model = Ok e /\
    py_getitem e "model" = Ok hm /\ py_getitem e "pin" = Ok hp /\
    py_getitem e "sampling_rate" = Ok sr /\
    py_getitem e "language" = Ok lang /\
    cfg = mkConfig hm hp sr lang k l (if py_truthy c then c else dflt).
Proof.
  unfold load_config. split.
  - intros Hcfg. res_inv.
    repeat match goal with
    | H1 : ?m = Ok ?x, H2 : ?m = Ok ?y |- _ =>
        assert (x = y) as -> by congruence; clear H2
    end.
    eexists _, _, _, _, _, _. by split_and!.
  - intros (r & e & hm & hp & sr & lang & -> & He & Hm & Hp & Hs & Hl & ->).
    simpl. by res_simpl.
Qed.

(** C34: an unknown model raises [KeyError] of the model; an entry that
    lacks a field raises [KeyError] of the first field missing, in the
    order [model], [pin], [sampling_rate], [language]. *)
Theorem load_config_missing model k l c d :
  reg = Ok (PDict d) ->
  (model ∉ dict_keys d ->
   load_config reg dflt model k l c = Err (KeyError model)) /\
  (forall e pre key post,
     dict_get model d = Some (PDict e) ->
     config_keys = pre ++ key :: post ->
     Forall (fun key' => key' ∈ dict_keys e) pre ->
     key ∉ dict_keys e ->
     load_config reg dflt model k l c = Err (KeyError key)).
Proof.
  intros ->. unfold load_config. cbn [bind]. split.
  - intros Hm%py_getitem_no_entry. by rewrite Hm.
  - intros e pre key post He Hk Hpre Hkey%py_getitem_no_entry.
    assert (Hent : py_getitem (PDict d) model = Ok (PDict e))
      by (simpl; by rewrite He).
    unfold config_keys in Hk.
    repeat (rewrite ?Hent; cbn [bind];
            destruct pre as [|? pre];
            [injection Hk as <- _; by rewrite Hkey|];
            injection Hk as <- Hk;
            apply Forall_cons in Hpre as [[? ->]%py_getitem_entry Hpre];
            cbn [bind]).
    by destruct pre.
Qed.

End load_config_facts.

(** ** The slice, in exact arithmetic *)

Section load_slice_exact.
Context `{TorchAudio}.
Implicit Types (f : PurePath) (s e ns sr nf : Z) (info : AudioMetaData).

Lemma of_int_nonzero ns : ns <> 0 -> Exact.of_int ns <> 0%Qc.
Proof. by rewrite of_int_eq_0. Qed.

Lemma seconds_per_frame_nonzero ns sr nf :
  ns <> 0 -> sr <> 0 -> nf <> 0 ->
  Exact.is_zero (Exact.of_int ns / Exact.of_int sr / Exact.of_int nf)%Qc = false.
Proof.
  intros Hns%of_int_nonzero Hsr%of_int_nonzero Hnf%of_int_nonzero.
  apply is_zero_false. unfold Exact.float in *. intros Hz.
  apply Hns.
  replace (Exact.of_int ns) with
    (Exact.of_int ns / Exact.of_int sr / Exact.of_int nf *
     Exact.of_int nf * Exact.of_int sr)%Qc by (by field).
  rewrite Hz. ring.
Qed.

Lemma slice_quotient s ns sr nf :
  ns <> 0 -> sr <> 0 -> nf <> 0 ->
  (Exact.of_int s / (Exact.of_int ns / Exact.of_int sr / Exact.of_int nf))%Qc =
  (Exact.of_int (s * sr * nf) / Exact.of_int ns)%Qc.
Proof.
  intros Hns%of_int_nonzero Hsr%of_int_nonzero Hnf%of_int_nonzero.
  rewrite !of_int_mul. unfold Exact.float in *. by field.
Qed.

(** The frame [load_slice] computes for an offset of [s] seconds. *)
Lemma frame_of_seconds s ns sr nf :
  ns <> 0 -> sr <> 0 -> nf <> 0 ->
  (q <- py_truediv (PInt s : pyval Exact.float)
         (PFloat (Exact.of_int ns / Exact.of_int sr / Exact.of_int nf)%Qc) ;;
   py_int q) =
  Ok (Z.quot (s * sr * nf) ns).
Proof.
  intros Hns Hsr Hnf. unfold py_truediv. simpl.
  rewrite seconds_per_frame_nonzero by done. simpl.
  by rewrite slice_quotient, trunc_div.
Qed.

Lemma load_slice_run f (s e : pyval Exact.float) info w r :
  ta_info f = Ok info -> ta_load f 0 (-1) = Ok (w, r) ->
  load_slice f s e =
  (n_seconds <- py_truediv (PInt (ta_shape1 w)) (PInt (sample_rate info)) ;;
   seconds_per_frame <- py_truediv n_seconds (PInt (num_frames info)) ;;
   start <- (q <- py_truediv s seconds_per_frame ;; py_int q) ;;
   end_ <- (q <- py_truediv e seconds_per_frame ;; py_int q) ;;
   ta_load f start (end_ - start)).
Proof.
  intros Hinfo Hload. unfold load_slice. rewrite Hinfo, Hload, !bind_Ok_l.
  cbn [fst].
  destruct (py_truediv (PInt (ta_shape1 w)) _) as [n_seconds|]; [|done].
  rewrite !bind_Ok_l.
  destruct (py_truediv n_seconds _) as [spf|]; [|done]. rewrite !bind_Ok_l.
  destruct (py_truediv s spf) as [q|]; [|done]. rewrite !bind_Ok_l.
  destruct (py_int q); [|done]. rewrite !bind_Ok_l.
  destruct (py_truediv e spf) as [q'|]; [|done]. by rewrite !bind_Ok_l.
Qed.

(** Where [frame_at] comes from: in exact arithmetic, for offsets of
    whole seconds in a file whose sampling rate, frame count and loaded
    length are not zero, [load_slice] asks torchaudio for the frames from
    [frame_at s], [frame_at e - frame_at s] of them.  CPython computes in
    binary64 and can miss this by a frame ([LoadersB64]). *)
Lemma load_slice_exact f s e info w r :
  ta_info f = Ok info -> ta_load f 0 (-1) = Ok (w, r) ->
  sample_rate info <> 0 -> num_frames info <> 0 -> ta_shape1 w <> 0 ->
  load_slice (F := Exact.float) f (PInt s) (PInt e) =
  ta_load f (frame_at info (ta_shape1 w) s)
    (frame_at info (ta_shape1 w) e - frame_at info (ta_shape1 w) s).
Proof.
  intros Hinfo Hload Hsr Hnf Hns. rewrite (load_slice_run _ _ _ _ _ _ Hinfo Hload).
  rewrite py_truediv_int_int. destruct (Z.eqb_spec (sample_rate info) 0); [done|].
  cbn [bind of_option f_int_div exact].
  rewrite py_truediv_float_int. cbn [bind of_option f_of_int f_is_zero f_div exact].
  rewrite is_zero_of_int. destruct (Z.eqb_spec (num_frames info) 0); [done|].
  cbn [bind]. by rewrite !frame_of_seconds.
Qed.

(** C35: in exact arithmetic, a file whose sampling rate, frame count or
    loaded length is zero makes [load_slice] raise [ZeroDivisionError]:
    an empty recording has no slice, not even an empty one. *)
Theorem load_slice_zero f s e info w r :
  ta_info f = Ok info -> ta_load f 0 (-1) = Ok (w, r) ->
  sample_rate info = 0 \/ num_frames info = 0 \/ ta_shape1 w = 0 ->
  load_slice (F := Exact.float) f (PInt s) (PInt e) = Err ZeroDivisionError.
Proof.
  intros Hinfo Hload Hz. rewrite (load_slice_run _ _ _ _ _ _ Hinfo Hload).
  rewrite py_truediv_int_int. destruct (Z.eqb_spec (sample_rate info) 0); [done|].
  cbn [bind of_option f_int_div exact].
  rewrite py_truediv_float_int. cbn [bind of_option f_of_int f_is_zero f_div exact].
  rewrite is_zero_of_int. destruct (Z.eqb_spec (num_frames info) 0); [done|].
  destruct Hz as [?|[?|Hw]]; [done|done|]. rewrite Hw.
  cbn [bind]. unfold py_truediv. by simpl.
Qed.

End load_slice_exact.
