(* ===== verification/LoadersB64.v ===== *)
(** * LoadersB64: the loaders on concrete inputs

    [load_slice] evaluated against a torchaudio that records what it is
    asked for ([spy]), in exact arithmetic and in binary64: offsets given
    in tenths of a second come out one frame early when the float
    nearest to the offset lies below it and the division does not round
    back up, because [int] truncates; and on a recording whose length in
    seconds is not a binary fraction the quotient of a whole second by
    the seconds per frame falls just below the frame, so that every whole
    second but zero comes out one frame early.  [load_config] evaluated
    on a small registry.  The concrete instances of the theorems of
    [Loaders]. *)

From Stdlib Require Import ZArith String List Lia SpecFloat QArith Qcanon.
From stdpp Require Import base tactics option list strings.
From S2P Require Import Prelude PyFloat PyValue PosixPath Loaders.

Local Open Scope string_scope.
Local Open Scope list_scope.
Local Open Scope Z_scope.
Local Open Scope res_scope.

(** A torchaudio that answers any file name with a recording of [ns]
    frames at [sr] Hz whose header says [nf] frames, and returns as the
    waveform the offset and the number of frames it was asked for; it
    decodes a file of bytes as one frame per byte, and no empty file. *)
Definition spy (sr nf ns : Z) : TorchAudio := {|
  waveform := Z * Z;
  ta_info _ := Ok (mkAudioMetaData sr nf);
  ta_load _ offset n := Ok ((offset, if n =? -1 then ns else n), sr);
  ta_shape1 w := w.2;
  ta_decode b _ :=
    match b with
    | [] => Err ValueError
    | _ => Ok ((0, Z.of_nat (length b)), sr)
    end;
|}.

(** Thirty seconds at 16 kHz. *)
Definition recording : TorchAudio := spy 16000 480000 480000.

(** An empty recording. *)
Definition silence : TorchAudio := spy 16000 0 0.

Definition wav : PurePath := parse "audio/one.wav".

(** The float nearest to [k / 10], as the literal of [k] tenths reads. *)
Definition tenths (k : Z) : pyval B64.float :=
  match B64.int_div k 10 with
  | Some x => PFloat x
  | None => PNone
  end.

(** The start [load_slice] asks for is [lo] or [lo + 1]. *)
Definition starts_within (k : Z) : bool :=
  match load_slice (H0 := recording) wav (tenths k) (tenths k) with
  | Ok ((offset, _), _) => (1600 * k - 1 <=? offset) && (offset <=? 1600 * k)
  | Err _ => false
  end.

(** Thirty-four seconds and a bit at 48 kHz. *)
Definition recording48 : TorchAudio := spy 48000 1649845 1649845.

Definition info48 : AudioMetaData := mkAudioMetaData 48000 1649845.

(** One frame, for every offset but zero. *)
Definition early (t : Z) : Z := if t =? 0 then 0 else 1.

(** The slice [load_slice] asks for between [s] and [e] whole seconds of
    [recording48] starts and ends one frame before the reference. *)
Definition seconds_early (s e : Z) : bool :=
  match load_slice (F := B64.float) (H0 := recording48) wav
          (PInt s) (PInt e) with
  | Ok ((offset, n), sr) =>
      (offset =? frame_at info48 1649845 s - early s) &&
      (offset + n =? frame_at info48 1649845 e - early e) &&
      (sr =? 48000)
  | Err _ => false
  end.

(** A registry of two models, the second without a language. *)
Definition registry : pyval B64.float :=
  PDict [("english",
          PDict [("model", PStr "facebook/wav2vec2-large-960h");
                 ("pin", PStr "22aad52");
                 ("sampling_rate", PInt 16000);
                 ("language", PStr "en")]);
         ("draft",
          PDict [("model", PStr "local/draft"); ("pin", PNone);
                 ("sampling_rate", PInt 16000)])].

Definition cache_default : pyval B64.float := PStr "~/.cache/timething".

(** C36: in binary64, the slice from 0.7 s to 1.5 s of thirty seconds at
    16 kHz is asked for from frame 11199 and with 12801 frames, where the
    offsets in exact tenths give frame 11200 and 12800 frames. *)
Theorem load_slice_binary64_example :
  load_slice (H0 := recording) wav (tenths 7) (tenths 15) =
    Ok ((11199, 12801), 16000) /\
  load_slice (F := Exact.float) (H0 := recording) wav
    (PFloat (Exact.of_int 7 / Exact.of_int 10)%Qc)
    (PFloat (Exact.of_int 15 / Exact.of_int 10)%Qc) =
    Ok ((11200, 12800), 16000).
Proof. split; by vm_compute. Qed.

(** C37: in binary64, for every offset of a whole number of tenths of a
    second below thirty seconds, the frame [load_slice] starts at is the
    frame of the exact offset or the one before it. *)
Theorem load_slice_binary64_within (k : Z) :
  0 <= k < 300 ->
  exists offset n,
    load_slice (H0 := recording) wav (tenths k) (tenths k) =
      Ok ((offset, n), 16000) /\
    1600 * k - 1 <= offset <= 1600 * k.
Proof.
  intros Hk.
  assert (Hs : starts_within k = true).
  { apply (forallb_range starts_within 300); [by vm_compute|lia]. }
  unfold starts_within in Hs.
  destruct (load_slice _ _ _) as [[[offset n] sr]|] eqn:Hl; [|done].
  assert (sr = 16000) as ->.
  { unfold load_slice in Hl. simpl in Hl. res_inv. by simplify_eq. }
  exists offset, n. split; [done|]. lia.
Qed.

(** C38: in binary64 [load_slice] misses the reference formula on whole
    seconds: on a recording of 1649845 frames at 48 kHz, every slice
    between two whole seconds of the first minute starts one frame
    before [frame_at] of its start, unless it starts at zero, and ends
    one frame before [frame_at] of its end. *)
Theorem load_slice_binary64_seconds (s e : Z) :
  0 <= s <= e -> e < 60 ->
  exists offset n,
    load_slice (F := B64.float) (H0 := recording48) wav (PInt s) (PInt e) =
      Ok ((offset, n), 48000) /\
    offset = frame_at info48 1649845 s - early s /\
    offset + n = frame_at info48 1649845 e - early e.
Proof.
  intros Hs He.
  assert (Hse : seconds_early s e = true).
  { apply (forallb_range (seconds_early s) 60); [|lia].
    apply (forallb_range
             (fun s => forallb (seconds_early s) (map Z.of_nat (seq 0 60))) 60);
      [by vm_compute|lia]. }
  unfold seconds_early in Hse.
  destruct (load_slice _ _ _) as [[[offset n] sr]|]; [|done].
  apply andb_true_iff in Hse as [[Ho Hn]%andb_true_iff Hsr].
  exists offset, n. split_and!; [f_equal; f_equal|..]; lia.
Qed.

Lemma load_slice_binary64_seconds_witness :
  exists offset n,
    load_slice (F := B64.float) (H0 := recording48) wav (PInt 37) (PInt 38) =
      Ok ((offset, n), 48000) /\
    offset = frame_at info48 1649845 37 - early 37 /\
    offset + n = frame_at info48 1649845 38 - early 38.
Proof. apply load_slice_binary64_seconds; lia. Defined.

Lemma load_slice_binary64_within_witness :
  exists offset n,
    load_slice (H0 := recording) wav (tenths 3) (tenths 3) =
      Ok ((offset, n), 16000) /\
    1600 * 3 - 1 <= offset <= 1600 * 3.
Proof. apply load_slice_binary64_within. lia. Defined.

Lemma load_config_missing_witness :
  load_config (Ok registry) cache_default "spanish" (PInt 5) (PBool false)
    PNone = Err (KeyError "spanish") /\
  load_config (Ok registry) cache_default "draft" (PInt 5) (PBool false)
    PNone = Err (KeyError "language").
Proof.
  destruct (load_config_missing (Ok registry) cache_default "draft"
              (PInt 5) (PBool false) PNone _ eq_refl) as [_ Hfield].
  destruct (load_config_missing (Ok registry) cache_default "spanish"
              (PInt 5) (PBool false) PNone _ eq_refl) as [Hmodel _].
  split.
  - apply Hmodel. compute_done.
  - eapply (Hfield _ ["model"; "pin"; "sampling_rate"] "language" []);
      [reflexivity|reflexivity|compute_done|compute_done].
Defined.

Example load_slice_exact_example :
  load_slice (F := Exact.float) (H0 := recording) wav (PInt 2) (PInt 5) =
  Ok ((32000, 48000), 16000).
Proof.
  by rewrite (load_slice_exact (H := recording) wav 2 5
                (mkAudioMetaData 16000 480000) (0, 480000) 16000).
Qed.

(** The empty recording in binary64: the same exception as in exact
    arithmetic. *)
Example load_slice_zero_binary64 :
  load_slice (F := B64.float) (H0 := silence) wav (PInt 0) (PInt 0) =
  Err ZeroDivisionError.
Proof. by vm_compute. Qed.

Lemma load_slice_zero_witness :
  load_slice (F := Exact.float) (H0 := silence) wav (PInt 0) (PInt 0) =
  Err ZeroDivisionError.
Proof.
  apply (load_slice_zero (H := silence) wav 0 0
           (mkAudioMetaData 16000 0) (0, 0) 16000); auto.
Defined.
