(* ===== verification/LoadAudio.v ===== *)
(** * LoadAudio: [load_audio] and its temporary file

    [load_audio] (utils.py, lines 55-65) hands a blob of bytes to
    torchaudio through a temporary file: [mkstemp] creates the file, the
    bytes are written and flushed, [torchaudio.load] reads the file, and
    [os.unlink] removes it.  The state is the temporary directory, a
    finite map from file names to contents.  The names [mkstemp] tries
    are a parameter, [candidates]: what the random name generator of
    [tempfile] yields for a suffix, in order.  As [tempfile.mkstemp]
    does, [mkstemp] takes the first name no file has, and raises
    [FileExistsError] when every candidate is taken.  Nothing catches an
    exception of [torchaudio.load], so what the directory holds
    afterwards depends on whether the bytes decode. *)

From Stdlib Require Import ZArith String List.
From stdpp Require Import countable gmap base tactics option list strings.
From S2P Require Import Prelude PyFloat PyValue PosixPath Loaders LoadersB64.

Local Open Scope string_scope.
Local Open Scope list_scope.
Local Open Scope res_scope.

Abbreviation tmpdir := (gmap string (list Byte.byte)).

Section load_audio.
Context `{TorchAudio}.
Variable candidates : string -> list string.
Implicit Types (fs : tmpdir) (path format suffix : string).
Implicit Types (content : list Byte.byte).

Definition is_free fs path : bool := bool_decide (fs !! path = None).

(** The loop of [mkstemp]: the first candidate that is not taken. *)
Definition first_free fs suffix : option string :=
  find (is_free fs) (candidates suffix).

(** [mkstemp(suffix=...)]: a new, empty file; the descriptor is the path. *)
Definition mkstemp suffix : sres tmpdir exn string :=
  fun fs =>
    match first_free fs suffix with
    | Some path => (<[path := []]> fs, Ok path)
    | None => (fs, Err FileExistsError)
    end.

(** [f.write(content); f.flush()] on the open descriptor, then the close
    at the end of the [with] block. *)
Definition fd_write path content : sres tmpdir exn unit :=
  fun fs => (<[path := content]> fs, Ok tt).

(** [torchaudio.load(str(path), format=format)]. *)
Definition torchaudio_load path format : sres tmpdir exn (waveform * Z) :=
  fun fs =>
    match fs !! path with
    | Some b => (fs, ta_decode b format)
    | None => (fs, Err FileNotFoundError)
    end.

Definition os_unlink path : sres tmpdir exn unit :=
  fun fs =>
    match fs !! path with
    | Some _ => (delete path fs, Ok tt)
    | None => (fs, Err FileNotFoundError)
    end.

Definition load_audio content format : sres tmpdir exn (waveform * Z) :=
  path <~ mkstemp ("." +:+ format) ;;
  _ <~ fd_write path content ;;
  r <~ torchaudio_load path format ;;
  _ <~ os_unlink path ;;
  sret r.

(** What [load_audio] returns and leaves: with a free name, the decoded
    audio and the directory as it was, or the exception of the decoder
    and the temporary file still there. *)
Definition load_audio_outcome content format fs
  : tmpdir * res exn (waveform * Z) :=
  match first_free fs ("." +:+ format) with
  | None => (fs, Err FileExistsError)
  | Some path =>
      match ta_decode content format with
      | Ok r => (fs, Ok r)
      | Err e => (<[path := content]> fs, Err e)
      end
  end.

Lemma first_free_None fs suffix path :
  first_free fs suffix = Some path -> fs !! path = None.
Proof.
  unfold first_free, is_free. intros [_ Hp]%find_some.
  by apply bool_decide_eq_true in Hp.
Qed.

(** C39: [load_audio] returns what torchaudio decodes from the bytes and
    leaves the temporary directory as it found it; but when torchaudio
    raises, the exception passes through and the temporary file, with the
    bytes in it, is left behind. *)
Theorem load_audio_run content format fs :
  load_audio content format fs = load_audio_outcome content format fs.
Proof.
  unfold load_audio, load_audio_outcome, sbind, mkstemp, fd_write,
    torchaudio_load, os_unlink, sret.
  destruct (first_free fs ("." +:+ format)) as [path|] eqn:Hfree; [|done].
  apply first_free_None in Hfree.
  rewrite insert_insert_eq, lookup_insert_eq.
  destruct (ta_decode content format); [|done].
  by rewrite lookup_insert_eq, delete_insert_eq, delete_id.
Qed.

End load_audio.

(** On the recording torchaudio of [LoadersB64], with two candidate
    names: one byte decodes and the directory stays empty; no byte does
    not decode, and the empty temporary file stays; with the first name
    taken the second one is used. *)
Example load_audio_leak :
  let names := fun suffix => ["tmp8f3a" +:+ suffix; "tmpq1w2" +:+ suffix] in
  let decoded := load_audio (H := recording) names [Byte.x78] "wav" ∅ in
  let failed := load_audio (H := recording) names [] "wav" ∅ in
  let again := load_audio (H := recording) names [] "wav" failed.1 in
  decoded.2 = Ok ((0, 1), 16000)%Z /\ map_to_list decoded.1 = [] /\
  failed.2 = Err ValueError /\
  map_to_list failed.1 = [("tmp8f3a.wav", [])] /\
  length (map_to_list again.1) = 2.
Proof. by vm_compute. Qed.
